(** * Felix Poly-Sin Lab: the trait store and the analysis engine

    A shallow embedding of [backend/services/trait_manager.py],
    [backend/services/felix_engine.py] and the [/api/analyze] route of
    [backend/main.py], with the properties of the trait-knowledge-base
    lifecycle stated and proved over it.

    Python objects are modelled by value.  The objects the program handles
    all come out of [json.load] / [json.loads], so they are the seven JSON
    shaped Python types.  A [dict] is an association list in insertion
    order (Python dicts iterate in insertion order, and the order of the
    candidates is observable in the result of [assimilate]).  Exceptions
    leave the store as mutated so far, so the monad returns the state on
    both outcomes. *)

From Stdlib Require Import List ZArith NArith Bool String Ascii Lia.
From Stdlib Require Import Floats.SpecFloat.
Import ListNotations.

Set Implicit Arguments.
Set Warnings "-register-all".

(** ** Text *)

(** A Python [str] is a sequence of Unicode code points. *)
Definition char := N.
Definition str := list char.

(** String literals of the source, as code points. *)
Definition u (s : string) : str :=
  List.map N_of_ascii (list_ascii_of_string s).

Fixpoint str_eqb (a b : str) : bool :=
  match a, b with
  | [], [] => true
  | x :: a', y :: b' => N.eqb x y && str_eqb a' b'
  | _, _ => false
  end.

(** [s.startswith(p)] *)
Fixpoint startswith (p s : str) : bool :=
  match p, s with
  | [], _ => true
  | x :: p', y :: s' => N.eqb x y && startswith p' s'
  | _ :: _, [] => false
  end.

(** [p in s] for two strings: substring test. *)
Fixpoint str_contains (p s : str) : bool :=
  startswith p s ||
  match s with
  | [] => false
  | _ :: s' => str_contains p s'
  end.

(** [sep.join(parts)] *)
Fixpoint join (sep : str) (parts : list str) : str :=
  match parts with
  | [] => []
  | [x] => x
  | x :: rest => x ++ sep ++ join sep rest
  end.

(** ** Python objects *)

Definition float := spec_float.

(** The values [json.loads] produces, which is all the program ever holds
    in the library, in a candidate mapping or in an analysis result. *)
Inductive Any : Type :=
| PyNone
| PyBool (b : bool)
| PyInt (z : Z)
| PyFloat (f : float)
| PyStr (s : str)
| PyList (l : list Any)
| PyDict (d : list (str * Any)).

Definition dict := list (str * Any).

(** [d.get(k)] on the association list: the entry of key [k]. *)
Fixpoint dict_get (k : str) (d : dict) : option Any :=
  match d with
  | [] => None
  | (k', v) :: d' => if str_eqb k k' then Some v else dict_get k d'
  end.

(** [k in d] *)
Definition dict_contains (k : str) (d : dict) : bool :=
  match dict_get k d with Some _ => true | None => false end.

(** [d[k] = v]: an existing key keeps its position and gets the new value,
    a new key is appended. *)
Fixpoint dict_set (k : str) (v : Any) (d : dict) : dict :=
  match d with
  | [] => [(k, v)]
  | (k', v') :: d' =>
      if str_eqb k k' then (k', v) :: d' else (k', v') :: dict_set k v d'
  end.

Definition keys (d : dict) : list str := List.map fst d.

(** ** Exceptions *)

(** The exception classes the modelled code can raise.  All of them are
    Python built-ins or belong to the standard library ([JSONDecodeError]
    is [json.JSONDecodeError], a subclass of [ValueError]); the source
    defines no exception class of its own.  [RecursionError] is what the
    interpreter raises when nested calls exhaust its stack, and
    [StopIteration] what the scanner of the decoder raises, for the
    decoder to catch, where it finds no value.  [OracleError] stands for
    whatever the Gemini client raises when the call fails. *)
Inductive exception : Type :=
| KeyError
| TypeError
| AttributeError
| ValueError
| JSONDecodeError
| RecursionError
| StopIteration
| OracleError.

Definition class_name (e : exception) : str :=
  match e with
  | KeyError => u "KeyError"
  | TypeError => u "TypeError"
  | AttributeError => u "AttributeError"
  | ValueError => u "ValueError"
  | JSONDecodeError => u "JSONDecodeError"
  | RecursionError => u "RecursionError"
  | StopIteration => u "StopIteration"
  | OracleError => u "OracleError"
  end.

Inductive result (A : Type) : Type :=
| Ok (a : A)
| Raise (e : exception).
Arguments Ok {A} a.
Arguments Raise {A} e.

Definition rbind {A B} (r : result A) (f : A -> result B) : result B :=
  match r with
  | Ok a => f a
  | Raise e => Raise e
  end.

(** ** Operators on objects *)

(** [k in o] for a string [k]: key test on a dict, element test on a list,
    substring test on a string, [TypeError] on anything else ("argument of
    type ... is not iterable"). *)
Definition py_contains (k : str) (o : Any) : result bool :=
  match o with
  | PyDict d => Ok (dict_contains k d)
  | PyList l =>
      Ok (existsb (fun x => match x with PyStr s => str_eqb k s | _ => false end) l)
  | PyStr s => Ok (str_contains k s)
  | _ => Raise TypeError
  end.

(** [o[k]] for a string [k]: [KeyError] on a dict without the key,
    [TypeError] on every other type (string and list indices must be
    integers, the rest is not subscriptable). *)
Definition py_getitem (o : Any) (k : str) : result Any :=
  match o with
  | PyDict d =>
      match dict_get k d with
      | Some v => Ok v
      | None => Raise KeyError
      end
  | _ => Raise TypeError
  end.

(** [o[k] = v] for a string [k]; the object after the store. *)
Definition py_setitem (o : Any) (k : str) (v : Any) : result Any :=
  match o with
  | PyDict d => Ok (PyDict (dict_set k v d))
  | _ => Raise TypeError
  end.

(** [o.get(k, default)]: only a dict has the method. *)
Definition py_get (o : Any) (k : str) (default : Any) : result Any :=
  match o with
  | PyDict d =>
      match dict_get k d with
      | Some v => Ok v
      | None => Ok default
      end
  | _ => Raise AttributeError
  end.

(** [o.items()] *)
Definition py_items (o : Any) : result (list (str * Any)) :=
  match o with
  | PyDict d => Ok d
  | _ => Raise AttributeError
  end.

(** ** The trait manager *)

(** What the file holds: a document, kept as the object [json.dump] was
    given, or a text of another origin that [json.load] does not decode
    (an empty or a truncated file, say), kept as the exception it raises
    on it. *)
Inductive content : Type :=
| Document (doc : Any)
| Undecodable (e : exception).

(** The instance attribute [_library] and the file [TRAIT_FILE].  The file
    is kept as the sequence of what it has held, oldest first: its
    content is the last one, it does not exist while the sequence is empty,
    and a write is observable even when it repeats the content.  The file
    system is taken to be reliable. *)
Record TraitManager : Type := {
  _library : Any;
  TRAIT_FILE : list content
}.

(** State and exception monad: an exception keeps the state reached. *)
Definition M (A : Type) : Type := TraitManager -> result A * TraitManager.

Definition ret {A} (a : A) : M A := fun self => (Ok a, self).

Definition raise {A} (e : exception) : M A := fun self => (Raise e, self).

Definition bind {A B} (m : M A) (f : A -> M B) : M B :=
  fun self =>
    match m self with
    | (Ok a, self') => f a self'
    | (Raise e, self') => (Raise e, self')
    end.

Definition lift {A} (r : result A) : M A := fun self => (r, self).

Declare Scope py_scope.
Delimit Scope py_scope with py.
Notation "x <- m ;; k" := (bind m (fun x => k))
  (at level 61, m at next level, right associativity) : py_scope.
Notation "m ;;; k" := (bind m (fun _ => k))
  (at level 61, right associativity) : py_scope.
Open Scope py_scope.

Definition get_self_library : M Any := fun self => (Ok (_library self), self).

Definition set_self_library (lib : Any) : M unit :=
  fun self => (Ok tt, {| _library := lib; TRAIT_FILE := TRAIT_FILE self |}).

(** [def _save(self)]: [json.dump(self._library, f, indent=2)]. *)
Definition _save : M unit :=
  fun self =>
    (Ok tt, {| _library := _library self;
               TRAIT_FILE := TRAIT_FILE self ++ [Document (_library self)] |}).

(** The skeleton [load] builds when the file is absent. *)
Definition empty_library : Any :=
  PyDict [ (u "meta", PyDict [ (u "version", PyStr (u "2.1"));
                              (u "description", PyStr (u "Poly-Sin Weighting Library")) ]);
           (u "traits", PyDict []) ].

(** [def load(self)]: where the file exists, [json.load] gives its
    document or raises, before anything is assigned. *)
Definition load : M Any :=
  fun self =>
    match last (List.map Some (TRAIT_FILE self)) None with
    | Some (Document doc) =>
        (Ok doc, {| _library := doc; TRAIT_FILE := TRAIT_FILE self |})
    | Some (Undecodable e) => (Raise e, self)
    | None =>
        (set_self_library empty_library ;;;
         _save ;;;
         get_self_library) self
    end.

(** [TraitManager()]: [__init__] sets [_library] to [{}] and calls [load];
    there is an instance when [load] returns. *)
Definition new_TraitManager (file : list content) : result TraitManager :=
  match load {| _library := PyDict []; TRAIT_FILE := file |} with
  | (Ok _, self) => Ok self
  | (Raise e, _) => Raise e
  end.

(** [def get_library(self)] *)
Definition get_library : M Any := get_self_library.

(** [def get_traits(self)]: [self._library.get("traits", {})]. *)
Definition get_traits : M Any :=
  lib <- get_self_library ;;
  lift (py_get lib (u "traits") (PyDict [])).

(** The body of the loop of [assimilate] for one candidate; [added] is the
    local list, returned as extended. *)
Definition assimilate_body (trait_key : str) (trait_data : Any)
    (added : list str) : M (list str) :=
  lib <- get_self_library ;;
  traits <- lift (py_getitem lib (u "traits")) ;;
  known <- lift (py_contains trait_key traits) ;;
  if (known : bool) then ret added (* continue *)
  else
    has_definition <- lift (py_contains (u "definition") trait_data) ;;
    valid <- (if (has_definition : bool)
              then lift (py_contains (u "sin_weights") trait_data)
              else ret false) ;;
    if (valid : bool) then
      lib <- get_self_library ;;
      traits <- lift (py_getitem lib (u "traits")) ;;
      traits' <- lift (py_setitem traits trait_key trait_data) ;;
      lib' <- lift (py_setitem lib (u "traits") traits') ;;
      set_self_library lib' ;;;
      ret (added ++ [trait_key])
    else ret added.

Fixpoint assimilate_loop (items : list (str * Any)) (added : list str)
    : M (list str) :=
  match items with
  | [] => ret added
  | (trait_key, trait_data) :: rest =>
      added' <- assimilate_body trait_key trait_data added ;;
      assimilate_loop rest added'
  end.

(** [def assimilate(self, new_traits)] *)
Definition assimilate (new_traits : Any) : M (list str) :=
  items <- lift (py_items new_traits) ;;
  added <- assimilate_loop items [] ;;
  (match added with
   | [] => ret tt
   | _ :: _ => _save
   end) ;;;
  ret added.

(** ** Numbers as text *)

(** [str(z)] for a Python [int]. *)
Definition digit_char (d : Z) : char := Z.to_N (48 + d).

Fixpoint digits_of_pos (fuel : nat) (z : Z) (acc : str) : str :=
  match fuel with
  | O => acc
  | S fuel' =>
      let acc' := digit_char (z mod 10) :: acc in
      if z / 10 =? 0 then acc' else digits_of_pos fuel' (z / 10) acc'
  end%Z.

Definition nat_digits (z : Z) : str :=
  digits_of_pos (S (Z.to_nat (Z.log2 z))) z [].

Definition str_of_int (z : Z) : str :=
  if (z <? 0)%Z then u "-" ++ nat_digits (- z) else nat_digits z.

(** *** Binary64

    A Python [float] is an IEEE 754 binary64 number, here the
    specification floats of the standard library at precision 53 and
    maximal exponent 1024.  The program never computes with floats: it
    reads them from decimal text ([json.loads]), compares them with [0]
    and prints them ([repr]).  All three are exact integer computations. *)

Definition prec : Z := 53.
Definition emax : Z := 1024.

(** The float nearest to [(-1)^neg * m * 10^e], ties to even: what
    [float("<digits>e<e>")] returns.  With [d] digits in [m] the value
    lies between [10^(d-1+e)] and [10^(d+e)], so far beyond the range of
    binary64 (largest finite value below [2 * 10^308], smallest positive
    one above [4 * 10^-324]) the result is known without computing the
    power of ten. *)
Definition float_of_decimal (neg : bool) (m : Z) (e : Z) : float :=
  match m with
  | Zpos p =>
      let d := Z.of_nat (List.length (nat_digits m)) in
      if (400 <? d + e)%Z then S754_infinity neg
      else if (d + e <? -400)%Z then S754_zero neg
      else if (0 <=? e)%Z
      then binary_round prec emax neg (Z.to_pos (Zpos p * 10 ^ e)) 0
      else SFdiv prec emax (S754_finite neg p 0)
                 (S754_finite false (Z.to_pos (10 ^ (- e))) 0)
  | _ => S754_zero neg
  end.

Definition float_eqb (a b : float) : bool :=
  match a, b with
  | S754_zero s, S754_zero s' => Bool.eqb s s'
  | S754_infinity s, S754_infinity s' => Bool.eqb s s'
  | S754_nan, S754_nan => true
  | S754_finite s m e, S754_finite s' m' e' =>
      Bool.eqb s s' && Pos.eqb m m' && Z.eqb e e'
  | _, _ => false
  end.

(** [decpt num den]: the [k] with [10^(k-1) <= num/den < 10^k]. *)
Fixpoint decpt_down (fuel : nat) (num den : Z) (k : Z) : Z :=
  match fuel with
  | O => k
  | S fuel' =>
      if (num * 10 <? den)%Z then decpt_down fuel' (num * 10) den (k - 1) else k
  end.

Definition decpt (num den : Z) : Z :=
  if (den <=? num)%Z
  then Z.of_nat (List.length (nat_digits (num / den)))
  else decpt_down 400 num den 0.

(** [num/den * 10^s] rounded down, and whether that was exact. *)
Definition scaled_floor (num den s : Z) : Z * bool :=
  let n := if (0 <=? s)%Z then (num * 10 ^ s)%Z else num in
  let d := if (0 <=? s)%Z then den else (den * 10 ^ (- s))%Z in
  ((n / d)%Z, (n mod d =? 0)%Z).

(** The shortest decimal [d * 10^(k-n)] that reads back as [f], tried
    with [n = 1, 2, ...] significant digits; with [n = 17] one always
    does.  Of the two neighbours of the exact value with [n] digits, the
    nearer one that reads back is taken, and the even one when the exact
    value lies half way between them.  Returns [d] and [n]. *)
Fixpoint shortest_digits (fuel : nat) (n : Z) (f : float) (num den k : Z)
    : Z * Z :=
  let '(lo, exact) := scaled_floor num den (n - k) in
  let hi := if exact then lo else (lo + 1)%Z in
  let ok_lo := float_eqb (float_of_decimal false lo (k - n)) f in
  let ok_hi := float_eqb (float_of_decimal false hi (k - n)) f in
  let num' := if (0 <=? n - k)%Z then (num * 10 ^ (n - k))%Z else num in
  let den' := if (0 <=? n - k)%Z then den else (den * 10 ^ (k - n))%Z in
  let below := (num' - lo * den')%Z in
  let above := (hi * den' - num')%Z in
  let lo_nearer := ((below <? above) || (below =? above) && Z.even lo)%Z in
  let pick :=
    if ok_lo && ok_hi then Some (if lo_nearer then lo else hi)
    else if ok_lo then Some lo
    else if ok_hi then Some hi
    else None in
  match pick, fuel with
  | Some d, _ => (d, n)
  | None, O => (lo, n)
  | None, S fuel' => shortest_digits fuel' (n + 1) f num den k
  end.

Fixpoint strip_zeros (fuel : nat) (d : Z) : Z :=
  match fuel with
  | O => d
  | S fuel' => if (d mod 10 =? 0)%Z then strip_zeros fuel' (d / 10) else d
  end.

Definition zeros (n : Z) : str := List.repeat 48%N (Z.to_nat n).

(** The layout of [repr] for the digit string [ds] with the decimal point
    after [k] digits: exponent notation when [k <= -4] or [k > 16]. *)
Definition float_layout (ds : str) (k : Z) : str :=
  let n := Z.of_nat (List.length ds) in
  if ((k <=? -4) || (16 <? k))%Z then
    let x := (k - 1)%Z in
    let xs := nat_digits (Z.abs x) in
    firstn 1 ds
      ++ (if (1 <? n)%Z then u "." ++ skipn 1 ds else [])
      ++ u "e" ++ (if (x <? 0)%Z then u "-" else u "+")
      ++ (if (Z.abs x <? 10)%Z then u "0" else []) ++ xs
  else if (k <=? 0)%Z then u "0." ++ zeros (- k) ++ ds
  else if (n <=? k)%Z then ds ++ zeros (k - n) ++ u ".0"
  else firstn (Z.to_nat k) ds ++ u "." ++ skipn (Z.to_nat k) ds.

(** [repr(f)], which is also [str(f)] and what an f-string prints. *)
Definition repr_float (f : float) : str :=
  match f with
  | S754_nan => u "nan"
  | S754_infinity s => if s then u "-inf" else u "inf"
  | S754_zero s => if s then u "-0.0" else u "0.0"
  | S754_finite s m e =>
      let num := if (0 <=? e)%Z then (Zpos m * 2 ^ e)%Z else Zpos m in
      let den := if (0 <=? e)%Z then 1%Z else (2 ^ (- e))%Z in
      let k := decpt num den in
      let '(d, n) := shortest_digits 16 1 (S754_finite false m e) num den k in
      (* a candidate rounded up to [10^n] has one digit more *)
      let k' := (k + (Z.of_nat (List.length (nat_digits d)) - n))%Z in
      (if s then u "-" else []) ++ float_layout (nat_digits (strip_zeros 20 d)) k'
  end.

(** Reading the text back, to state results in. *)
Definition show (s : str) : string :=
  string_of_list_ascii (List.map ascii_of_N s).

(** ** More operators *)

(** Truth value of an object ([if not traits:]). *)
Definition py_bool (o : Any) : bool :=
  match o with
  | PyNone => false
  | PyBool b => b
  | PyInt z => negb (z =? 0)%Z
  | PyFloat (S754_zero _) => false
  | PyFloat _ => true
  | PyStr s => match s with [] => false | _ => true end
  | PyList l => match l with [] => false | _ => true end
  | PyDict d => match d with [] => false | _ => true end
  end.

(** [w > 0]: defined on numbers (a [bool] is an [int]), [TypeError] on
    [None], strings, lists and dicts.  A NaN compares false. *)
Definition py_gt_zero (w : Any) : result bool :=
  match w with
  | PyBool b => Ok b
  | PyInt z => Ok (0 <? z)%Z
  | PyFloat f => Ok (SFltb (S754_zero false) f)
  | _ => Raise TypeError
  end.

(** Python's white space: [str.isspace], which is also what [str.strip]
    removes and what [\s] matches in a [str] pattern. *)
Definition isspace (c : char) : bool :=
  ((9 <=? c) && (c <=? 13) || (28 <=? c) && (c <=? 32)
   || (c =? 133) || (c =? 160) || (c =? 5760)
   || (8192 <=? c) && (c <=? 8202) || (c =? 8232) || (c =? 8233)
   || (c =? 8239) || (c =? 8287) || (c =? 12288))%N.

(** [s.lstrip()], [s.rstrip()], [s.strip()] *)
Fixpoint lstrip (s : str) : str :=
  match s with
  | c :: s' => if isspace c then lstrip s' else s
  | [] => []
  end.

Definition rstrip (s : str) : str := rev (lstrip (rev s)).

Definition strip (s : str) : str := rstrip (lstrip s).

Section Engine.

(** [repr] of a list or a dict, which is what an f-string prints for one.
    It is part of the interpreter (its treatment of a string depends on the
    Unicode tables) and is taken as given. *)
Variable py_repr : Any -> str.

(** What an f-string prints for [{o}]: [str(o)]. *)
Definition py_format (o : Any) : str :=
  match o with
  | PyNone => u "None"
  | PyBool b => if b then u "True" else u "False"
  | PyInt z => str_of_int z
  | PyFloat f => repr_float f
  | PyStr s => s
  | PyList _ | PyDict _ => py_repr o
  end.

(** The generator [f"{s}: {w}" for s, w in weights.items() if w > 0]. *)
Fixpoint weight_pairs (items : list (str * Any)) : result (list str) :=
  match items with
  | [] => Ok []
  | (s, w) :: rest =>
      rbind (py_gt_zero w) (fun positive =>
      rbind (weight_pairs rest) (fun pairs =>
      Ok (if (positive : bool)
          then (s ++ u ": " ++ py_format w) :: pairs
          else pairs)))
  end.

(** One turn of the loop of [get_knowledge_base_string]: the line of the
    trait [key]. *)
Definition summary_line (key : str) (data : Any) : result str :=
  rbind (py_get data (u "sin_weights") (PyDict [])) (fun weights =>
  rbind (py_items weights) (fun items =>
  rbind (weight_pairs items) (fun pairs =>
  let weight_str := join (u ", ") pairs in
  rbind (py_get data (u "definition") (PyStr (u "No definition"))) (fun definition =>
  rbind (py_get data (u "complexity_score") (PyInt 0)) (fun complexity =>
  Ok (u "- " ++ key ++ u ": " ++ py_format definition
        ++ u " [Weights: " ++ weight_str ++ u "] "
        ++ u "(complexity: " ++ py_format complexity ++ u ")")))))).

Fixpoint summary_lines (items : list (str * Any)) (lines : list str)
    : result (list str) :=
  match items with
  | [] => Ok lines
  | (key, data) :: rest =>
      rbind (summary_line key data) (fun line =>
      summary_lines rest (lines ++ [line]))
  end.

(** [def get_knowledge_base_string(self)] *)
Definition get_knowledge_base_string : M str :=
  traits <- get_traits ;;
  if negb (py_bool traits) then ret (u "(No traits learned yet)")
  else
    items <- lift (py_items traits) ;;
    lines <- lift (summary_lines items []) ;;
    ret (join [10%N] lines).

(** ** [json.loads]

    The decoder of the standard library, as [json.loads] runs it on a
    [str]: white space is space, tab, line feed and carriage return; a
    value is a string, an object, an array, [null], [true], [false], a
    number, or one of [NaN], [Infinity], [-Infinity]; a repeated key of an
    object keeps its first position and its last value.  A failure is a
    [JSONDecodeError], except for an integer literal of more than 4300
    digits, on which [int] raises [ValueError] (the interpreter's default
    limit), and where the stack of the interpreter is exhausted, which
    gives [RecursionError].

    The stack is counted as CPython 3.11 counts it, in calls left, all
    calls alike.  The scanner takes one call for every object and every
    array, from the opening bracket to the closing one, and one to look
    up [NaN], [Infinity] or [-Infinity].  Raising a [JSONDecodeError]
    takes three (the call of the class, its [__init__], and a method of
    [str] called in it), so an error found with fewer calls left ends in
    [RecursionError] instead.  Where the scanner finds no value it raises
    [StopIteration], which takes none, and [raw_decode] raises the
    [JSONDecodeError] in its place, one call further out than the
    scanner; text after the value is reported by [decode], two calls
    further out. *)

Definition quote : char := 34%N.
Definition backslash : char := 92%N.
Definition ch (a : ascii) : char := N_of_ascii a.

Definition json_ws (c : char) : bool :=
  ((c =? 32) || (c =? 9) || (c =? 10) || (c =? 13))%N.

Fixpoint skip_ws (s : str) : str :=
  match s with
  | c :: s' => if json_ws c then skip_ws s' else s
  | [] => []
  end.

Definition is_digit (c : char) : bool := ((48 <=? c) && (c <=? 57))%N.

Definition hex_value (c : char) : option N :=
  if is_digit c then Some (c - 48)%N
  else if ((97 <=? c) && (c <=? 102))%N then Some (c - 87)%N
  else if ((65 <=? c) && (c <=? 70))%N then Some (c - 55)%N
  else None.

(** The four hexadecimal digits of a [\uXXXX] escape. *)
Definition decode_uXXXX (s : str) : option (N * str) :=
  match s with
  | a :: b :: c :: d :: rest =>
      match hex_value a, hex_value b, hex_value c, hex_value d with
      | Some x, Some y, Some z, Some w =>
          Some (((x * 16 + y) * 16 + z) * 16 + w, rest)%N
      | _, _, _, _ => None
      end
  | _ => None
  end.

Definition simple_escape (c : char) : option char :=
  if (c =? quote)%N then Some quote
  else if (c =? backslash)%N then Some backslash
  else if (c =? ch "/")%N then Some (ch "/")
  else if (c =? ch "b")%N then Some 8%N
  else if (c =? ch "f")%N then Some 12%N
  else if (c =? ch "n")%N then Some 10%N
  else if (c =? ch "r")%N then Some 13%N
  else if (c =? ch "t")%N then Some 9%N
  else None.

(** [raise_errmsg], with [depth] calls left. *)
Definition raise_errmsg {A : Type} (depth : nat) : result A :=
  if (3 <=? depth)%nat then Raise JSONDecodeError else Raise RecursionError.

(** [scanstring], strict: the text after the opening quote, up to the
    closing one; [acc] holds the characters read, last first. *)
Fixpoint scanstring (fuel : nat) (depth : nat) (s : str) (acc : str)
    : result (str * str) :=
  match fuel, s with
  | S fuel', c :: r =>
      if (c =? quote)%N then Ok (rev acc, r)
      else if (c =? backslash)%N then
        match r with
        | [] => raise_errmsg depth
        | e :: r1 =>
            if (e =? ch "u")%N then
              match decode_uXXXX r1 with
              | None => raise_errmsg depth
              | Some (uni, r2) =>
                  if ((55296 <=? uni) && (uni <=? 56319))%N then
                    (* a high surrogate joins a low one that follows *)
                    match r2 with
                    | b :: u' :: r3 =>
                        if ((b =? backslash) && (u' =? ch "u"))%N then
                          match decode_uXXXX r3 with
                          | None => raise_errmsg depth
                          | Some (uni2, r4) =>
                              if ((56320 <=? uni2) && (uni2 <=? 57343))%N
                              then scanstring fuel' depth r4
                                     ((65536 + ((uni - 55296) * 1024 + (uni2 - 56320)))%N
                                        :: acc)
                              else scanstring fuel' depth r2 (uni :: acc)
                          end
                        else scanstring fuel' depth r2 (uni :: acc)
                    | _ => scanstring fuel' depth r2 (uni :: acc)
                    end
                  else scanstring fuel' depth r2 (uni :: acc)
              end
            else
              match simple_escape e with
              | Some c' => scanstring fuel' depth r1 (c' :: acc)
              | None => raise_errmsg depth
              end
        end
      else if (c <=? 31)%N then raise_errmsg depth
      else scanstring fuel' depth r (c :: acc)
  | _, _ => raise_errmsg depth
  end.

(** The longest prefix of digits, and what follows it. *)
Fixpoint span_digits (s : str) : str * str :=
  match s with
  | c :: s' =>
      if is_digit c then let '(ds, r) := span_digits s' in (c :: ds, r)
      else ([], s)
  | [] => ([], [])
  end.

Definition int_of_digits (ds : str) : Z :=
  fold_left (fun acc c => (acc * 10 + (Z.of_N c - 48))%Z) ds 0%Z.

(** The number at the head of [s]: an optional minus sign, then [0] or a
    run of digits that does not start with [0], then optionally a dot with
    at least one digit, then optionally [e] or [E], an optional sign and
    at least one digit.  With a fraction or an exponent it is a [float],
    otherwise an [int].  Where there is no number, there is no value. *)
Definition match_number (s : str) : result (Any * str) :=
  let '(neg, s1) :=
    match s with
    | c :: r => if (c =? ch "-")%N then (true, r) else (false, s)
    | [] => (false, s)
    end in
  match s1 with
  | c :: r =>
      if is_digit c then
        let '(int_digits, r1) :=
          if (c =? ch "0")%N then ([c], r) else span_digits s1 in
        let '(frac_digits, r2) :=
          match r1 with
          | dot :: d :: _ =>
              if ((dot =? ch ".")%N && is_digit d)
              then span_digits (skipn 1 r1) else ([], r1)
          | _ => ([], r1)
          end in
        let '(exp, r3) :=
          match r2 with
          | e :: r' =>
              if ((e =? ch "e") || (e =? ch "E"))%N then
                let '(exp_neg, r'') :=
                  match r' with
                  | sg :: t =>
                      if (sg =? ch "-")%N then (true, t)
                      else if (sg =? ch "+")%N then (false, t)
                      else (false, r')
                  | [] => (false, r')
                  end in
                match span_digits r'' with
                | ([], _) => (None, r2)
                | (ds, t) =>
                    (Some (if exp_neg then (- int_of_digits ds)%Z
                           else int_of_digits ds), t)
                end
              else (None, r2)
          | [] => (None, r2)
          end in
        match frac_digits, exp with
        | [], None =>
            if (4300 <? List.length int_digits)%nat then Raise ValueError
            else
              let z := int_of_digits int_digits in
              Ok (PyInt (if neg then (- z)%Z else z), r3)
        | _, _ =>
            let e := match exp with Some e => e | None => 0%Z end in
            Ok (PyFloat (float_of_decimal neg
                           (int_of_digits (int_digits ++ frac_digits))
                           (e - Z.of_nat (List.length frac_digits))), r3)
        end
      else Raise StopIteration
  | [] => Raise StopIteration
  end.

(** [scan_once], with the loops of [JSONObject] and [JSONArray]: the value
    at the head of [s] and the text after it.  [parse_object] and
    [parse_array] stand at a member, after the white space, with the
    members read so far.  [depth] is the number of calls left.  Each call
    is given one unit of fuel less than its caller and consumes at least
    one character between two calls, so twice the length of the text is
    enough fuel. *)
Fixpoint scan_once (fuel : nat) (depth : nat) (s : str) : result (Any * str) :=
  match fuel, s with
  | S fuel', c :: r =>
      if (c =? quote)%N then
        rbind (scanstring (List.length r) depth r [])
          (fun '(k, r') => Ok (PyStr k, r'))
      else if (c =? ch "{")%N then
        match depth with
        | O => Raise RecursionError
        | S depth' =>
            match skip_ws r with
            | c' :: r' =>
                if (c' =? ch "}")%N then Ok (PyDict [], r')
                else parse_object fuel' depth' (skip_ws r) []
            | [] => raise_errmsg depth'
            end
        end
      else if (c =? ch "[")%N then
        match depth with
        | O => Raise RecursionError
        | S depth' =>
            match skip_ws r with
            | c' :: r' =>
                if (c' =? ch "]")%N then Ok (PyList [], r')
                else parse_array fuel' depth' (skip_ws r) []
            | [] => Raise StopIteration
            end
        end
      else if startswith (u "null") s then Ok (PyNone, skipn 4 s)
      else if startswith (u "true") s then Ok (PyBool true, skipn 4 s)
      else if startswith (u "false") s then Ok (PyBool false, skipn 5 s)
      else if startswith (u "NaN") s then
        match depth with
        | O => Raise RecursionError
        | S _ => Ok (PyFloat S754_nan, skipn 3 s)
        end
      else if startswith (u "Infinity") s then
        match depth with
        | O => Raise RecursionError
        | S _ => Ok (PyFloat (S754_infinity false), skipn 8 s)
        end
      else if startswith (u "-Infinity") s then
        match depth with
        | O => Raise RecursionError
        | S _ => Ok (PyFloat (S754_infinity true), skipn 9 s)
        end
      else match_number s
  | _, _ => Raise StopIteration
  end

with parse_object (fuel : nat) (depth : nat) (s : str) (pairs : dict)
    : result (Any * str) :=
  match fuel, s with
  | S fuel', c :: r =>
      if (c =? quote)%N then
        rbind (scanstring (List.length r) depth r []) (fun '(key, r1) =>
        match skip_ws r1 with
        | c2 :: r2 =>
            if (c2 =? ch ":")%N then
              rbind (scan_once fuel' depth (skip_ws r2)) (fun '(value, r3) =>
              let pairs' := dict_set key value pairs in
              match skip_ws r3 with
              | c4 :: r4 =>
                  if (c4 =? ch "}")%N then Ok (PyDict pairs', r4)
                  else if (c4 =? ch ",")%N
                       then parse_object fuel' depth (skip_ws r4) pairs'
                  else raise_errmsg depth
              | [] => raise_errmsg depth
              end)
            else raise_errmsg depth
        | [] => raise_errmsg depth
        end)
      else raise_errmsg depth
  | _, _ => raise_errmsg depth
  end

with parse_array (fuel : nat) (depth : nat) (s : str) (values : list Any)
    : result (Any * str) :=
  match fuel with
  | S fuel' =>
      rbind (scan_once fuel' depth s) (fun '(value, r1) =>
      let values' := values ++ [value] in
      match skip_ws r1 with
      | c :: r2 =>
          if (c =? ch "]")%N then Ok (PyList values', r2)
          else if (c =? ch ",")%N then parse_array fuel' depth (skip_ws r2) values'
          else raise_errmsg depth
      | [] => raise_errmsg depth
      end)
  | O => raise_errmsg depth
  end.

(** [json.loads(s)], called where the interpreter has [recursion_limit]
    calls left for the scanner: its recursion limit less the depth its
    stack has reached by then.  [raw_decode] has one call more than the
    scanner and [decode] two, so of the three calls a [JSONDecodeError]
    takes the scanner must have left two in [raw_decode] and one in
    [decode]. *)
Definition loads (recursion_limit : nat) (s : str) : result Any :=
  if startswith [65279%N] s then Raise JSONDecodeError
  else
    match scan_once (2 * List.length s + 2) recursion_limit (skip_ws s) with
    | Ok (obj, rest) =>
        match skip_ws rest with
        | [] => Ok obj
        | _ :: _ =>
            if (1 <=? recursion_limit)%nat then Raise JSONDecodeError
            else Raise RecursionError
        end
    | Raise StopIteration =>
        if (2 <=? recursion_limit)%nat then Raise JSONDecodeError
        else Raise RecursionError
    | Raise e => Raise e
    end.

(** ** [json.dumps(answers, indent=2)] *)

(** [AnswerItem], and what [model_dump] makes of it: a dict with the two
    fields in this order. *)
Record AnswerItem : Type := {
  question_id : str;
  answer_text : str
}.

Definition hex_digit (n : N) : char :=
  if (n <? 10)%N then (48 + n)%N else (87 + n)%N.

Definition escape_uXXXX (n : N) : str :=
  [backslash; ch "u"; hex_digit (n / 4096 mod 16); hex_digit (n / 256 mod 16);
   hex_digit (n / 16 mod 16); hex_digit (n mod 16)]%N.

(** One character of a string under [ensure_ascii]: everything outside
    the printable ASCII range is escaped, a code point beyond the basic
    plane as a surrogate pair. *)
Definition escape_char (c : char) : str :=
  if (c =? quote)%N then [backslash; quote]
  else if (c =? backslash)%N then [backslash; backslash]
  else if (c =? 10)%N then [backslash; ch "n"]
  else if (c =? 13)%N then [backslash; ch "r"]
  else if (c =? 9)%N then [backslash; ch "t"]
  else if (c =? 8)%N then [backslash; ch "b"]
  else if (c =? 12)%N then [backslash; ch "f"]
  else if ((32 <=? c) && (c <=? 126))%N then [c]
  else if (c <? 65536)%N then escape_uXXXX c
  else escape_uXXXX (55296 + (c - 65536) / 1024 mod 1024)
         ++ escape_uXXXX (56320 + (c - 65536) mod 1024).

Definition dumps_str (s : str) : str :=
  [quote] ++ flat_map escape_char s ++ [quote].

Definition dumps_answer (a : AnswerItem) : str :=
  u "{" ++ [10%N] ++ u "    " ++ dumps_str (u "question_id") ++ u ": "
    ++ dumps_str (question_id a) ++ u "," ++ [10%N]
    ++ u "    " ++ dumps_str (u "answer_text") ++ u ": "
    ++ dumps_str (answer_text a) ++ [10%N] ++ u "  }".

Definition dumps_answers (answers : list AnswerItem) : str :=
  match answers with
  | [] => u "[]"
  | _ :: _ =>
      u "[" ++ [10%N] ++ u "  "
        ++ join (u "," ++ [10%N] ++ u "  ") (List.map dumps_answer answers)
        ++ [10%N] ++ u "]"
  end.

(** ** The engine *)

(** [re.sub(r"^```(?:json)?\s*", "", s)]: the pattern can only match at
    the start, and takes the fence, then [json] if it follows, then all
    the white space that follows. *)
Definition sub_open_fence (s : str) : str :=
  if startswith (u "```") s then
    let r := skipn 3 s in
    lstrip (if startswith (u "json") r then skipn 4 r else r)
  else s.

(** Whether [\s*```$] matches at the head of [s], and what of [s] is left
    after the match: [$] holds at the end of the text and just before a
    line feed that ends it. *)
Definition close_fence_match (s : str) : option str :=
  let r := lstrip s in
  if str_eqb r (u "```") then Some []
  else if str_eqb r (u "```" ++ [10%N]) then Some [10%N]
  else None.

(** [re.sub(r"\s*```$", "", s)]: the leftmost match is removed; nothing
    after it can match again. *)
Fixpoint sub_close_fence (s : str) : str :=
  match close_fence_match s with
  | Some rest => rest
  | None =>
      match s with
      | [] => []
      | c :: s' => c :: sub_close_fence s'
      end
  end.

(** [SYSTEM_PROMPT.format(knowledge_base_string=..., user_answers_json=...)]:
    the template is a constant of wording, taken as given. *)
Variable SYSTEM_PROMPT : str -> str -> str.

(** The number of recursive calls the interpreter still allows where
    [analyze] calls [json.loads]. *)
Variable recursion_limit : nat.

(** The text of the reply between the oracle call and [json.loads]. *)
Definition normalize (text : str) : str :=
  let raw_text := strip text in
  if startswith (u "```") raw_text
  then sub_close_fence (sub_open_fence raw_text)
  else raw_text.

(** [async def analyze(self, answers)].  [generate_content] is the call
    to the oracle, from the prompt to [response.text] (which the client
    leaves [None] when the reply has no text), or to the exception the
    client raises. *)
Definition analyze (generate_content : str -> result (option str))
    (answers : list AnswerItem) : M Any :=
  knowledge_base <- get_knowledge_base_string ;;
  let answers_json := dumps_answers answers in
  let prompt := SYSTEM_PROMPT knowledge_base answers_json in
  text <- lift (generate_content prompt) ;;
  raw_text <- (match text with
               | Some t => ret (normalize t)
               | None => raise AttributeError
               end) ;;
  result <- lift (loads recursion_limit raw_text) ;;
  new_defs <- lift (py_get result (u "new_trait_definitions") (PyDict [])) ;;
  newly_added <- assimilate new_defs ;;
  lift (py_setitem result (u "_newly_added_traits")
          (PyList (List.map PyStr newly_added))).

(** The environment variable [GEMINI_API_KEY]. *)
Variable GEMINI_API_KEY : option str.

(** [FelixEngine.__init__]: no key, no engine. *)
Definition new_FelixEngine : result unit :=
  match GEMINI_API_KEY with
  | Some (_ :: _) => Ok tt
  | _ => Raise ValueError
  end.

End Engine.

(** ** The route [POST /api/analyze] of [main.py] *)

Inductive http_reply : Type :=
| Reply (body : Any)
| HTTPException (status_code : Z) (detail : str).

(** The module globals [trait_manager] and [_engine]; the engine keeps
    nothing but the reference to the trait manager, so [_engine] is
    whether it has been built. *)
Record App : Type := {
  trait_manager : TraitManager;
  _engine : bool
}.

Module Main.
Section Route.

Variable py_repr : Any -> str.
Variable SYSTEM_PROMPT : str -> str -> str.
Variable recursion_limit : nat.
Variable GEMINI_API_KEY : option str.

(** [str(e)] of an exception, as the route quotes it. *)
Variable exception_text : exception -> str.

(** [def get_engine()] *)
Definition get_engine (app : App) : result unit * App :=
  if _engine app then (Ok tt, app)
  else
    match new_FelixEngine GEMINI_API_KEY with
    | Ok tt => (Ok tt, {| trait_manager := trait_manager app; _engine := true |})
    | Raise e => (Raise e, app)
    end.

(** [async def analyze(request)]: the first handler quotes the message of
    the [ValueError] of [FelixEngine.__init__], the second one whatever
    the engine raised. *)
Definition analyze (generate_content : str -> result (option str))
    (answers : list AnswerItem) (app : App) : http_reply * App :=
  match get_engine app with
  | (Raise e, app') =>
      (HTTPException 500 (u "GEMINI_API_KEY environment variable is not set"), app')
  | (Ok tt, app') =>
      match analyze py_repr SYSTEM_PROMPT recursion_limit generate_content answers
              (trait_manager app') with
      | (Ok result, tm) =>
          (Reply result, {| trait_manager := tm; _engine := _engine app' |})
      | (Raise e, tm) =>
          (HTTPException 500 (u "Analysis failed: " ++ exception_text e),
           {| trait_manager := tm; _engine := _engine app' |})
      end
  end.

End Route.
End Main.

(** ** Vocabulary of the statements *)

(** The traits mapping of a library that has one. *)
Definition traits_of (self : TraitManager) : option dict :=
  match _library self with
  | PyDict lib =>
      match dict_get (u "traits") lib with
      | Some (PyDict traits) => Some traits
      | _ => None
      end
  | _ => None
  end.

(** [trait_key in self._library["traits"]] *)
Definition is_known (lib : Any) (trait_key : str) : result bool :=
  rbind (py_getitem lib (u "traits")) (py_contains trait_key).

(** ["definition" in trait_data and "sin_weights" in trait_data] *)
Definition validate (trait_data : Any) : result bool :=
  rbind (py_contains (u "definition") trait_data) (fun has_definition =>
  if (has_definition : bool)
  then py_contains (u "sin_weights") trait_data
  else Ok false).

(** [self._library["traits"][trait_key] = trait_data], on the library. *)
Definition insert_trait (lib : Any) (trait_key : str) (trait_data : Any)
    : result Any :=
  rbind (py_getitem lib (u "traits")) (fun traits =>
  rbind (py_setitem traits trait_key trait_data) (fun traits' =>
  py_setitem lib (u "traits") traits')).


(** The candidates a merge into [traits] takes, in the order presented:
    those whose key is not there yet and that pass the check. *)
Fixpoint accepted (traits : dict) (items : list (str * Any)) : dict :=
  match items with
  | [] => []
  | (k, v) :: rest =>
      if dict_contains k traits then accepted traits rest
      else
        match validate v with
        | Ok true => (k, v) :: accepted (traits ++ [(k, v)]) rest
        | _ => accepted traits rest
        end
  end.

(** A key that was not in [before] and is in [after]. *)
Definition newly_inserted (before after : dict) (k : str) : bool :=
  negb (dict_contains k before) && dict_contains k after.

(** A library with the given traits, as [load] lays it out. *)
Definition library_with (traits : dict) : Any :=
  PyDict [ (u "meta", PyDict [ (u "version", PyStr (u "2.1"));
                              (u "description", PyStr (u "Poly-Sin Weighting Library")) ]);
           (u "traits", PyDict traits) ].

(** A trait as the prompt asks for it. *)
Definition a_trait (definition : str) (sin_weights : dict) (complexity : Any) : Any :=
  PyDict [ (u "definition", PyStr definition);
           (u "sin_weights", PyDict sin_weights);
           (u "complexity_score", complexity) ].

(** The floats [0.0] and [0.6]. *)
Definition f0_0 : float := S754_zero false.
Definition f0_6 : float := S754_finite false 5404319552844595 (-53).

(** The manager with another library, and a library with other traits. *)
Definition with_library (self : TraitManager) (lib : Any) : TraitManager :=
  {| _library := lib; TRAIT_FILE := TRAIT_FILE self |}.

Definition with_traits (lib : Any) (traits : dict) : Any :=
  match lib with
  | PyDict d => PyDict (dict_set (u "traits") (PyDict traits) d)
  | _ => lib
  end.

(** The manager after [_save]. *)
Definition saved (self : TraitManager) : TraitManager :=
  {| _library := _library self;
     TRAIT_FILE := TRAIT_FILE self ++ [Document (_library self)] |}.

(** ** Sample data *)

(** The store of a process started without a trait file. *)
Definition fresh_store : TraitManager :=
  snd (load {| _library := PyDict []; TRAIT_FILE := [] |}).

Definition quick_temper : Any :=
  a_trait (u "flares up at small slights")
    [(u "pride", PyFloat f0_0); (u "wrath", PyFloat f0_6)] (PyFloat f0_6).

(** A proposal with a field the prompt does not ask for, and weights that
    are not weights. *)
Definition odd_proposal : Any :=
  PyDict [ (u "definition", PyStr (u "keeps score"));
           (u "sin_weights", PyDict [(u "spite", PyStr (u "high"))]);
           (u "source", PyStr (u "q7")) ].


(** A store that knows one trait. *)
Definition one_trait_store : TraitManager :=
  {| _library := library_with [(u "quick_temper", quick_temper)];
     TRAIT_FILE := [Document (library_with [(u "quick_temper", quick_temper)])] |}.

(** ** The summary in the words of the specification *)

Section Summary.

Variable py_repr : Any -> str.

(** A weight that can be compared with [0]. *)
Definition numeric (w : Any) : bool :=
  match w with
  | PyBool _ | PyInt _ | PyFloat _ => true
  | _ => false
  end.

(** A trait as the data model has it, as far as the summary reads it: an
    object whose [sin_weights], when it has them, map names to numbers. *)
Definition well_typed_trait (data : Any) : bool :=
  match data with
  | PyDict fields =>
      match dict_get (u "sin_weights") fields with
      | None => true
      | Some (PyDict weights) => forallb (fun sw => numeric (snd sw)) weights
      | Some _ => false
      end
  | _ => false
  end.

Definition strictly_positive (w : Any) : bool :=
  match py_gt_zero w with
  | Ok b => b
  | Raise _ => false
  end.

(** The comma-joined [sin: weight] pairs of the weights above [0]. *)
Definition weights_text (weights : dict) : str :=
  join (u ", ")
    (List.map (fun sw => fst sw ++ u ": " ++ py_format py_repr (snd sw))
       (filter (fun sw => strictly_positive (snd sw)) weights)).

Definition field_or (fields : dict) (name : str) (default : Any) : Any :=
  match dict_get name fields with
  | Some v => v
  | None => default
  end.

Definition weights_of (fields : dict) : dict :=
  match dict_get (u "sin_weights") fields with
  | Some (PyDict weights) => weights
  | _ => []
  end.

Definition definition_text (fields : dict) : str :=
  py_format py_repr (field_or fields (u "definition") (PyStr (u "No definition"))).

Definition complexity_text (fields : dict) : str :=
  py_format py_repr (field_or fields (u "complexity_score") (PyInt 0)).

(** The entry of one trait. *)
Definition entry_text (key : str) (data : Any) : str :=
  match data with
  | PyDict fields =>
      u "- " ++ key ++ u ": " ++ definition_text fields
        ++ u " [Weights: " ++ weights_text (weights_of fields) ++ u "] "
        ++ u "(complexity: " ++ complexity_text fields ++ u ")"
  | _ => []
  end.

(** One entry per trait, in the order of the mapping, a line feed
    between two entries. *)
Definition summary_text (traits : dict) : str :=
  join [10%N] (List.map (fun kd => entry_text (fst kd) (snd kd)) traits).

End Summary.

(** [repr] of containers, for the runs that print none. *)
Definition no_repr (o : Any) : str := [].

(** A trait whose key names a sin it has no weight for. *)
Definition wounded_pride_store : TraitManager :=
  {| _library := library_with [(u "wounded_pride", quick_temper)];
     TRAIT_FILE := [Document (library_with [(u "wounded_pride", quick_temper)])] |}.

(** A template with its two holes and no wording, and an oracle that
    answers every prompt with the same text. *)
Definition bare_prompt (knowledge_base answers_json : str) : str :=
  knowledge_base ++ answers_json.

Definition always_says (text : str) (prompt : str) : result (option str) :=
  Ok (Some text).

(** The exception class the specification names for a reply that does
    not parse. *)
Definition MalformedResponseError : str := u "MalformedResponseError".

(** The fence of a code block. *)
Definition fence : str := u "```".

(** The exceptions of [json.loads]. *)
Definition decoder_error (e : exception) : Prop :=
  e = JSONDecodeError \/ e = ValueError \/ e = RecursionError.

(** ** The other routes of [main.py] *)

(** [def get_brain()]: the full library, as [get_library] returns it. *)
Definition get_brain (app : App) : result Any :=
  fst (get_library (trait_manager app)).

(** [def get_questions()]: [QUESTIONS_FILE] is the text of the file, when
    there is one; [json.load] reads the file and decodes it, where the
    interpreter allows [recursion_limit] more recursive calls. *)
Definition get_questions (recursion_limit : nat) (QUESTIONS_FILE : option str)
    : result http_reply :=
  match QUESTIONS_FILE with
  | None => Ok (HTTPException 404 (u "Questions file not found"))
  | Some text =>
      rbind (loads recursion_limit text) (fun questions => Ok (Reply questions))
  end.

(** [def health()] *)
Definition health : http_reply :=
  Reply (PyDict [(u "status", PyStr (u "ok")); (u "version", PyStr (u "2.1"))]).

(** ** More vocabulary *)

(** The library in memory is what the file holds. *)
Definition in_sync (self : TraitManager) : Prop :=
  last (List.map Some (TRAIT_FILE self)) None = Some (Document (_library self)).

(** The text of the summary of a library without traits. *)
Definition no_traits_yet : str := u "(No traits learned yet)".

(** The field [new_trait_definitions] of a reply, [{}] when it has none. *)
Definition proposals (reply : dict) : Any :=
  field_or reply (u "new_trait_definitions") (PyDict []).

(** The reply with the list of the accepted keys attached. *)
Definition with_accepted (reply : dict) (added : list str) : Any :=
  PyDict (dict_set (u "_newly_added_traits") (PyList (List.map PyStr added)) reply).

Definition is_dict (o : Any) : bool :=
  match o with
  | PyDict _ => true
  | _ => false
  end.

(** A reply of the oracle that proposes one trait, and the trait. *)
Definition envious : Any :=
  PyDict [ (u "definition", PyStr (u "keeps score"));
           (u "sin_weights", PyDict [(u "envy", PyFloat f0_6)]) ].

Definition proposing_reply : str :=
  u "{" ++ dumps_str (u "new_trait_definitions") ++ u ": {"
    ++ dumps_str (u "a") ++ u ": {"
    ++ dumps_str (u "definition") ++ u ": " ++ dumps_str (u "keeps score") ++ u ", "
    ++ dumps_str (u "sin_weights") ++ u ": {" ++ dumps_str (u "envy") ++ u ": 0.6}}}}".

(** ** Vocabulary for the serialization of the answers *)

(** [a.model_dump()] of [main.py]: the dict of the two fields of an
    [AnswerItem], in the order of their declaration. *)
Definition model_dump (a : AnswerItem) : Any :=
  PyDict [(u "question_id", PyStr (question_id a));
          (u "answer_text", PyStr (answer_text a))].

(** A printable ASCII character or a line feed. *)
Definition plain (c : char) : Prop := c = 10%N \/ (32 <= c <= 126)%N.

(** A Unicode scalar value: a code point that is not a surrogate. *)
Definition scalar_value (c : char) : bool :=
  ((c <? 55296) || ((57343 <? c) && (c <? 1114112)))%N.

(** An answer whose two strings hold scalar values only. *)
Definition well_formed (a : AnswerItem) : bool :=
  forallb scalar_value (question_id a) && forallb scalar_value (answer_text a).

(** An answer that holds a fence, a quote, a backslash, a line feed, an
    accented letter and a character beyond the basic plane. *)
Definition tricky_answer : AnswerItem :=
  {| question_id := u "q1";
     answer_text := fence ++ [quote; backslash; 10%N; 233%N; 128512%N] |}.

(** A number of recursive calls left, for the instances: the default
    recursion limit of the interpreter is 1000, and the stack of a request
    handler has taken some of it. *)
Definition sample_limit : nat := 900.

(** * Proofs *)

Unset Implicit Arguments.

(** * Text and dicts *)

Lemma str_eqb_spec (a b : str) : str_eqb a b = true <-> a = b.
Proof.
  revert b; induction a as [|x a IH]; intros [|y b]; simpl;
    try (split; [discriminate | congruence]); [tauto|].
  rewrite andb_true_iff, N.eqb_eq, IH. split.
  - intros [-> ->]; reflexivity.
  - intros H; injection H; auto.
Qed.

Lemma str_eqb_refl (a : str) : str_eqb a a = true.
Proof. apply str_eqb_spec; reflexivity. Qed.

Lemma str_eqb_neq (a b : str) : str_eqb a b = false <-> a <> b.
Proof.
  rewrite <- str_eqb_spec. destruct (str_eqb a b); split; congruence.
Qed.

Lemma dict_contains_in_keys (k : str) (d : dict) :
  dict_contains k d = true <-> In k (keys d).
Proof.
  unfold dict_contains. induction d as [|[k' v] d IH]; simpl.
  - split; [discriminate | tauto].
  - destruct (str_eqb k k') eqn:E.
    + apply str_eqb_spec in E. subst. tauto.
    + apply str_eqb_neq in E. rewrite IH. split; [tauto|].
      intros [H|H]; [congruence | assumption].
Qed.

Lemma dict_contains_false (k : str) (d : dict) :
  dict_contains k d = false <-> ~ In k (keys d).
Proof.
  rewrite <- dict_contains_in_keys. destruct (dict_contains k d); split; congruence.
Qed.

Lemma dict_contains_get (k : str) (d : dict) :
  dict_contains k d = false <-> dict_get k d = None.
Proof.
  unfold dict_contains. destruct (dict_get k d); split; congruence.
Qed.

(** Storing under a key that is not there appends the entry. *)
Lemma dict_set_new (k : str) (v : Any) (d : dict) :
  dict_contains k d = false -> dict_set k v d = d ++ [(k, v)].
Proof.
  unfold dict_contains. induction d as [|[k' v'] d IH]; simpl; [reflexivity|].
  destruct (str_eqb k k'); [discriminate|].
  intros H. rewrite IH by assumption. reflexivity.
Qed.

Lemma dict_get_app (k : str) (d d' : dict) :
  dict_get k (d ++ d') =
  match dict_get k d with Some v => Some v | None => dict_get k d' end.
Proof.
  induction d as [|[k' v'] d IH]; simpl; [reflexivity|].
  destruct (str_eqb k k'); [reflexivity | exact IH].
Qed.

Lemma dict_contains_app (k : str) (d d' : dict) :
  dict_contains k (d ++ d') = dict_contains k d || dict_contains k d'.
Proof.
  unfold dict_contains. rewrite dict_get_app. destruct (dict_get k d); reflexivity.
Qed.

(** Replacing the value of a key that is there keeps the keys. *)
Lemma dict_get_set_same (k : str) (v : Any) (d : dict) :
  dict_get k (dict_set k v d) = Some v.
Proof.
  induction d as [|[k' v'] d IH]; simpl.
  - rewrite str_eqb_refl. reflexivity.
  - destruct (str_eqb k k') eqn:E; simpl; rewrite E; [reflexivity | exact IH].
Qed.

Lemma dict_set_same (k : str) (v : Any) (d : dict) :
  dict_get k d = Some v -> dict_set k v d = d.
Proof.
  induction d as [|[k' v'] d IH]; simpl; [discriminate|].
  destruct (str_eqb k k').
  - intros H; injection H as ->. reflexivity.
  - intros H. rewrite IH by assumption. reflexivity.
Qed.

Lemma dict_set_set (k : str) (v1 v2 : Any) (d : dict) :
  dict_set k v2 (dict_set k v1 d) = dict_set k v2 d.
Proof.
  induction d as [|[k' v'] d IH]; simpl.
  - rewrite str_eqb_refl. reflexivity.
  - destruct (str_eqb k k') eqn:E; simpl; rewrite E; [reflexivity|].
    rewrite IH. reflexivity.
Qed.

(** * The loop of [assimilate], one candidate at a time *)

Lemma assimilate_body_eq trait_key trait_data added self :
  assimilate_body trait_key trait_data added self =
  match is_known (_library self) trait_key with
  | Raise e => (Raise e, self)
  | Ok true => (Ok added, self)
  | Ok false =>
      match validate trait_data with
      | Raise e => (Raise e, self)
      | Ok false => (Ok added, self)
      | Ok true =>
          match insert_trait (_library self) trait_key trait_data with
          | Ok lib' => (Ok (added ++ [trait_key]), with_library self lib')
          | Raise e => (Raise e, self)
          end
      end
  end.
Proof.
  unfold assimilate_body, is_known, validate, insert_trait, bind, lift, ret,
    get_self_library, set_self_library, with_library, rbind.
  destruct (py_getitem (_library self) (u "traits")) as [traits|e] eqn:G;
    cbv beta iota; [|reflexivity].
  destruct (py_contains trait_key traits) as [[|]|e]; cbv beta iota;
    try reflexivity.
  destruct (py_contains (u "definition") trait_data) as [[|]|e]; cbv beta iota;
    try reflexivity.
  - destruct (py_contains (u "sin_weights") trait_data) as [[|]|e];
      cbv beta iota; try reflexivity.
    rewrite G.
    destruct (py_setitem traits trait_key trait_data) as [traits'|e];
      cbv beta iota; [|reflexivity].
    destruct (py_setitem (_library self) (u "traits") traits'); reflexivity.
Qed.

Lemma traits_of_inv self t :
  traits_of self = Some t ->
  exists L, _library self = PyDict L /\ dict_get (u "traits") L = Some (PyDict t).
Proof.
  unfold traits_of. destruct (_library self) as [| | | | | |L]; try discriminate.
  destruct (dict_get (u "traits") L) as [[| | | | | |t']|] eqn:E; try discriminate.
  intros H; injection H as ->. eauto.
Qed.

Lemma traits_of_with_traits self t' :
  traits_of self <> None ->
  traits_of (with_library self (with_traits (_library self) t')) = Some t' /\
  TRAIT_FILE (with_library self (with_traits (_library self) t')) = TRAIT_FILE self.
Proof.
  intros H. split; [|reflexivity].
  destruct (traits_of self) as [t|] eqn:E; [|congruence].
  apply traits_of_inv in E as (L & EL & _).
  unfold traits_of, with_library, with_traits. simpl. rewrite EL.
  rewrite dict_get_set_same. reflexivity.
Qed.

Lemma with_traits_same self t :
  traits_of self = Some t -> with_traits (_library self) t = _library self.
Proof.
  intros H. apply traits_of_inv in H as (L & -> & G). simpl.
  rewrite dict_set_same by exact G. reflexivity.
Qed.

Lemma with_traits_twice lib t1 t2 :
  with_traits (with_traits lib t1) t2 = with_traits lib t2.
Proof.
  destruct lib; try reflexivity. simpl. rewrite dict_set_set. reflexivity.
Qed.

Lemma traits_of_library self lib t' :
  traits_of self <> None ->
  _library self = with_traits lib t' -> traits_of self = Some t'.
Proof.
  unfold traits_of. intros H E. rewrite E in *. destruct lib; simpl in *; try congruence.
  rewrite dict_get_set_same. reflexivity.
Qed.

(** One candidate, on a library that has a traits mapping. *)
Lemma assimilate_body_wf k v added self t :
  traits_of self = Some t ->
  assimilate_body k v added self =
  if dict_contains k t then (Ok added, self)
  else
    match validate v with
    | Raise e => (Raise e, self)
    | Ok false => (Ok added, self)
    | Ok true =>
        (Ok (added ++ [k]),
         with_library self (with_traits (_library self) (t ++ [(k, v)])))
    end.
Proof.
  intros H. rewrite assimilate_body_eq.
  apply traits_of_inv in H as (L & EL & ET).
  unfold is_known, insert_trait, with_traits. rewrite EL. simpl. rewrite ET. simpl.
  destruct (dict_contains k t) eqn:K; [reflexivity|].
  destruct (validate v) as [[|]|e]; try reflexivity.
  rewrite (dict_set_new k v t K). reflexivity.
Qed.

(** One candidate, on a library without a traits mapping: nothing can be
    stored. *)
Lemma assimilate_body_ill k v added self r self' :
  traits_of self = None ->
  assimilate_body k v added self = (r, self') ->
  self' = self /\ (forall a, r = Ok a -> a = added).
Proof.
  intros H. rewrite assimilate_body_eq.
  destruct (is_known (_library self) k) as [[|]|e] eqn:K;
    try (intros E; injection E as <- <-; split; [reflexivity | congruence]).
  destruct (validate v) as [[|]|e];
    try (intros E; injection E as <- <-; split; [reflexivity | congruence]).
  unfold insert_trait, is_known, traits_of in *.
  destruct (_library self) as [| | | | | |L]; simpl in *;
    try (intros E; injection E as <- <-; split; [reflexivity | congruence]).
  destruct (dict_get (u "traits") L) as [[| | | | | |t']|]; simpl in *;
    try (intros E; injection E as <- <-; split; [reflexivity | congruence]).
  discriminate.
Qed.

(** * The whole loop *)

(** On a library with a traits mapping the loop appends entries to it and
    touches nothing else; when it returns, the entries are the accepted
    candidates and their keys are what was added. *)
Lemma assimilate_loop_wf items : forall added self t r self',
  traits_of self = Some t ->
  assimilate_loop items added self = (r, self') ->
  TRAIT_FILE self' = TRAIT_FILE self /\
  exists new,
    _library self' = with_traits (_library self) (t ++ new) /\
    traits_of self' = Some (t ++ new) /\
    (forall kv, In kv new -> In kv items) /\
    (forall added', r = Ok added' ->
       new = accepted t items /\ added' = added ++ keys new).
Proof.
  induction items as [|[k v] rest IH]; intros added self t r self' Ht; simpl.
  - unfold ret. intros E; injection E as <- <-. split; [reflexivity|].
    exists []. rewrite app_nil_r. split; [symmetry; apply with_traits_same; exact Ht|].
    split; [exact Ht|]. split; [intros kv []|].
    intros added' H; injection H as <-. rewrite app_nil_r. split; reflexivity.
  - unfold bind at 1. rewrite (assimilate_body_wf k v added self t Ht).
    destruct (dict_contains k t) eqn:K.
    + intros E. destruct (IH _ _ _ _ _ Ht E) as (F & new & L & T & I & R).
      split; [exact F|]. exists new. split; [exact L|]. split; [exact T|].
      split; [auto|exact R].
    + destruct (validate v) as [[|]|e] eqn:V.
      * intros E.
        destruct (traits_of_with_traits self (t ++ [(k, v)])) as [T1 F1];
          [congruence|].
        destruct (IH _ _ _ _ _ T1 E) as (F & new & L & T & I & R).
        split; [congruence|]. exists ((k, v) :: new).
        rewrite <- app_assoc in T, L. simpl in T, L.
        rewrite with_traits_twice in L.
        split; [exact L|]. split; [exact T|]. split.
        -- intros kv [<-|H]; [left; reflexivity | right; auto].
        -- intros added' H. destruct (R _ H) as [-> ->]. split; [reflexivity|].
           simpl. rewrite <- app_assoc. reflexivity.
      * intros E. destruct (IH _ _ _ _ _ Ht E) as (F & new & L & T & I & R).
        split; [exact F|]. exists new. split; [exact L|]. split; [exact T|].
        split; [auto|exact R].
      * intros E; injection E as <- <-. split; [reflexivity|].
        exists []. rewrite app_nil_r.
        split; [symmetry; apply with_traits_same; exact Ht|].
        split; [exact Ht|]. split; [intros kv []|].
        discriminate.
Qed.

Lemma assimilate_loop_ill items : forall added self r self',
  traits_of self = None ->
  assimilate_loop items added self = (r, self') ->
  self' = self /\ (forall a, r = Ok a -> a = added).
Proof.
  induction items as [|[k v] rest IH]; intros added self r self' Ht; simpl.
  - unfold ret. intros E; injection E as <- <-. split; [reflexivity | congruence].
  - unfold bind at 1.
    destruct (assimilate_body k v added self) as [[a|e] self1] eqn:B.
    + destruct (assimilate_body_ill _ _ _ _ _ _ Ht B) as [-> A].
      rewrite (A a eq_refl). apply IH. exact Ht.
    + destruct (assimilate_body_ill _ _ _ _ _ _ Ht B) as [-> _].
      intros E; injection E as <- <-. split; [reflexivity | discriminate].
Qed.

(** * [assimilate] as a whole *)

Lemma assimilate_eq new_traits self :
  assimilate new_traits self =
  match py_items new_traits with
  | Raise e => (Raise e, self)
  | Ok items =>
      match assimilate_loop items [] self with
      | (Raise e, self') => (Raise e, self')
      | (Ok [], self') => (Ok [], self')
      | (Ok (k :: added), self') => (Ok (k :: added), saved self')
      end
  end.
Proof.
  unfold assimilate, bind, lift, ret, _save, saved.
  destruct (py_items new_traits) as [items|e]; [|reflexivity].
  destruct (assimilate_loop items [] self) as [[[|k added]|e] self']; reflexivity.
Qed.

Lemma traits_of_saved self : traits_of (saved self) = traits_of self.
Proof. reflexivity. Qed.

(** ** Facts about the accepted candidates *)

Lemma accepted_fresh items : forall t k,
  In k (keys (accepted t items)) -> dict_contains k t = false.
Proof.
  induction items as [|[k0 v0] rest IH]; intros t k; simpl; [tauto|].
  destruct (dict_contains k0 t) eqn:K; [apply IH|].
  destruct (validate v0) as [[|]|e]; try apply IH.
  simpl. intros [<-|H]; [exact K|].
  apply IH in H. rewrite dict_contains_app in H.
  apply orb_false_iff in H. tauto.
Qed.

Lemma accepted_incl items : forall t kv,
  In kv (accepted t items) -> In kv items.
Proof.
  induction items as [|[k0 v0] rest IH]; intros t kv; simpl; [tauto|].
  destruct (dict_contains k0 t); [intros H0; right; eapply IH; eauto|].
  destruct (validate v0) as [[|]|e]; try (intros H0; right; eapply IH; eauto; fail).
  intros [<-|H0]; [left; reflexivity | right; eapply IH; eauto].
Qed.

Lemma in_keys (d : dict) k : In k (keys d) <-> exists v, In (k, v) d.
Proof.
  unfold keys. rewrite in_map_iff. split.
  - intros ([k' v] & E & H). simpl in E. subst. eauto.
  - intros (v & H). exists (k, v). auto.
Qed.

Lemma in_accepted items : forall t k v,
  NoDup (keys items) -> In (k, v) items ->
  dict_contains k t = false -> validate v = Ok true ->
  In (k, v) (accepted t items).
Proof.
  induction items as [|[k0 v0] rest IH]; intros t k v ND; simpl; [tauto|].
  simpl in ND. apply NoDup_cons_iff in ND as [N0 ND].
  intros [E|H] K V.
  - injection E as -> ->. rewrite K, V. left; reflexivity.
  - assert (k <> k0) as Hne.
    { intros ->. apply N0. apply in_keys. eauto. }
    destruct (dict_contains k0 t); [apply IH; auto|].
    assert (dict_contains k (t ++ [(k0, v0)]) = false) as K1.
    { rewrite dict_contains_app, K. unfold dict_contains. simpl.
      destruct (str_eqb k k0) eqn:E; [apply str_eqb_spec in E; congruence|].
      reflexivity. }
    destruct (validate v0) as [[|]|e]; try (apply IH; auto).
    right. apply IH; auto.
Qed.


Lemma dict_get_in (d : dict) k v : dict_get k d = Some v -> In (k, v) d.
Proof.
  induction d as [|[k' v'] d IH]; simpl; [discriminate|].
  destruct (str_eqb k k') eqn:E.
  - apply str_eqb_spec in E. subst. intros H; injection H as ->. left; reflexivity.
  - intros H. right. auto.
Qed.


Lemma validate_dict fields :
  validate (PyDict fields) =
  Ok (dict_contains (u "definition") fields && dict_contains (u "sin_weights") fields).
Proof.
  unfold validate. simpl.
  destruct (dict_contains (u "definition") fields); reflexivity.
Qed.


(** What a call does to a library that has a traits mapping: it appends
    entries to the mapping, and writes the library once when it returns a
    list that is not empty. *)
Lemma assimilate_wf items self t r self' :
  traits_of self = Some t ->
  assimilate (PyDict items) self = (r, self') ->
  exists new,
    _library self' = with_traits (_library self) (t ++ new) /\
    traits_of self' = Some (t ++ new) /\
    (forall kv, In kv new -> In kv items) /\
    (forall added, r = Ok added -> new = accepted t items /\ added = keys new) /\
    TRAIT_FILE self' =
      TRAIT_FILE self ++ match r with
                         | Ok (_ :: _) => [Document (_library self')]
                         | _ => []
                         end.
Proof.
  intros Ht. rewrite assimilate_eq. simpl.
  destruct (assimilate_loop items [] self) as [r1 s1] eqn:L.
  destruct (assimilate_loop_wf items [] self t r1 s1 Ht L)
    as (F & new & Lb & T & I & R).
  destruct r1 as [[|k added]|e]; intros E; injection E as <- <-;
    exists new; (split; [exact Lb|]); (split; [exact T|]); (split; [exact I|]);
    split; try exact R; simpl; rewrite ?app_nil_r; rewrite ?F; reflexivity.
Qed.

Lemma assimilate_ill new_traits self r self' :
  traits_of self = None ->
  assimilate new_traits self = (r, self') ->
  self' = self /\ (forall added, r = Ok added -> added = []).
Proof.
  intros Ht. rewrite assimilate_eq.
  destruct (py_items new_traits) as [items|e].
  - destruct (assimilate_loop items [] self) as [r1 s1] eqn:L.
    destruct (assimilate_loop_ill items [] self r1 s1 Ht L) as [-> A].
    destruct r1 as [[|k added]|e].
    + intros E; injection E as <- <-. split; [reflexivity | congruence].
    + specialize (A _ eq_refl). discriminate.
    + intros E; injection E as <- <-. split; [reflexivity | discriminate].
  - intros E; injection E as <- <-. split; [reflexivity | discriminate].
Qed.

Lemma py_items_inv o items : py_items o = Ok items -> o = PyDict items.
Proof. destruct o; simpl; try discriminate. intros H; injection H as ->. reflexivity. Qed.

(** ** No overwrite *)

(** C1.  A trait key that is in the traits mapping of the library before
    a call of [assimilate] keeps its stored data through the call, however
    the call ends, and is not in the list the call returns. *)
Theorem assimilate_never_overwrites new_traits self t k v r self' :
  traits_of self = Some t ->
  dict_get k t = Some v ->
  assimilate new_traits self = (r, self') ->
  (exists t', traits_of self' = Some t' /\ dict_get k t' = Some v) /\
  (forall added, r = Ok added -> ~ In k added).
Proof.
  intros Ht Hk E.
  destruct (py_items new_traits) as [items|e] eqn:I.
  - apply py_items_inv in I. subst new_traits.
    destruct (assimilate_wf items self t r self' Ht E) as (new & _ & T & _ & R & _).
    split.
    + exists (t ++ new). split; [exact T|]. rewrite dict_get_app, Hk. reflexivity.
    + intros added H. destruct (R _ H) as [-> ->]. intros Hin.
      apply accepted_fresh in Hin. apply dict_contains_get in Hin. congruence.
  - rewrite assimilate_eq, I in E. injection E as <- <-. split.
    + eauto.
    + discriminate.
Qed.

(** ** A library without [traits] *)

(** C10.  On a library that is an object without a [traits] field,
    [get_traits] returns the empty mapping, and [assimilate] with a
    candidate mapping that is not empty raises [KeyError] and changes
    nothing. *)
Theorem missing_traits_field lib file k v rest :
  dict_get (u "traits") lib = None ->
  let self := {| _library := PyDict lib; TRAIT_FILE := file |} in
  get_traits self = (Ok (PyDict []), self) /\
  assimilate (PyDict ((k, v) :: rest)) self = (Raise KeyError, self).
Proof.
  intros H self. split.
  - unfold get_traits, bind, get_self_library, lift. simpl. rewrite H. reflexivity.
  - rewrite assimilate_eq. simpl. unfold bind at 1.
    rewrite assimilate_body_eq. unfold is_known. simpl. rewrite H. reflexivity.
Qed.

(** ** Idempotence *)





(** ** Saving *)

(** A call writes the library, once and as the call leaves it, when it
    returns a list that is not empty, and writes nothing otherwise; a call
    that returns has added a key exactly when it has changed the library. *)
Lemma assimilate_saves_iff_added new_traits self r self' :
  assimilate new_traits self = (r, self') ->
  TRAIT_FILE self' =
    TRAIT_FILE self ++ match r with
                       | Ok (_ :: _) => [Document (_library self')]
                       | _ => []
                       end /\
  (forall added, r = Ok added ->
     (added = [] <-> _library self' = _library self)).
Proof.
  intros E. destruct (traits_of self) as [t|] eqn:Ht.
  - destruct (py_items new_traits) as [items|e] eqn:I.
    + apply py_items_inv in I. subst new_traits.
      destruct (assimilate_wf items self t _ _ Ht E) as (new & L & T & _ & R & F).
      split; [exact F|]. intros added H. destruct (R _ H) as [_ ->]. split.
      * intros N. assert (new = []) as -> by (destruct new; [reflexivity|discriminate]).
        rewrite L, app_nil_r. apply with_traits_same. exact Ht.
      * intros EL. unfold traits_of in T, Ht. rewrite EL in T. rewrite T in Ht.
        injection Ht as Ht. rewrite <- (app_nil_r t) in Ht at 2.
        apply app_inv_head in Ht. subst. reflexivity.
    + rewrite assimilate_eq, I in E. injection E as <- <-.
      rewrite app_nil_r. split; [reflexivity | discriminate].
  - destruct (assimilate_ill new_traits self _ _ Ht E) as [-> A].
    split.
    + destruct r as [[|]|]; rewrite ?app_nil_r; try reflexivity.
      specialize (A _ eq_refl). discriminate.
    + intros added H. rewrite (A _ H). tauto.
Qed.

(** ** The returned list *)


(** ** What is stored *)

Lemma dict_get_unique (d : dict) k v :
  NoDup (keys d) -> In (k, v) d -> dict_get k d = Some v.
Proof.
  induction d as [|[k' v'] d IH]; simpl; [tauto|].
  intros ND. apply NoDup_cons_iff in ND as [N0 ND]. intros [H|H].
  - injection H as -> ->. rewrite str_eqb_refl. reflexivity.
  - destruct (str_eqb k k') eqn:E.
    + apply str_eqb_spec in E. subst. exfalso. apply N0. apply in_keys. eauto.
    + auto.
Qed.

Lemma accepted_keys_nodup items : forall t,
  NoDup (keys items) -> NoDup (keys (accepted t items)).
Proof.
  induction items as [|[k v] rest IH]; intros t ND; simpl; [constructor|].
  simpl in ND. apply NoDup_cons_iff in ND as [N0 ND].
  destruct (dict_contains k t); [auto|].
  destruct (validate v) as [[|]|e]; auto.
  simpl. constructor; [|auto].
  intros H. apply in_keys in H as [v' H]. apply accepted_incl in H.
  apply N0. apply in_keys. eauto.
Qed.

(** X27.  On a library with a traits mapping and a candidate mapping with
    distinct keys, when [assimilate] returns: every key it returns is
    stored with exactly the object the candidate mapping has for it, in
    the library and in the document written to the file; and a candidate
    that is a dict with a [definition] and a [sin_weights] field, under a
    key that was not in the mapping, is taken as it is, whatever these and
    its other fields hold. *)
Theorem assimilate_stores_candidates_verbatim items self t added self' :
  traits_of self = Some t ->
  NoDup (keys items) ->
  assimilate (PyDict items) self = (Ok added, self') ->
  exists t',
    traits_of self' = Some t' /\
    (forall k, In k added ->
       exists v, In (k, v) items /\ dict_get k t' = Some v /\
                 last (TRAIT_FILE self') (Document PyNone) = Document (_library
                     self')) /\
    (forall k fields,
       In (k, PyDict fields) items ->
       dict_contains k t = false ->
       dict_contains (u "definition") fields = true ->
       dict_contains (u "sin_weights") fields = true ->
       In k added /\ dict_get k t' = Some (PyDict fields)).
Proof.
  intros Ht ND E.
  destruct (assimilate_wf items self t _ _ Ht E) as (new & _ & T & I & R & F).
  destruct (R _ eq_refl) as [N A].
  assert (forall k v, In (k, v) new -> dict_get k (t ++ new) = Some v) as G.
  { intros k v H. rewrite dict_get_app.
    assert (dict_get k t = None) as ->.
    { apply dict_contains_get. apply (accepted_fresh items). rewrite <- N.
      apply in_keys. eauto. }
    apply dict_get_unique; [|exact H].
    rewrite N. apply accepted_keys_nodup. exact ND. }
  exists (t ++ new). split; [exact T|]. split.
  - intros k Hk. rewrite A in Hk. apply in_keys in Hk as [v Hv].
    exists v. split; [auto|]. split; [auto|].
    rewrite F. destruct added as [|k0 added].
    + destruct new; [destruct Hv | discriminate].
    + apply last_last.
  - intros k fields Hin K D W.
    assert (In (k, PyDict fields) new) as H.
    { rewrite N. apply in_accepted; auto. rewrite validate_dict, D, W. reflexivity. }
    split; [|auto]. rewrite A. apply in_keys. eauto.
Qed.

(** ** Candidates that lack a field *)

Lemma assimilate_loop_cons k v rest added self :
  assimilate_loop ((k, v) :: rest) added self =
  match assimilate_body k v added self with
  | (Ok added', self') => assimilate_loop rest added' self'
  | (Raise e, self') => (Raise e, self')
  end.
Proof. reflexivity. Qed.

Lemma assimilate_loop_skips items1 x items2 : forall added self t,
  traits_of self = Some t ->
  validate (snd x) = Ok false ->
  assimilate_loop (items1 ++ x :: items2) added self =
  assimilate_loop (items1 ++ items2) added self.
Proof.
  destruct x as [k v]. simpl.
  induction items1 as [|[k0 v0] rest IH]; intros added self t Ht V;
    rewrite <- ?app_comm_cons; simpl app; rewrite !assimilate_loop_cons.
  - rewrite (assimilate_body_wf k v added self t Ht), V.
    destruct (dict_contains k t); reflexivity.
  - rewrite (assimilate_body_wf k0 v0 added self t Ht).
    destruct (dict_contains k0 t); [eapply IH; eauto|].
    destruct (validate v0) as [[|]|e]; [|eapply IH; eauto|reflexivity].
    destruct (traits_of_with_traits self (t ++ [(k0, v0)])) as [T1 _]; [congruence|].
    eapply IH; eauto.
Qed.

(** A candidate that is a dict without a [definition] or without a
    [sin_weights] field counts for nothing: on a library with a traits
    mapping, the call does exactly what it does without that candidate. *)
Lemma assimilate_skips_incomplete_dict items1 k fields items2 self t :
  traits_of self = Some t ->
  dict_contains (u "definition") fields && dict_contains (u "sin_weights") fields
    = false ->
  assimilate (PyDict (items1 ++ (k, PyDict fields) :: items2)) self =
  assimilate (PyDict (items1 ++ items2)) self.
Proof.
  intros Ht V. rewrite !assimilate_eq. simpl.
  rewrite (assimilate_loop_skips items1 (k, PyDict fields) items2 [] self t Ht);
    [reflexivity|].
  simpl. rewrite validate_dict, V. reflexivity.
Qed.

(** C2.  Two candidate mappings the check of [assimilate] does not treat
    as the claim says, on the store of a fresh process: a candidate that
    is [None] makes the call raise [TypeError]; a candidate that is a
    string in which both field names occur is stored and returned. *)
Theorem assimilate_candidate_not_a_dict :
  assimilate (PyDict [(u "x", PyNone)]) fresh_store
    = (Raise TypeError, fresh_store) /\
  assimilate (PyDict [(u "x", PyStr (u "no definition, no sin_weights"))]) fresh_store
    = (Ok [u "x"],
       saved (with_library fresh_store
                (library_with [(u "x", PyStr (u "no definition, no sin_weights"))]))).
Proof. split; vm_compute; reflexivity. Qed.

(** C5.  A call that raises after it has stored a candidate: the key is
    in the library, and nothing has been written to the file. *)
Theorem assimilate_raise_leaves_insert_unsaved :
  assimilate (PyDict [(u "a", quick_temper); (u "b", PyNone)]) fresh_store
    = (Raise TypeError,
       with_library fresh_store (library_with [(u "a", quick_temper)])) /\
  TRAIT_FILE (with_library fresh_store (library_with [(u "a", quick_temper)]))
    = TRAIT_FILE fresh_store.
Proof. split; vm_compute; reflexivity. Qed.

(** C6.  A call that raises after it has stored a candidate returns no
    list.  On the store of a fresh process, with the candidates [a] (a
    trait as the prompt asks for it), [b] (a number) and [c] (another
    trait), in this order: the call stores [a], raises [TypeError] on the
    check of [b] and never looks at [c].  The keys that were not in the
    mapping before the call and are in it after are [a], and the call
    has returned nothing. *)
Theorem assimilate_raise_returns_no_list :
  assimilate
    (PyDict [(u "a", quick_temper); (u "b", PyFloat f0_6); (u "c", envious)])
    fresh_store
    = (Raise TypeError,
       with_library fresh_store (library_with [(u "a", quick_temper)])) /\
  traits_of fresh_store = Some [] /\
  traits_of (with_library fresh_store (library_with [(u "a", quick_temper)]))
    = Some [(u "a", quick_temper)] /\
  filter (newly_inserted [] [(u "a", quick_temper)]) [u "a"; u "b"; u "c"]
    = [u "a"].
Proof. repeat split; vm_compute; reflexivity. Qed.

(** C9.  A candidate that is accepted and not persisted.  On a store that
    knows one trait, with the candidates [b] (a proposal with a field
    beyond the three, and weights that are no numbers) and [x] ([None]),
    in this order: the call stores [b] as it is, then raises [TypeError]
    on the check of [x]; the file has not been written and still holds
    the library without [b]. *)
Theorem assimilate_raise_keeps_entry_off_file :
  assimilate (PyDict [(u "b", odd_proposal); (u "x", PyNone)]) one_trait_store
    = (Raise TypeError,
       with_library one_trait_store
         (library_with [(u "quick_temper", quick_temper); (u "b", odd_proposal)])) /\
  traits_of
    (with_library one_trait_store
       (library_with [(u "quick_temper", quick_temper); (u "b", odd_proposal)]))
    = Some [(u "quick_temper", quick_temper); (u "b", odd_proposal)] /\
  TRAIT_FILE
    (with_library one_trait_store
       (library_with [(u "quick_temper", quick_temper); (u "b", odd_proposal)]))
    = [Document (library_with [(u "quick_temper", quick_temper)])] /\
  ~ in_sync
      (with_library one_trait_store
         (library_with [(u "quick_temper", quick_temper); (u "b", odd_proposal)])).
Proof.
  split; [vm_compute; reflexivity|]. split; [vm_compute; reflexivity|].
  split; [vm_compute; reflexivity|].
  unfold in_sync. vm_compute. intros H. discriminate H.
Qed.

(** ** Instances *)

Lemma assimilate_never_overwrites_witness :
  (exists t', traits_of one_trait_store = Some t' /\
              dict_get (u "quick_temper") t' = Some quick_temper) /\
  (forall added, Ok (@nil str) = Ok added -> ~ In (u "quick_temper") added).
Proof.
  apply (assimilate_never_overwrites
           (PyDict [(u "quick_temper", odd_proposal)]) one_trait_store
           [(u "quick_temper", quick_temper)] (u "quick_temper") quick_temper
           (Ok []) one_trait_store); reflexivity.
Defined.

Lemma missing_traits_field_witness :
  let self := {| _library := PyDict [(u "meta", PyDict [])]; TRAIT_FILE := [] |} in
  get_traits self = (Ok (PyDict []), self) /\
  assimilate (PyDict [(u "x", quick_temper)]) self = (Raise KeyError, self).
Proof.
  apply (missing_traits_field [(u "meta", PyDict [])] [] (u "x") quick_temper []).
  reflexivity.
Defined.



Lemma assimilate_stores_candidates_verbatim_witness :
  exists t',
    traits_of (saved (with_library one_trait_store
                 (library_with [(u "quick_temper", quick_temper);
                                (u "b", odd_proposal)]))) = Some t' /\
    (forall k, In k [u "b"] ->
       exists v, In (k, v) [(u "b", odd_proposal)] /\ dict_get k t' = Some v /\
                 last (TRAIT_FILE (saved (with_library one_trait_store
                         (library_with [(u "quick_temper", quick_temper);
                                        (u "b", odd_proposal)]))))
                   (Document PyNone)
                 = Document
                     (_library (saved (with_library one_trait_store
                         (library_with [(u "quick_temper", quick_temper);
                                        (u "b", odd_proposal)]))))) /\
    (forall k fields,
       In (k, PyDict fields) [(u "b", odd_proposal)] ->
       dict_contains k [(u "quick_temper", quick_temper)] = false ->
       dict_contains (u "definition") fields = true ->
       dict_contains (u "sin_weights") fields = true ->
       In k [u "b"] /\ dict_get k t' = Some (PyDict fields)).
Proof.
  apply (assimilate_stores_candidates_verbatim
           [(u "b", odd_proposal)] one_trait_store
           [(u "quick_temper", quick_temper)] [u "b"]).
  - reflexivity.
  - repeat constructor; vm_compute; intuition discriminate.
  - vm_compute. reflexivity.
Defined.

(** * The knowledge-base summary *)

(** ** Occurrences of a text in a text *)

Lemma startswith_sep p : forall a c b,
  ~ In c p -> startswith p (a ++ c :: b) = startswith p a.
Proof.
  induction p as [|x p IH]; intros a c b Hc; [destruct a; reflexivity|].
  destruct a as [|y a]; simpl.
  - destruct (N.eqb_spec x c) as [->|_]; [|reflexivity].
    exfalso. apply Hc. left; reflexivity.
  - rewrite IH; [reflexivity|]. intros H. apply Hc. right; exact H.
Qed.

(** A text that does not hold the character [c] occurs in [a ++ c :: b]
    only inside [a] or inside [b]. *)
Lemma str_contains_sep p a c b :
  p <> [] -> ~ In c p ->
  str_contains p (a ++ c :: b) = str_contains p a || str_contains p b.
Proof.
  intros Hp Hc. induction a as [|y a IH].
  - simpl app. destruct p as [|x p]; [congruence|].
    change (str_contains (x :: p) (c :: b))
      with (startswith (x :: p) (c :: b) || str_contains (x :: p) b).
    change (startswith (x :: p) (c :: b)) with (N.eqb x c && startswith p b).
    destruct (N.eqb_spec x c) as [->|_]; [exfalso; apply Hc; left; reflexivity|].
    reflexivity.
  - change (str_contains p ((y :: a) ++ c :: b))
      with (startswith p ((y :: a) ++ c :: b) || str_contains p (a ++ c :: b)).
    change (str_contains p (y :: a))
      with (startswith p (y :: a) || str_contains p a).
    rewrite startswith_sep by exact Hc. rewrite IH. rewrite orb_assoc. reflexivity.
Qed.

Lemma startswith_app p b : startswith p (p ++ b) = true.
Proof.
  induction p as [|x p IH]; [reflexivity|]. simpl. rewrite N.eqb_refl. exact IH.
Qed.

Lemma str_contains_skip p a s :
  str_contains p s = true -> str_contains p (a ++ s) = true.
Proof.
  intros H. induction a as [|y a IH]; [exact H|].
  change (str_contains p ((y :: a) ++ s))
    with (startswith p ((y :: a) ++ s) || str_contains p (a ++ s)).
  rewrite IH. apply orb_true_r.
Qed.

Lemma str_contains_here p a b : str_contains p (a ++ p ++ b) = true.
Proof.
  apply str_contains_skip. pose proof (startswith_app p b) as H.
  destruct (p ++ b); simpl; rewrite H; reflexivity.
Qed.

(** ** The loop and the text of the specification *)

Section SummaryProofs.

Variable py_repr : Any -> str.

Lemma weight_pairs_numeric weights :
  forallb (fun sw => numeric (snd sw)) weights = true ->
  weight_pairs py_repr weights =
  Ok (List.map (fun sw => fst sw ++ u ": " ++ py_format py_repr (snd sw))
        (filter (fun sw => strictly_positive (snd sw)) weights)).
Proof.
  induction weights as [|[s w] rest IH]; [reflexivity|].
  simpl forallb. rewrite andb_true_iff. intros [Hw Hr].
  simpl weight_pairs. rewrite (IH Hr). simpl filter. unfold strictly_positive at 2.
  destruct w; try discriminate; simpl;
    match goal with |- context [if ?b then _ else _] => destruct b end; reflexivity.
Qed.

Lemma summary_line_well_typed key data :
  well_typed_trait data = true ->
  summary_line py_repr key data = Ok (entry_text py_repr key data).
Proof.
  destruct data as [| | | | | |fields]; try discriminate.
  unfold well_typed_trait, summary_line, entry_text, weights_text, weights_of,
    definition_text, complexity_text, field_or.
  simpl py_get.
  destruct (dict_get (u "sin_weights") fields) as [[| | | | | |weights]|];
    try discriminate.
  - intros H. simpl. rewrite (weight_pairs_numeric weights H). simpl.
    destruct (dict_get (u "definition") fields);
      destruct (dict_get (u "complexity_score") fields); reflexivity.
  - intros _. simpl.
    destruct (dict_get (u "definition") fields);
      destruct (dict_get (u "complexity_score") fields); reflexivity.
Qed.

Lemma summary_lines_well_typed traits : forall lines,
  Forall (fun kd => well_typed_trait (snd kd) = true) traits ->
  summary_lines py_repr traits lines =
  Ok (lines ++ List.map (fun kd => entry_text py_repr (fst kd) (snd kd)) traits).
Proof.
  induction traits as [|[key data] rest IH]; intros lines H; simpl.
  - rewrite app_nil_r. reflexivity.
  - apply Forall_cons_iff in H as [Hd Hr]. simpl in Hd.
    rewrite (summary_line_well_typed key data Hd). simpl.
    rewrite (IH _ Hr), <- app_assoc. reflexivity.
Qed.

Lemma get_knowledge_base_string_well_typed self traits :
  traits_of self = Some traits ->
  traits <> [] ->
  Forall (fun kd => well_typed_trait (snd kd) = true) traits ->
  get_knowledge_base_string py_repr self = (Ok (summary_text py_repr traits), self).
Proof.
  intros Ht Hne Hwt. apply traits_of_inv in Ht as (lib & EL & ET).
  unfold get_knowledge_base_string, get_traits, bind, get_self_library, lift, ret.
  rewrite EL. simpl py_get. rewrite ET. cbv beta iota.
  destruct traits as [|kd traits]; [congruence|].
  change (negb (py_bool (PyDict (kd :: traits)))) with false.
  change (py_items (PyDict (kd :: traits))) with (Ok (kd :: traits)).
  cbv beta iota.
  rewrite (summary_lines_well_typed (kd :: traits) [] Hwt). reflexivity.
Qed.

Lemma weights_text_pride_wrath :
  weights_text py_repr [(u "pride", PyFloat f0_0); (u "wrath", PyFloat f0_6)]
  = u "wrath: 0.6".
Proof. vm_compute. reflexivity. Qed.

(** The entry of a trait whose weights are [pride] at [0.0] and [wrath]
    at [0.6]. *)
Lemma entry_text_pride_wrath key fields :
  dict_get (u "sin_weights") fields
    = Some (PyDict [(u "pride", PyFloat f0_0); (u "wrath", PyFloat f0_6)]) ->
  entry_text py_repr key (PyDict fields) =
  u "- " ++ key ++ u ": " ++ definition_text py_repr fields
    ++ u " [Weights: " ++ u "wrath: 0.6" ++ u "] "
    ++ u "(complexity: " ++ complexity_text py_repr fields ++ u ")".
Proof.
  intros H. unfold entry_text, weights_of. rewrite H.
  rewrite weights_text_pride_wrath. reflexivity.
Qed.

Lemma pride_in_entry key d c :
  str_contains (u "pride")
    (u "- " ++ key ++ u ": " ++ d ++ u " [Weights: " ++ u "wrath: 0.6" ++ u "] "
       ++ u "(complexity: " ++ c ++ u ")")
  = str_contains (u "pride") key || str_contains (u "pride") d
    || str_contains (u "pride") c.
Proof.
  assert (u "pride" <> []) as Hp by discriminate.
  assert (forall ch, In ch [32; 45; 58; 41]%N -> ~ In ch (u "pride")) as Hc.
  { intros ch H Hin. vm_compute in H, Hin. intuition (subst; discriminate). }
  change (u "- " ++ key ++ u ": " ++ d ++ u " [Weights: " ++ u "wrath: 0.6"
            ++ u "] " ++ u "(complexity: " ++ c ++ u ")")
    with ([45%N] ++ 32%N :: (key ++ 58%N :: ([] ++ 32%N :: (d ++ 32%N ::
            (u "[Weights: wrath: 0.6] (complexity:" ++ 32%N :: (c ++ 41%N :: [])))))).
  rewrite !str_contains_sep; try exact Hp;
    try (apply Hc; vm_compute; tauto).
  change (str_contains (u "pride") [45%N]) with false.
  change (str_contains (u "pride") []) with false.
  replace (str_contains (u "pride") (u "[Weights: wrath: 0.6] (complexity:"))
    with false by (vm_compute; reflexivity).
  simpl. rewrite !orb_false_r. apply orb_assoc.
Qed.

(** C7 (as amended).  On a library whose traits mapping is not empty and
    whose traits are objects with, where they have [sin_weights], a
    mapping from names to numbers, the summary is one entry per trait, in
    the order of the mapping, with a line feed between two entries; the
    entry of a trait is [- key: definition [Weights: pairs] (complexity:
    score)], where [pairs] is the comma-joined [sin: weight] of exactly
    the weights above [0].  The entry of a trait with weights [pride] at
    [0.0] and [wrath] at [0.6] has [wrath: 0.6] for its pairs: it contains
    [wrath: 0.6], and it contains [pride] exactly when the key, the text
    of the definition or the text of the complexity score does. *)
Theorem summary_lists_positive_weights self traits :
  traits_of self = Some traits ->
  traits <> [] ->
  Forall (fun kd => well_typed_trait (snd kd) = true) traits ->
  get_knowledge_base_string py_repr self
    = (Ok (join [10%N]
             (List.map (fun kd => entry_text py_repr (fst kd) (snd kd)) traits)),
       self) /\
  (forall key fields,
     In (key, PyDict fields) traits ->
     entry_text py_repr key (PyDict fields) =
     u "- " ++ key ++ u ": " ++ definition_text py_repr fields
       ++ u " [Weights: "
       ++ join (u ", ")
            (List.map (fun sw => fst sw ++ u ": " ++ py_format py_repr (snd sw))
               (filter (fun sw => strictly_positive (snd sw)) (weights_of fields)))
       ++ u "] " ++ u "(complexity: " ++ complexity_text py_repr fields ++ u ")") /\
  (forall key fields,
     In (key, PyDict fields) traits ->
     dict_get (u "sin_weights") fields
       = Some (PyDict [(u "pride", PyFloat f0_0); (u "wrath", PyFloat f0_6)]) ->
     weights_text py_repr (weights_of fields) = u "wrath: 0.6" /\
     str_contains (u "wrath: 0.6") (entry_text py_repr key (PyDict fields)) = true /\
     str_contains (u "pride") (entry_text py_repr key (PyDict fields))
       = str_contains (u "pride") key
         || str_contains (u "pride") (definition_text py_repr fields)
         || str_contains (u "pride") (complexity_text py_repr fields)).
Proof.
  intros Ht Hne Hwt. split; [|split].
  - apply get_knowledge_base_string_well_typed; assumption.
  - intros key fields _. reflexivity.
  - intros key fields _ H. split; [|split].
    + unfold weights_of. rewrite H. apply weights_text_pride_wrath.
    + rewrite (entry_text_pride_wrath key fields H).
      apply (str_contains_skip _ (u "- ")). apply (str_contains_skip _ key).
      apply (str_contains_skip _ (u ": ")).
      apply (str_contains_skip _ (definition_text py_repr fields)).
      apply (str_contains_skip _ (u " [Weights: ")).
      apply (str_contains_here (u "wrath: 0.6") []).
    + rewrite (entry_text_pride_wrath key fields H). apply pride_in_entry.
Qed.

End SummaryProofs.

(** C7 (as stated) fails twice.  The entry of a trait holds its key, so a
    trait named [wounded_pride] with weights [pride] at [0.0] and [wrath]
    at [0.6] has an entry that contains [pride].  And a library can hold a
    trait whose weights are not numbers, for [assimilate] takes one: the
    summary of the library it leaves raises [TypeError]. *)
Lemma summary_counterexample :
  (get_knowledge_base_string no_repr wounded_pride_store
     = (Ok (u "- wounded_pride: flares up at small slights [Weights: wrath: 0.6] (complexity: 0.6)"),
        wounded_pride_store) /\
   str_contains (u "pride")
     (u "- wounded_pride: flares up at small slights [Weights: wrath: 0.6] (complexity: 0.6)")
     = true) /\
  (assimilate (PyDict [(u "b", odd_proposal)]) fresh_store
     = (Ok [u "b"],
        saved (with_library fresh_store (library_with [(u "b", odd_proposal)]))) /\
   get_knowledge_base_string no_repr
     (saved (with_library fresh_store (library_with [(u "b", odd_proposal)])))
     = (Raise TypeError,
        saved (with_library fresh_store (library_with [(u "b", odd_proposal)])))).
Proof. repeat split; vm_compute; reflexivity. Qed.

Lemma summary_lists_positive_weights_witness :
  get_knowledge_base_string no_repr wounded_pride_store
    = (Ok (join [10%N]
             (List.map (fun kd => entry_text no_repr (fst kd) (snd kd))
                [(u "wounded_pride", quick_temper)])),
       wounded_pride_store).
Proof.
  apply (summary_lists_positive_weights no_repr wounded_pride_store
           [(u "wounded_pride", quick_temper)]).
  - reflexivity.
  - discriminate.
  - repeat constructor.
Defined.

(** * The reply of the oracle *)

(** ** White space *)

Lemma lstrip_spaces ws s : forallb isspace ws = true -> lstrip (ws ++ s) = lstrip s.
Proof.
  induction ws as [|c ws IH]; [reflexivity|]. simpl.
  rewrite andb_true_iff. intros [-> H]. auto.
Qed.

Lemma lstrip_head c s : isspace c = false -> lstrip (c :: s) = c :: s.
Proof. intros H. simpl. rewrite H. reflexivity. Qed.

(** [lstrip] removes a run of white space and stops at the first
    character that is none. *)
Lemma lstrip_decomp s :
  exists ws, s = ws ++ lstrip s /\ forallb isspace ws = true /\
             (lstrip s = [] \/ exists c t, lstrip s = c :: t /\ isspace c = false).
Proof.
  induction s as [|c s (ws & E & W & H)].
  - exists []. simpl. auto.
  - simpl. destruct (isspace c) eqn:C.
    + exists (c :: ws). simpl. rewrite C, W. split; [congruence | auto].
    + exists []. simpl. split; [reflexivity|]. split; [reflexivity|]. right. eauto.
Qed.

Lemma rstrip_decomp s :
  exists ws, s = rstrip s ++ ws /\ forallb isspace ws = true /\
             (rstrip s = [] \/ exists t c, rstrip s = t ++ [c] /\ isspace c = false).
Proof.
  unfold rstrip. destruct (lstrip_decomp (rev s)) as (ws & E & W & H).
  exists (rev ws). split; [|split].
  - rewrite <- rev_app_distr, <- E, rev_involutive. reflexivity.
  - rewrite forallb_forall in *. intros x Hx. apply W. apply in_rev. exact Hx.
  - destruct H as [-> | (c & t & -> & C)]; [left; reflexivity|].
    right. exists (rev t), c. split; [reflexivity | exact C].
Qed.

Lemma rstrip_last t c : isspace c = false -> rstrip (t ++ [c]) = t ++ [c].
Proof.
  intros C. unfold rstrip. rewrite rev_app_distr. simpl. rewrite C.
  simpl. rewrite rev_involutive. reflexivity.
Qed.

(** What [strip] leaves is empty or starts and ends with a character that
    is no white space, and the text is that with white space around. *)
Lemma strip_decomp s :
  exists l r, s = l ++ strip s ++ r /\
              forallb isspace l = true /\ forallb isspace r = true /\
              (strip s = [] \/
               (exists c t, strip s = c :: t /\ isspace c = false) /\
               (exists t c, strip s = t ++ [c] /\ isspace c = false)).
Proof.
  unfold strip.
  destruct (lstrip_decomp s) as (l & El & Wl & Hl).
  destruct (rstrip_decomp (lstrip s)) as (r & Er & Wr & Hr).
  exists l, r. split; [rewrite <- Er; exact El|]. split; [exact Wl|].
  split; [exact Wr|].
  destruct Hr as [Hr | (t & c & Hr & C)]; [left; exact Hr|].
  right. split; [|eauto].
  destruct Hl as [Hl | (c0 & t0 & Hl & C0)].
  - rewrite Hl in Hr. unfold rstrip in Hr. simpl in Hr. destruct t; discriminate.
  - rewrite Hl in Er, Hr |- *. rewrite Hr in Er |- *.
    destruct t as [|x t]; simpl in *.
    + exists c, []. split; [reflexivity | exact C].
    + exists x, (t ++ [c]). injection Er as -> _. split; [reflexivity | exact C0].
Qed.

(** ** The fences *)

Lemma strip_id c t t' c' :
  isspace c = false -> isspace c' = false -> c :: t = t' ++ [c'] ->
  strip (c :: t) = c :: t.
Proof.
  intros C C' E. unfold strip. rewrite (lstrip_head c t C). rewrite E.
  apply rstrip_last. exact C'.
Qed.

Lemma sub_close_fence_unfold s :
  sub_close_fence s =
  match close_fence_match s with
  | Some rest => rest
  | None => match s with [] => [] | c :: s' => c :: sub_close_fence s' end
  end.
Proof. destruct s; reflexivity. Qed.

Lemma lstrip_core t c rest :
  isspace c = false ->
  exists y z, lstrip ((t ++ [c]) ++ rest) = (y :: z) ++ rest /\ isspace y = false.
Proof.
  intros C. induction t as [|x t (y & z & E & Y)].
  - exists c, []. simpl. rewrite C. auto.
  - simpl. destruct (isspace x) eqn:X.
    + exists y, z. auto.
    + exists x, (t ++ [c]). auto.
Qed.

(** Inside the content the closing pattern does not match: what follows
    a character of the content is longer than the fence and ends with a
    backquote. *)
Lemma close_fence_match_core t c tail :
  isspace c = false ->
  close_fence_match ((t ++ [c]) ++ tail ++ fence) = None.
Proof.
  intros C. unfold close_fence_match.
  destruct (lstrip_core t c (tail ++ fence) C) as (y & z & -> & _).
  assert (str_eqb ((y :: z) ++ tail ++ fence) (u "```") = false) as ->.
  { apply str_eqb_neq. intros E. apply (f_equal (@List.length _)) in E.
    rewrite !length_app in E. simpl in E. lia. }
  assert (str_eqb ((y :: z) ++ tail ++ fence) (u "```" ++ [10%N]) = false) as ->.
  { apply str_eqb_neq. intros E. apply (f_equal (@rev _)) in E.
    rewrite !rev_app_distr in E. simpl in E. discriminate. }
  reflexivity.
Qed.

Lemma sub_close_fence_tail tail :
  forallb isspace tail = true -> sub_close_fence (tail ++ fence) = [].
Proof.
  intros W. rewrite sub_close_fence_unfold. unfold close_fence_match.
  rewrite (lstrip_spaces tail fence W). reflexivity.
Qed.

(** The closing pattern takes the white space after the content and the
    fence, and nothing of the content. *)
Lemma sub_close_fence_core t c tail :
  isspace c = false -> forallb isspace tail = true ->
  sub_close_fence ((t ++ [c]) ++ tail ++ fence) = t ++ [c].
Proof.
  intros C W. induction t as [|x t IH].
  - rewrite sub_close_fence_unfold, (close_fence_match_core [] c tail C).
    simpl. rewrite (sub_close_fence_tail tail W). reflexivity.
  - rewrite sub_close_fence_unfold, (close_fence_match_core (x :: t) c tail C).
    simpl. simpl in IH. rewrite IH. reflexivity.
Qed.

Lemma forallb_isspace_app a b :
  forallb isspace a = true -> forallb isspace b = true ->
  forallb isspace (a ++ b) = true.
Proof. intros A B. rewrite forallb_app, A, B. reflexivity. Qed.

Lemma startswith_head_neq p0 p x s :
  p0 <> x -> startswith (p0 :: p) (x :: s) = false.
Proof.
  intros H. cbn [startswith]. destruct (N.eqb_spec p0 x); [congruence | reflexivity].
Qed.

(** A reply that is a fence, nothing or [json], white space, a content,
    white space and a fence is normalized to the content stripped, when
    that starts with neither a backquote nor a [j]. *)
Lemma normalize_fenced tag ws1 D ws2 c t :
  tag = [] \/ tag = u "json" ->
  forallb isspace ws1 = true -> forallb isspace ws2 = true ->
  strip D = c :: t -> c <> 96%N -> c <> 106%N ->
  normalize (fence ++ tag ++ ws1 ++ D ++ ws2 ++ fence) = strip D /\
  normalize D = strip D.
Proof.
  intros Htag W1 W2 E C96 C106.
  destruct (strip_decomp D) as (l & r & ED & Wl & Wr & H).
  destruct H as [H | [(c0 & t0 & H0 & C0) (t1 & c1 & H1 & C1)]]; [congruence|].
  assert (c0 = c) as -> by congruence.
  split.
  - unfold normalize.
    assert (strip (fence ++ tag ++ ws1 ++ D ++ ws2 ++ fence)
            = fence ++ tag ++ ws1 ++ D ++ ws2 ++ fence) as ->.
    { apply (strip_id 96%N _ (fence ++ tag ++ ws1 ++ D ++ ws2 ++ [96%N; 96%N]) 96%N);
        try reflexivity.
      rewrite <- !app_assoc. reflexivity. }
    rewrite (startswith_app fence). unfold sub_open_fence.
    rewrite (startswith_app fence). cbv zeta.
    change (skipn 3 (fence ++ tag ++ ws1 ++ D ++ ws2 ++ fence))
      with (tag ++ ws1 ++ D ++ ws2 ++ fence).
    match goal with
    | |- context [lstrip ?x] => assert (x = ws1 ++ D ++ ws2 ++ fence) as ->
    end.
    { destruct Htag as [-> | ->].
      - simpl app.
        assert (startswith (u "json") (ws1 ++ D ++ ws2 ++ fence) = false) as ->;
          [|reflexivity].
        rewrite ED, H0. change (u "json") with (106%N :: u "son").
        destruct ws1 as [|w ws1]; [destruct l as [|x l]|]; simpl app;
          apply startswith_head_neq.
        + congruence.
        + simpl in Wl. apply andb_true_iff in Wl as [X _].
          intros <-. discriminate.
        + simpl in W1. apply andb_true_iff in W1 as [X _].
          intros <-. discriminate.
      - rewrite (startswith_app (u "json")). reflexivity. }
    rewrite ED at 1. rewrite <- !app_assoc.
    rewrite (lstrip_spaces ws1 _ W1), (lstrip_spaces l _ Wl).
    rewrite H0 at 1. rewrite <- app_comm_cons, (lstrip_head c _ C0), app_comm_cons.
    rewrite <- H0, H1. rewrite (app_assoc r ws2 fence).
    apply sub_close_fence_core; [exact C1 | apply forallb_isspace_app; assumption].
  - unfold normalize. rewrite H0.
    change (u "```") with (96%N :: u "``").
    rewrite startswith_head_neq by congruence. reflexivity.
Qed.

(** A text that parses starts with neither a backquote nor a [j]. *)
Lemma loads_first_char recursion_limit s v :
  loads recursion_limit s = Ok v ->
  exists c t, s = c :: t /\ c <> 96%N /\ c <> 106%N.
Proof.
  destruct s as [|c t]; intros H.
  - unfold loads in H. simpl in H.
    destruct recursion_limit as [|[|n]]; discriminate.
  - exists c, t. split; [reflexivity|].
    split; intros ->; unfold loads in H; simpl in H;
      destruct recursion_limit as [|[|n]]; discriminate.
Qed.

(** C8 (as amended).  A reply made of a fence, then nothing or the tag
    [json], then white space, then a content, then white space and a
    fence is read as the content is: when the content, stripped as
    [analyze] strips a reply, parses to a value, the fenced reply is
    normalized to the same text as the bare content, and both parse to
    that value. *)
Theorem fenced_reply_parses_like_content recursion_limit tag ws1 D ws2 v :
  tag = [] \/ tag = u "json" ->
  forallb isspace ws1 = true ->
  forallb isspace ws2 = true ->
  loads recursion_limit (strip D) = Ok v ->
  normalize (fence ++ tag ++ ws1 ++ D ++ ws2 ++ fence) = normalize D /\
  loads recursion_limit (normalize (fence ++ tag ++ ws1 ++ D ++ ws2 ++ fence))
    = Ok v /\
  loads recursion_limit (normalize D) = Ok v.
Proof.
  intros Htag W1 W2 L.
  destruct (loads_first_char _ _ _ L) as (c & t & E & C96 & C106).
  destruct (normalize_fenced tag ws1 D ws2 c t Htag W1 W2 E C96 C106) as [N1 N2].
  rewrite N1, N2. auto.
Qed.

(** C8 (as stated) fails for a tag other than [json]: the tag stays in
    front of the content, and the text does not parse. *)
Lemma fence_with_another_tag :
  normalize (fence ++ u "JSON" ++ [10%N] ++ u "{}" ++ [10%N] ++ fence)
    = u "JSON" ++ [10%N] ++ u "{}" /\
  loads sample_limit
    (normalize (fence ++ u "JSON" ++ [10%N] ++ u "{}" ++ [10%N] ++ fence))
    = Raise JSONDecodeError /\
  loads sample_limit (normalize (u "{}")) = Ok (PyDict []).
Proof. repeat split; vm_compute; reflexivity. Qed.

Lemma fenced_reply_parses_like_content_witness :
  normalize (fence ++ u "json" ++ [10%N] ++ u "{}" ++ [10%N] ++ fence)
    = normalize (u "{}") /\
  loads sample_limit
    (normalize (fence ++ u "json" ++ [10%N] ++ u "{}" ++ [10%N] ++ fence))
    = Ok (PyDict []) /\
  loads sample_limit (normalize (u "{}")) = Ok (PyDict []).
Proof.
  apply (fenced_reply_parses_like_content sample_limit (u "json") [10%N] (u "{}")
           [10%N]).
  - right; reflexivity.
  - reflexivity.
  - reflexivity.
  - vm_compute. reflexivity.
Defined.

(** ** What the decoder raises *)

Arguments raise_errmsg : simpl never.

Lemma raise_errmsg_raises (A : Type) depth e :
  @raise_errmsg A depth = Raise e -> e = JSONDecodeError \/ e = RecursionError.
Proof.
  unfold raise_errmsg. destruct (3 <=? depth)%nat; intros H; injection H as <-; auto.
Qed.

Lemma scanstring_raises fuel : forall depth s acc e,
  scanstring fuel depth s acc = Raise e ->
  e = JSONDecodeError \/ e = RecursionError.
Proof.
  induction fuel as [|fuel IH]; intros depth s acc e H; cbn [scanstring] in H.
  - destruct s; apply raise_errmsg_raises in H; exact H.
  - repeat match goal with
    | H : Ok _ = Raise _ |- _ => discriminate H
    | H : raise_errmsg _ = Raise _ |- _ => apply raise_errmsg_raises in H
    | H : scanstring _ _ _ _ = Raise _ |- _ => apply IH in H
    | H : (match ?x with _ => _ end) = Raise _ |- _ => destruct x eqn:?
    | H : (let '(_, _) := ?x in _) = Raise _ |- _ => destruct x eqn:?
    end; assumption.
Qed.

Lemma match_number_raises s e :
  match_number s = Raise e -> e = ValueError \/ e = StopIteration.
Proof.
  unfold match_number. intros H.
  repeat match goal with
  | H : Raise _ = Raise _ |- _ => injection H as <-
  | H : Ok _ = Raise _ |- _ => discriminate H
  | H : (match ?x with _ => _ end) = Raise _ |- _ => destruct x eqn:?
  | H : (let '(_, _) := ?x in _) = Raise _ |- _ => destruct x eqn:?
  end; auto.
Qed.

(** What the scanner raises: an exception of the decoder, or
    [StopIteration] where there is no value. *)
Ltac scanner_raises IHs IHo IHa :=
  repeat match goal with
  | H : Raise _ = Raise _ |- _ => injection H as <-
  | H : Ok _ = Raise _ |- _ => discriminate H
  | H : raise_errmsg _ = Raise _ |- _ =>
      apply raise_errmsg_raises in H; destruct H; subst
  | H : scanstring _ _ _ _ = Raise _ |- _ =>
      apply scanstring_raises in H; destruct H; subst
  | H : match_number _ = Raise _ |- _ =>
      apply match_number_raises in H; destruct H; subst
  | H : scan_once _ _ _ = Raise _ |- _ => apply IHs in H
  | H : parse_object _ _ _ _ = Raise _ |- _ => apply IHo in H
  | H : parse_array _ _ _ _ = Raise _ |- _ => apply IHa in H
  | H : rbind ?m _ = Raise _ |- _ =>
      let E := fresh "E" in destruct m as [[? ?]|?] eqn:E; simpl in H
  | H : (match ?x with _ => _ end) = Raise _ |- _ => destruct x eqn:?
  end; try assumption; unfold decoder_error; auto.

Lemma scan_once_raises fuel :
  (forall depth s e,
     scan_once fuel depth s = Raise e -> decoder_error e \/ e = StopIteration) /\
  (forall depth s pairs e,
     parse_object fuel depth s pairs = Raise e ->
     decoder_error e \/ e = StopIteration) /\
  (forall depth s values e,
     parse_array fuel depth s values = Raise e ->
     decoder_error e \/ e = StopIteration).
Proof.
  induction fuel as [|fuel (IHs & IHo & IHa)].
  - repeat split; intros; simpl in *; scanner_raises I I I.
  - split; [|split].
    + intros depth s e H. simpl in H. scanner_raises IHs IHo IHa.
    + intros depth s pairs e H. simpl in H. scanner_raises IHs IHo IHa.
    + intros depth s values e H. simpl in H. scanner_raises IHs IHo IHa.
Qed.

(** [json.loads] raises [JSONDecodeError], or the [ValueError] of [int]
    on a literal beyond the digit limit, or [RecursionError] where the
    stack is exhausted, and nothing else. *)
Lemma loads_raises recursion_limit s e :
  loads recursion_limit s = Raise e -> decoder_error e.
Proof.
  unfold loads, decoder_error. intros H.
  destruct (startswith [65279%N] s); [injection H as <-; auto|].
  destruct (scan_once (2 * List.length s + 2) recursion_limit (skip_ws s))
    as [[obj rest]|e'] eqn:E.
  - destruct (skip_ws rest); [discriminate|].
    destruct (1 <=? recursion_limit)%nat; injection H as <-; auto.
  - destruct (proj1 (scan_once_raises _) _ _ _ E) as [D | ->].
    + destruct e'; try (injection H as <-; exact D).
      unfold decoder_error in D. destruct D as [D | [D | D]]; discriminate D.
    + destruct (2 <=? recursion_limit)%nat; injection H as <-; auto.
Qed.

(** ** [analyze] on a reply that does not parse *)

(** The summary reads the library and changes nothing. *)
Lemma get_knowledge_base_string_pure py_repr self r self' :
  get_knowledge_base_string py_repr self = (r, self') -> self' = self.
Proof.
  unfold get_knowledge_base_string, get_traits, bind, get_self_library, lift, ret.
  destruct (py_get (_library self) (u "traits") (PyDict [])) as [traits|e];
    cbv beta iota; [|congruence].
  destruct (negb (py_bool traits)); [congruence|].
  destruct (py_items traits) as [items|e]; cbv beta iota; [|congruence].
  destruct (summary_lines py_repr items []); congruence.
Qed.

(** C4 (as amended).  When the reply of the oracle, normalized, does not
    parse, [analyze] raises the very exception [json.loads] raised, which
    is [json.JSONDecodeError] (or the [ValueError] of an integer literal
    beyond the digit limit, or the [RecursionError] of a nesting deeper
    than the stack allows) and not a class of the program's own, and
    leaves the trait manager as it was; the route answers it, like any
    other exception of [analyze], with status 500 and the text of the
    exception after [Analysis failed: ]. *)
Theorem analyze_parse_failure py_repr SYSTEM_PROMPT recursion_limit
    generate_content answers self knowledge_base text e :
  get_knowledge_base_string py_repr self = (Ok knowledge_base, self) ->
  generate_content (SYSTEM_PROMPT knowledge_base (dumps_answers answers))
    = Ok (Some text) ->
  loads recursion_limit (normalize text) = Raise e ->
  analyze py_repr SYSTEM_PROMPT recursion_limit generate_content answers self
    = (Raise e, self) /\
  decoder_error e /\
  class_name e <> MalformedResponseError /\
  (forall key exception_text,
     Main.analyze py_repr SYSTEM_PROMPT recursion_limit key exception_text
         generate_content answers
       {| trait_manager := self; _engine := true |}
     = (HTTPException 500 (u "Analysis failed: " ++ exception_text e),
        {| trait_manager := self; _engine := true |})).
Proof.
  intros K G L.
  assert (analyze py_repr SYSTEM_PROMPT recursion_limit generate_content answers self
          = (Raise e, self)) as A.
  { unfold analyze, bind at 1. rewrite K. cbv beta iota zeta.
    unfold bind at 1, lift at 1. rewrite G. cbv beta iota.
    unfold bind at 1, ret at 1. cbv beta iota.
    unfold bind at 1, lift at 1. rewrite L. reflexivity. }
  split; [exact A|]. split; [apply (loads_raises _ _ _ L)|]. split.
  - destruct e; vm_compute; discriminate.
  - intros key exception_text. unfold Main.analyze, Main.get_engine. simpl.
    rewrite A. reflexivity.
Qed.

(** C4 (as stated) fails: on a reply that is not JSON, [analyze] raises
    [json.JSONDecodeError], the parsing exception of the standard
    library. *)
Lemma analyze_raises_decoder_error :
  analyze no_repr bare_prompt sample_limit (always_says (u "I cannot answer that.")) []
    fresh_store
    = (Raise JSONDecodeError, fresh_store) /\
  class_name JSONDecodeError = u "JSONDecodeError" /\
  class_name JSONDecodeError <> MalformedResponseError.
Proof.
  split; [vm_compute; reflexivity|]. split; [reflexivity|].
  vm_compute. discriminate.
Qed.

Lemma analyze_parse_failure_witness :
  analyze no_repr bare_prompt sample_limit (always_says (u "I cannot answer that.")) []
    fresh_store
    = (Raise JSONDecodeError, fresh_store).
Proof.
  apply (analyze_parse_failure no_repr bare_prompt sample_limit
           (always_says (u "I cannot answer that.")) [] fresh_store
           (u "(No traits learned yet)") (u "I cannot answer that.")
           JSONDecodeError).
  - vm_compute. reflexivity.
  - reflexivity.
  - vm_compute. reflexivity.
Defined.

(** * Further properties of the code *)


(** * Further properties of the trait manager *)

Lemma last_map_some {A} (l : list A) (x : A) :
  last (List.map Some (l ++ [x])) None = Some x.
Proof. rewrite map_app. simpl. apply last_last. Qed.

Lemma keys_dict_set_present (k : str) (v : Any) (d : dict) :
  dict_contains k d = true -> keys (dict_set k v d) = keys d.
Proof.
  unfold dict_contains. induction d as [|[k' v'] d IH]; simpl; [discriminate|].
  destruct (str_eqb k k'); [reflexivity|].
  intros H. simpl. rewrite IH by exact H. reflexivity.
Qed.

Lemma dict_get_set_other (k k' : str) (v : Any) (d : dict) :
  k' <> k -> dict_get k' (dict_set k v d) = dict_get k' d.
Proof.
  intros Hne. induction d as [|[k0 v0] d IH]; simpl.
  - destruct (str_eqb k' k) eqn:E; [apply str_eqb_spec in E; congruence | reflexivity].
  - destruct (str_eqb k k0) eqn:E; simpl.
    + apply str_eqb_spec in E. subst k0.
      destruct (str_eqb k' k) eqn:E'; [apply str_eqb_spec in E'; congruence|].
      reflexivity.
    + rewrite IH. reflexivity.
Qed.

(** ** Loading *)

(** X1.  Creating the manager, when there is no file, installs the
    skeleton with no traits and writes it, once.  When there is a file
    that holds a document, it takes the document and writes nothing.
    When there is a file that does not decode, [load] raises what
    [json.load] raised, having assigned and written nothing, and there
    is no manager.  Where there is a manager, its library is what the
    file holds. *)
Theorem new_TraitManager_loads_or_initialises file :
  (file = [] ->
   new_TraitManager file
   = Ok {| _library := empty_library;
           TRAIT_FILE := [Document empty_library] |}) /\
  (forall earlier doc, file = earlier ++ [Document doc] ->
   new_TraitManager file = Ok {| _library := doc; TRAIT_FILE := file |}) /\
  (forall earlier e, file = earlier ++ [Undecodable e] ->
   load {| _library := PyDict []; TRAIT_FILE := file |}
   = (Raise e, {| _library := PyDict []; TRAIT_FILE := file |}) /\
   new_TraitManager file = Raise e) /\
  (forall self, new_TraitManager file = Ok self -> in_sync self).
Proof.
  assert (forall earlier doc,
            new_TraitManager (earlier ++ [Document doc])
            = Ok {| _library := doc; TRAIT_FILE := earlier ++ [Document doc] |})
    as Hdoc.
  { intros earlier doc. unfold new_TraitManager, load. cbn [TRAIT_FILE].
    rewrite last_map_some. reflexivity. }
  assert (forall earlier e,
            load {| _library := PyDict []; TRAIT_FILE := earlier ++ [Undecodable e] |}
            = (Raise e,
               {| _library := PyDict []; TRAIT_FILE := earlier ++ [Undecodable e] |}))
    as Hbad.
  { intros earlier e. unfold load. cbn [TRAIT_FILE].
    rewrite last_map_some. reflexivity. }
  split; [|split; [|split]].
  - intros ->. reflexivity.
  - intros earlier doc ->. apply Hdoc.
  - intros earlier e ->. split; [apply Hbad|].
    unfold new_TraitManager. rewrite Hbad. reflexivity.
  - intros self. destruct file as [|d f].
    + intros H. injection H as <-. reflexivity.
    + destruct (@exists_last _ (d :: f)) as (earlier & c & E); [discriminate|].
      rewrite E. destruct c as [doc|e].
      * rewrite Hdoc. intros H. injection H as <-.
        unfold in_sync. cbn [TRAIT_FILE _library]. apply last_map_some.
      * unfold new_TraitManager. rewrite Hbad. discriminate.
Qed.

(** ** The file follows the library *)

(** X2.  A call of [assimilate] that returns keeps the file in step with
    the library: if the library in memory was what the file held, it still
    is, so a process started afterwards loads exactly the library this
    one has. *)
Theorem assimilate_keeps_file_in_sync new_traits self added self' :
  in_sync self ->
  assimilate new_traits self = (Ok added, self') ->
  in_sync self' /\
  new_TraitManager (TRAIT_FILE self') = Ok self'.
Proof.
  intros S E.
  assert (in_sync self') as S'.
  { destruct (assimilate_saves_iff_added _ _ _ _ E) as [F A].
    unfold in_sync in *. rewrite F. destruct added as [|k added].
    - rewrite app_nil_r, S. do 2 f_equal. symmetry. apply (A [] eq_refl).
      reflexivity.
    - apply last_map_some. }
  split; [exact S'|].
  unfold in_sync in S'. unfold new_TraitManager, load. cbn [TRAIT_FILE].
  rewrite S'. destruct self'; reflexivity.
Qed.

Lemma assimilate_keeps_file_in_sync_witness :
  in_sync (saved (with_library fresh_store
                    (library_with [(u "a", quick_temper); (u "b", odd_proposal)]))) /\
  new_TraitManager
    (TRAIT_FILE (saved (with_library fresh_store
       (library_with [(u "a", quick_temper); (u "b", odd_proposal)]))))
  = Ok (saved (with_library fresh_store
          (library_with [(u "a", quick_temper); (u "b", odd_proposal)]))).
Proof.
  apply (assimilate_keeps_file_in_sync
           (PyDict [(u "a", quick_temper); (u "b", odd_proposal)])
           fresh_store [u "a"; u "b"]).
  - reflexivity.
  - vm_compute. reflexivity.
Defined.

(** ** Only the traits change *)

(** X3.  Whatever the candidates and however the call ends, [assimilate]
    leaves every field of the library other than [traits] as it was, and
    the fields of the library in their order. *)
Theorem assimilate_touches_only_traits new_traits self lib r self' :
  _library self = PyDict lib ->
  assimilate new_traits self = (r, self') ->
  exists lib',
    _library self' = PyDict lib' /\
    keys lib' = keys lib /\
    (forall k, k <> u "traits" -> dict_get k lib' = dict_get k lib).
Proof.
  intros L E. destruct (traits_of self) as [t|] eqn:Ht.
  - destruct (py_items new_traits) as [items|e] eqn:I.
    + apply py_items_inv in I. subst new_traits.
      destruct (assimilate_wf items self t _ _ Ht E) as (new & Lb & _).
      rewrite L in Lb. simpl in Lb.
      exists (dict_set (u "traits") (PyDict (t ++ new)) lib).
      split; [exact Lb|]. split.
      * apply keys_dict_set_present. apply traits_of_inv in Ht as (L0 & E0 & G).
        rewrite L in E0. injection E0 as <-. unfold dict_contains. rewrite G.
        reflexivity.
      * intros k Hk. apply dict_get_set_other. exact Hk.
    + rewrite assimilate_eq, I in E. injection E as <- <-. eauto.
  - destruct (assimilate_ill _ _ _ _ Ht E) as [-> _]. eauto.
Qed.

Lemma assimilate_touches_only_traits_witness :
  exists lib',
    _library (saved (with_library fresh_store (library_with [(u "a", quick_temper)])))
      = PyDict lib' /\
    keys lib' = keys [ (u "meta", PyDict [ (u "version", PyStr (u "2.1"));
                          (u "description", PyStr (u "Poly-Sin Weighting Library")) ]);
                       (u "traits", PyDict []) ] /\
    (forall k, k <> u "traits" ->
       dict_get k lib'
       = dict_get k [ (u "meta", PyDict [ (u "version", PyStr (u "2.1"));
                          (u "description", PyStr (u "Poly-Sin Weighting Library")) ]);
                      (u "traits", PyDict []) ]).
Proof.
  apply (assimilate_touches_only_traits (PyDict [(u "a", quick_temper)])
           fresh_store _ (Ok [u "a"])).
  - reflexivity.
  - vm_compute. reflexivity.
Defined.

(** ** Calls compose *)

Lemma assimilate_loop_app items1 items2 : forall added self,
  assimilate_loop (items1 ++ items2) added self =
  match assimilate_loop items1 added self with
  | (Ok added1, self1) => assimilate_loop items2 added1 self1
  | (Raise e, self1) => (Raise e, self1)
  end.
Proof.
  induction items1 as [|[k v] rest IH]; intros added self; [reflexivity|].
  rewrite <- app_comm_cons, !assimilate_loop_cons.
  destruct (assimilate_body k v added self) as [[a|e] s]; [apply IH | reflexivity].
Qed.

(** The loop reads the library only: what is in the file and what the
    list holds already make no difference to what it does. *)
Lemma assimilate_loop_shift items : forall a b self f,
  assimilate_loop items (a ++ b) {| _library := _library self; TRAIT_FILE := f |} =
  match assimilate_loop items b self with
  | (Ok x, s) => (Ok (a ++ x), {| _library := _library s; TRAIT_FILE := f |})
  | (Raise e, s) => (Raise e, {| _library := _library s; TRAIT_FILE := f |})
  end.
Proof.
  induction items as [|[k v] rest IH]; intros a b self f; [reflexivity|].
  rewrite !assimilate_loop_cons, !assimilate_body_eq. cbn [_library].
  destruct (is_known (_library self) k) as [[|]|e]; try reflexivity; [apply IH|].
  destruct (validate v) as [[|]|e]; try reflexivity; [|apply IH].
  destruct (insert_trait (_library self) k v) as [lib'|e]; [|reflexivity].
  rewrite <- app_assoc. apply (IH a (b ++ [k]) (with_library self lib') f).
Qed.

(** X4.  Two calls in a row, with candidate mappings that have no key in
    common, do to the library what one call with the two mappings merged
    does, and the two lists returned, end to end, are the list that call
    returns. *)
Theorem assimilate_twice_is_assimilate_both items1 items2 self added1 self1
    added2 self2 :
  NoDup (keys (items1 ++ items2)) ->
  assimilate (PyDict items1) self = (Ok added1, self1) ->
  assimilate (PyDict items2) self1 = (Ok added2, self2) ->
  exists self',
    assimilate (PyDict (items1 ++ items2)) self = (Ok (added1 ++ added2), self') /\
    _library self' = _library self2.
Proof.
  intros _. rewrite !assimilate_eq. simpl py_items. cbv beta iota.
  rewrite assimilate_loop_app.
  destruct (assimilate_loop items1 [] self) as [[a1|e1] l1] eqn:L1.
  2: { destruct l1; discriminate. }
  intros E1.
  assert (a1 = added1 /\ _library self1 = _library l1) as [-> EL].
  { destruct a1; injection E1 as <- <-; split; reflexivity. }
  clear E1.
  pose proof (assimilate_loop_shift items2 added1 [] self1 (TRAIT_FILE l1)) as Sh.
  rewrite app_nil_r, EL in Sh.
  replace {| _library := _library l1; TRAIT_FILE := TRAIT_FILE l1 |} with l1 in Sh
    by (destruct l1; reflexivity).
  rewrite Sh.
  destruct (assimilate_loop items2 [] self1) as [[a2|e2] l2] eqn:L2.
  2: { intros H; discriminate H. }
  intros E2.
  assert (a2 = added2 /\ _library self2 = _library l2) as [-> EL2].
  { destruct a2; injection E2 as <- <-; split; reflexivity. }
  destruct (added1 ++ added2); eexists; (split; [reflexivity|]); simpl; congruence.
Qed.

Lemma assimilate_twice_is_assimilate_both_witness :
  exists self',
    assimilate (PyDict ([(u "a", quick_temper)] ++ [(u "b", odd_proposal);
                                                    (u "c", envious)]))
      fresh_store
    = (Ok ([u "a"] ++ [u "b"; u "c"]), self') /\
    _library self'
    = _library
        (saved (with_library
                  (saved (with_library fresh_store
                            (library_with [(u "a", quick_temper)])))
                  (library_with [(u "a", quick_temper); (u "b", odd_proposal);
                                 (u "c", envious)]))).
Proof.
  apply (assimilate_twice_is_assimilate_both
           [(u "a", quick_temper)] [(u "b", odd_proposal); (u "c", envious)]
           fresh_store [u "a"]
           (saved (with_library fresh_store (library_with [(u "a", quick_temper)])))
           [u "b"; u "c"]).
  - repeat constructor; vm_compute; intuition discriminate.
  - vm_compute. reflexivity.
  - vm_compute. reflexivity.
Defined.

(** ** Known keys are not looked at *)

Lemma assimilate_loop_skips_known items1 k v items2 : forall added self t,
  traits_of self = Some t ->
  dict_contains k t = true ->
  assimilate_loop (items1 ++ (k, v) :: items2) added self =
  assimilate_loop (items1 ++ items2) added self.
Proof.
  induction items1 as [|[k0 v0] rest IH]; intros added self t Ht K;
    rewrite <- ?app_comm_cons; simpl app; rewrite !assimilate_loop_cons.
  - rewrite (assimilate_body_wf k v added self t Ht), K. reflexivity.
  - rewrite (assimilate_body_wf k0 v0 added self t Ht).
    destruct (dict_contains k0 t); [eapply IH; eauto|].
    destruct (validate v0) as [[|]|e]; [|eapply IH; eauto|reflexivity].
    destruct (traits_of_with_traits self (t ++ [(k0, v0)])) as [T1 _]; [congruence|].
    apply (IH _ _ _ T1). rewrite dict_contains_app, K. reflexivity.
Qed.

(** X5.  A candidate under a key the library knows is passed over before
    it is looked at: whatever it is, [None] included, the call does what
    it does without it. *)
Theorem assimilate_skips_known_unchecked items1 k v items2 self t :
  traits_of self = Some t ->
  dict_contains k t = true ->
  assimilate (PyDict (items1 ++ (k, v) :: items2)) self =
  assimilate (PyDict (items1 ++ items2)) self.
Proof.
  intros Ht K. rewrite !assimilate_eq. simpl py_items. cbv beta iota.
  rewrite (assimilate_loop_skips_known items1 k v items2 [] self t Ht K).
  reflexivity.
Qed.

Lemma assimilate_skips_known_unchecked_witness :
  assimilate (PyDict ([(u "a", quick_temper)] ++ (u "quick_temper", PyNone) :: []))
    one_trait_store
  = assimilate (PyDict ([(u "a", quick_temper)] ++ [])) one_trait_store.
Proof.
  apply (assimilate_skips_known_unchecked [(u "a", quick_temper)]
           (u "quick_temper") PyNone [] one_trait_store
           [(u "quick_temper", quick_temper)]); reflexivity.
Defined.

(** ** No candidates, and candidates that are no mapping *)

(** X6.  With the empty mapping [assimilate] returns the empty list and
    touches nothing, even on a library that has no [traits]; with anything
    that is not a dict it raises [AttributeError] and touches nothing. *)
Theorem assimilate_nothing_to_merge self :
  assimilate (PyDict []) self = (Ok [], self) /\
  (forall new_traits, is_dict new_traits = false ->
     assimilate new_traits self = (Raise AttributeError, self)).
Proof.
  split; [reflexivity|].
  intros o H. rewrite assimilate_eq. destruct o; try reflexivity. discriminate.
Qed.

(** ** Keys stay unique *)

Lemma keys_app (d d' : dict) : keys (d ++ d') = keys d ++ keys d'.
Proof. apply map_app. Qed.

Lemma assimilate_loop_nodup items : forall added self t r self',
  traits_of self = Some t ->
  NoDup (keys t) ->
  assimilate_loop items added self = (r, self') ->
  exists t', traits_of self' = Some t' /\ NoDup (keys t').
Proof.
  induction items as [|[k v] rest IH]; intros added self t r self' Ht ND.
  - simpl. unfold ret. intros E; injection E as <- <-. eauto.
  - rewrite assimilate_loop_cons, (assimilate_body_wf k v added self t Ht).
    destruct (dict_contains k t) eqn:K; [eapply IH; eauto|].
    destruct (validate v) as [[|]|e]; [|eapply IH; eauto|].
    + destruct (traits_of_with_traits self (t ++ [(k, v)])) as [T1 _]; [congruence|].
      apply (IH _ _ _ _ _ T1).
      rewrite keys_app. simpl. apply NoDup_app; [exact ND | repeat constructor; auto|].
      intros x Hx [<-|[]]. apply dict_contains_false in K. contradiction.
    + intros E; injection E as <- <-. eauto.
Qed.

(** X7.  [assimilate] keeps the keys of the traits mapping distinct,
    whatever the candidates and however the call ends, and returns no key
    twice. *)
Theorem assimilate_keeps_keys_unique new_traits self t r self' :
  traits_of self = Some t ->
  NoDup (keys t) ->
  assimilate new_traits self = (r, self') ->
  exists t',
    traits_of self' = Some t' /\ NoDup (keys t') /\
    (forall added, r = Ok added -> NoDup added).
Proof.
  intros Ht ND E.
  destruct (py_items new_traits) as [items|e] eqn:I.
  - apply py_items_inv in I. subst new_traits.
    destruct (assimilate_wf items self t _ _ Ht E) as (new & _ & T & _ & R & _).
    assert (NoDup (keys (t ++ new))) as ND'.
    { rewrite assimilate_eq in E. simpl py_items in E. cbv beta iota in E.
      destruct (assimilate_loop items [] self) as [r1 s1] eqn:L.
      destruct (assimilate_loop_nodup items [] self t r1 s1 Ht ND L) as (t1 & T1 & N1).
      assert (traits_of self' = traits_of s1) as Q.
      { destruct r1 as [[|]|]; injection E as <- <-; reflexivity. }
      rewrite Q, T1 in T. injection T as ->. exact N1. }
    exists (t ++ new). split; [exact T|]. split; [exact ND'|].
    intros added H. destruct (R _ H) as [_ ->].
    rewrite keys_app in ND'. apply NoDup_app_remove_l in ND'. exact ND'.
  - rewrite assimilate_eq, I in E. injection E as <- <-.
    exists t. split; [exact Ht|]. split; [exact ND | discriminate].
Qed.

Lemma assimilate_keeps_keys_unique_witness :
  exists t',
    traits_of (saved (with_library one_trait_store
                 (library_with [(u "quick_temper", quick_temper);
                                (u "b", odd_proposal)]))) = Some t' /\
    NoDup (keys t') /\
    (forall added, Ok [u "b"] = Ok added -> NoDup added).
Proof.
  apply (assimilate_keeps_keys_unique
           (PyDict [(u "b", odd_proposal); (u "b", quick_temper)])
           one_trait_store [(u "quick_temper", quick_temper)]).
  - reflexivity.
  - repeat constructor. intros [].
  - vm_compute. reflexivity.
Defined.

(** * Further properties of the summary *)

(** X8.  On a library that has no [traits] field, or whose [traits] is
    empty or otherwise false ([{}], [None], [[]], [0], the empty string),
    the summary is the fixed text, and not an empty text. *)
Theorem summary_without_traits py_repr self lib :
  _library self = PyDict lib ->
  (dict_get (u "traits") lib = None \/
   exists v, dict_get (u "traits") lib = Some v /\ py_bool v = false) ->
  get_knowledge_base_string py_repr self = (Ok no_traits_yet, self) /\
  no_traits_yet <> [].
Proof.
  intros L H. split; [|discriminate].
  unfold get_knowledge_base_string, get_traits, bind, get_self_library, lift, ret.
  rewrite L. simpl py_get.
  destruct H as [-> | (v & -> & B)]; cbv beta iota.
  - reflexivity.
  - rewrite B. reflexivity.
Qed.

Lemma summary_without_traits_witness :
  get_knowledge_base_string no_repr fresh_store = (Ok no_traits_yet, fresh_store) /\
  no_traits_yet <> [].
Proof.
  apply (summary_without_traits no_repr fresh_store
           [ (u "meta", PyDict [ (u "version", PyStr (u "2.1"));
                (u "description", PyStr (u "Poly-Sin Weighting Library")) ]);
             (u "traits", PyDict []) ]).
  - reflexivity.
  - right. exists (PyDict []). split; reflexivity.
Defined.

(** ** What the summary raises *)

Lemma py_gt_zero_raises w e : py_gt_zero w = Raise e -> e = TypeError.
Proof. destruct w; simpl; congruence. Qed.

Lemma weight_pairs_raises py_repr weights : forall e,
  weight_pairs py_repr weights = Raise e -> e = TypeError.
Proof.
  induction weights as [|[s w] rest IH]; intros e; simpl; [discriminate|].
  destruct (py_gt_zero w) as [b|e'] eqn:G; simpl.
  - destruct (weight_pairs py_repr rest) as [pairs|e'']; simpl; [discriminate|].
    intros H; injection H as <-. apply IH. reflexivity.
  - intros H; injection H as <-. apply (py_gt_zero_raises _ _ G).
Qed.

Lemma py_get_raises o k d e : py_get o k d = Raise e -> e = AttributeError.
Proof.
  destruct o; simpl; try congruence. destruct (dict_get k d0); discriminate.
Qed.

Lemma py_items_raises o e : py_items o = Raise e -> e = AttributeError.
Proof. destruct o; simpl; congruence. Qed.

Lemma summary_line_raises py_repr key data e :
  summary_line py_repr key data = Raise e -> e = TypeError \/ e = AttributeError.
Proof.
  unfold summary_line.
  destruct (py_get data (u "sin_weights") (PyDict [])) as [weights|e1] eqn:G1; simpl;
    [|intros H; injection H as <-; right; apply (py_get_raises _ _ _ _ G1)].
  destruct (py_items weights) as [items|e2] eqn:G2; simpl;
    [|intros H; injection H as <-; right; apply (py_items_raises _ _ G2)].
  destruct (weight_pairs py_repr items) as [pairs|e3] eqn:G3; simpl;
    [|intros H; injection H as <-; left; apply (weight_pairs_raises _ _ _ G3)].
  destruct (py_get data (u "definition") (PyStr (u "No definition"))) as [d|e4] eqn:G4;
    simpl; [|intros H; injection H as <-; right; apply (py_get_raises _ _ _ _ G4)].
  destruct (py_get data (u "complexity_score") (PyInt 0)) as [c|e5] eqn:G5; simpl;
    [discriminate|intros H; injection H as <-; right; apply (py_get_raises _ _ _ _ G5)].
Qed.

Lemma summary_lines_raises py_repr items : forall lines e,
  summary_lines py_repr items lines = Raise e -> e = TypeError \/ e = AttributeError.
Proof.
  induction items as [|[key data] rest IH]; intros lines e; simpl; [discriminate|].
  destruct (summary_line py_repr key data) as [line|e'] eqn:G; simpl.
  - apply IH.
  - intros H; injection H as <-. apply (summary_line_raises _ _ _ _ G).
Qed.

(** X9.  The summary only reads: it leaves the library and the file as
    they are, however it ends; and when it fails, it is with [TypeError]
    (a weight that [>] does not compare with [0]) or with
    [AttributeError] (something that is not a dict where one is read). *)
Theorem summary_only_reads py_repr self r self' :
  get_knowledge_base_string py_repr self = (r, self') ->
  self' = self /\
  (forall e, r = Raise e -> e = TypeError \/ e = AttributeError).
Proof.
  intros E. split; [apply (get_knowledge_base_string_pure _ _ _ _ E)|].
  revert E.
  unfold get_knowledge_base_string, get_traits, bind, get_self_library, lift, ret.
  destruct (py_get (_library self) (u "traits") (PyDict [])) as [traits|e0] eqn:G;
    cbv beta iota.
  - destruct (negb (py_bool traits)); [intros E e H; congruence|].
    destruct (py_items traits) as [items|e1] eqn:I; cbv beta iota.
    + destruct (summary_lines py_repr items []) as [lines|e2] eqn:S.
      * intros E e H; congruence.
      * intros E e H. injection E as <- _. injection H as <-.
        apply (summary_lines_raises _ _ _ _ S).
    + intros E e H. injection E as <- _. injection H as <-.
      right. apply (py_items_raises _ _ I).
  - intros E e H. injection E as <- _. injection H as <-.
    right. apply (py_get_raises _ _ _ _ G).
Qed.

Lemma summary_only_reads_witness :
  saved (with_library fresh_store (library_with [(u "b", odd_proposal)]))
  = saved (with_library fresh_store (library_with [(u "b", odd_proposal)])) /\
  (forall e, @Raise str TypeError = Raise e -> e = TypeError \/ e = AttributeError).
Proof.
  apply (summary_only_reads no_repr
           (saved (with_library fresh_store (library_with [(u "b", odd_proposal)])))
           (@Raise str TypeError)).
  vm_compute. reflexivity.
Defined.

(** ** The summary after a merge *)

Lemma join_app sep (a b : list str) :
  a <> [] -> b <> [] -> join sep (a ++ b) = join sep a ++ sep ++ join sep b.
Proof.
  intros Ha Hb. induction a as [|x a IH]; [congruence|].
  destruct a as [|y a].
  - simpl. destruct b; [congruence | reflexivity].
  - change (join sep ((x :: y :: a) ++ b))
      with (x ++ sep ++ join sep ((y :: a) ++ b)).
    rewrite IH by discriminate.
    change (join sep (x :: y :: a)) with (x ++ sep ++ join sep (y :: a)).
    rewrite <- !app_assoc. reflexivity.
Qed.

(** X10.  On a library whose traits are well typed, a merge of well
    typed candidates only adds to the summary: the summary after the call
    is the summary before it, followed, when keys were added, by a line
    feed and the entries of the traits added, in the order added. *)
Theorem summary_grows_by_appending py_repr items self t added self' :
  traits_of self = Some t ->
  t <> [] ->
  Forall (fun kd => well_typed_trait (snd kd) = true) t ->
  Forall (fun kd => well_typed_trait (snd kd) = true) items ->
  assimilate (PyDict items) self = (Ok added, self') ->
  exists new,
    added = keys new /\
    get_knowledge_base_string py_repr self = (Ok (summary_text py_repr t), self) /\
    get_knowledge_base_string py_repr self'
    = (Ok (summary_text py_repr t
             ++ match new with
                | [] => []
                | _ :: _ => [10%N] ++ summary_text py_repr new
                end),
       self').
Proof.
  intros Ht Hne Wt Wi E.
  destruct (assimilate_wf items self t _ _ Ht E) as (new & _ & T & I & R & _).
  destruct (R _ eq_refl) as [_ A].
  exists new. split; [exact A|]. split.
  - apply get_knowledge_base_string_well_typed; assumption.
  - assert (Forall (fun kd => well_typed_trait (snd kd) = true) new) as Wn.
    { rewrite Forall_forall in *. intros kd H. apply Wi. apply I. exact H. }
    rewrite (get_knowledge_base_string_well_typed py_repr self' (t ++ new) T).
    + f_equal. f_equal. unfold summary_text. destruct new as [|kd new].
      * rewrite !app_nil_r. reflexivity.
      * rewrite map_app. apply join_app.
        -- destruct t; [congruence | discriminate].
        -- discriminate.
    + destruct t; [congruence | discriminate].
    + apply Forall_app. split; assumption.
Qed.

Lemma summary_grows_by_appending_witness :
  exists new,
    [u "a"] = keys new /\
    get_knowledge_base_string no_repr one_trait_store
    = (Ok (summary_text no_repr [(u "quick_temper", quick_temper)]), one_trait_store) /\
    get_knowledge_base_string no_repr
      (saved (with_library one_trait_store
                (library_with [(u "quick_temper", quick_temper); (u "a", quick_temper)])))
    = (Ok (summary_text no_repr [(u "quick_temper", quick_temper)]
             ++ match new with
                | [] => []
                | _ :: _ => [10%N] ++ summary_text no_repr new
                end),
       saved (with_library one_trait_store
                (library_with [(u "quick_temper", quick_temper); (u "a", quick_temper)]))).
Proof.
  apply (summary_grows_by_appending no_repr [(u "a", quick_temper)] one_trait_store
           [(u "quick_temper", quick_temper)] [u "a"]).
  - reflexivity.
  - discriminate.
  - repeat constructor.
  - repeat constructor.
  - vm_compute. reflexivity.
Defined.

(** ** A weight that is no number *)

Lemma weight_pairs_bad_weight py_repr weights s w :
  In (s, w) weights -> numeric w = false ->
  weight_pairs py_repr weights = Raise TypeError.
Proof.
  intros Hin Hw. induction weights as [|[s0 w0] rest IH]; [destruct Hin|].
  simpl. destruct Hin as [H|H].
  - injection H as -> ->. destruct w; try discriminate; reflexivity.
  - rewrite (IH H). destruct (py_gt_zero w0) as [b|e] eqn:G; simpl; [reflexivity|].
    rewrite (py_gt_zero_raises _ _ G). reflexivity.
Qed.

Lemma summary_lines_bad_weight py_repr items key fields weights s w :
  In (key, PyDict fields) items ->
  dict_get (u "sin_weights") fields = Some (PyDict weights) ->
  In (s, w) weights -> numeric w = false ->
  forall lines, exists e, summary_lines py_repr items lines = Raise e.
Proof.
  intros Hin G Hs Hw. induction items as [|[k0 d0] rest IH]; [destruct Hin|].
  intros lines. simpl. destruct Hin as [H|H].
  - injection H as -> ->. unfold summary_line. simpl py_get. rewrite G. simpl.
    rewrite (weight_pairs_bad_weight py_repr weights s w Hs Hw). simpl. eauto.
  - destruct (summary_line py_repr k0 d0) as [line|e]; simpl; [|eauto].
    apply (IH H).
Qed.

Lemma summary_bad_weight py_repr self t key fields weights s w :
  traits_of self = Some t ->
  In (key, PyDict fields) t ->
  dict_get (u "sin_weights") fields = Some (PyDict weights) ->
  In (s, w) weights -> numeric w = false ->
  exists e, get_knowledge_base_string py_repr self = (Raise e, self).
Proof.
  intros Ht Hin G Hs Hw. apply traits_of_inv in Ht as (lib & EL & ET).
  unfold get_knowledge_base_string, get_traits, bind, get_self_library, lift, ret.
  rewrite EL. simpl py_get. rewrite ET. cbv beta iota.
  destruct t as [|kd t]; [destruct Hin|].
  change (negb (py_bool (PyDict (kd :: t)))) with false.
  change (py_items (PyDict (kd :: t))) with (Ok (kd :: t)). cbv beta iota.
  destruct (summary_lines_bad_weight py_repr (kd :: t) key fields weights s w
              Hin G Hs Hw []) as [e ->].
  eauto.
Qed.

(** X11.  When a trait of the library has, among its [sin_weights], a
    weight that is not a number, the summary fails: it raises [TypeError]
    or [AttributeError] and returns no text, whatever the other traits
    are. *)
Theorem summary_fails_on_weight_not_a_number py_repr self t key fields weights s w :
  traits_of self = Some t ->
  In (key, PyDict fields) t ->
  dict_get (u "sin_weights") fields = Some (PyDict weights) ->
  In (s, w) weights ->
  numeric w = false ->
  exists e,
    get_knowledge_base_string py_repr self = (Raise e, self) /\
    (e = TypeError \/ e = AttributeError).
Proof.
  intros Ht Hin G Hs Hw.
  destruct (summary_bad_weight py_repr self t key fields weights s w Ht Hin G Hs Hw)
    as [e E].
  exists e. split; [exact E|].
  revert E.
  unfold get_knowledge_base_string, get_traits, bind, get_self_library, lift, ret.
  destruct (py_get (_library self) (u "traits") (PyDict [])) as [traits|e0] eqn:G0;
    cbv beta iota.
  - destruct (negb (py_bool traits)); [discriminate|].
    destruct (py_items traits) as [items|e1] eqn:I; cbv beta iota.
    + destruct (summary_lines py_repr items []) as [lines|e2] eqn:S; [discriminate|].
      intros E. injection E as <-. apply (summary_lines_raises _ _ _ _ S).
    + intros E. injection E as <-. right. apply (py_items_raises _ _ I).
  - intros E. injection E as <-. right. apply (py_get_raises _ _ _ _ G0).
Qed.

Lemma summary_fails_on_weight_not_a_number_witness :
  exists e,
    get_knowledge_base_string no_repr
      (saved (with_library fresh_store (library_with [(u "b", odd_proposal)])))
    = (Raise e, saved (with_library fresh_store (library_with [(u "b", odd_proposal)]))) /\
    (e = TypeError \/ e = AttributeError).
Proof.
  apply (summary_fails_on_weight_not_a_number no_repr
           (saved (with_library fresh_store (library_with [(u "b", odd_proposal)])))
           [(u "b", odd_proposal)] (u "b")
           [ (u "definition", PyStr (u "keeps score"));
             (u "sin_weights", PyDict [(u "spite", PyStr (u "high"))]);
             (u "source", PyStr (u "q7")) ]
           [(u "spite", PyStr (u "high"))] (u "spite") (PyStr (u "high")));
    try reflexivity; left; reflexivity.
Defined.

(** * Further properties of the engine *)

(** [analyze], step by step. *)
Lemma analyze_eq py_repr SYSTEM_PROMPT recursion_limit generate_content answers self :
  analyze py_repr SYSTEM_PROMPT recursion_limit generate_content answers self =
  match get_knowledge_base_string py_repr self with
  | (Raise e, s) => (Raise e, s)
  | (Ok knowledge_base, s) =>
      match generate_content (SYSTEM_PROMPT knowledge_base (dumps_answers answers)) with
      | Raise e => (Raise e, s)
      | Ok None => (Raise AttributeError, s)
      | Ok (Some text) =>
          match loads recursion_limit (normalize text) with
          | Raise e => (Raise e, s)
          | Ok result =>
              match py_get result (u "new_trait_definitions") (PyDict []) with
              | Raise e => (Raise e, s)
              | Ok new_defs =>
                  match assimilate new_defs s with
                  | (Raise e, s') => (Raise e, s')
                  | (Ok newly_added, s') =>
                      (py_setitem result (u "_newly_added_traits")
                         (PyList (List.map PyStr newly_added)), s')
                  end
              end
          end
      end
  end.
Proof.
  unfold analyze. unfold bind at 1.
  destruct (get_knowledge_base_string py_repr self) as [[kb|e] s]; [|reflexivity].
  cbv zeta. unfold bind at 1, lift at 1.
  destruct (generate_content (SYSTEM_PROMPT kb (dumps_answers answers)))
    as [[text|]|e]; reflexivity.
Qed.

(** X12.  When the summary fails, [analyze] fails with the same exception
    and changes nothing, whatever the answers and whatever the oracle
    would say: the oracle is not asked. *)
Theorem analyze_stops_when_summary_fails py_repr self e self' :
  get_knowledge_base_string py_repr self = (Raise e, self') ->
  forall SYSTEM_PROMPT recursion_limit generate_content answers,
    analyze py_repr SYSTEM_PROMPT recursion_limit generate_content answers self =
        (Raise e, self).
Proof.
  intros K SP limit gen answers. rewrite analyze_eq, K.
  rewrite (get_knowledge_base_string_pure _ _ _ _ K). reflexivity.
Qed.

Lemma analyze_stops_when_summary_fails_witness :
  analyze no_repr bare_prompt sample_limit (always_says (u "{}")) []
    (saved (with_library fresh_store (library_with [(u "b", odd_proposal)])))
  = (Raise TypeError,
     saved (with_library fresh_store (library_with [(u "b", odd_proposal)]))).
Proof.
  apply (analyze_stops_when_summary_fails no_repr
           (saved (with_library fresh_store (library_with [(u "b", odd_proposal)])))
           TypeError
           (saved (with_library fresh_store (library_with [(u "b", odd_proposal)])))).
  vm_compute. reflexivity.
Defined.

(** X13.  A proposal with a [definition] and with [sin_weights] that hold
    a weight that is no number is taken by [assimilate] like any other;
    from then on the summary fails, and with it every call of [analyze],
    whatever is asked. *)
Theorem assimilate_can_break_every_analysis py_repr items self t k fields weights
    s w added self' :
  traits_of self = Some t ->
  NoDup (keys items) ->
  In (k, PyDict fields) items ->
  dict_contains k t = false ->
  dict_contains (u "definition") fields = true ->
  dict_get (u "sin_weights") fields = Some (PyDict weights) ->
  In (s, w) weights ->
  numeric w = false ->
  assimilate (PyDict items) self = (Ok added, self') ->
  In k added /\
  exists e,
    get_knowledge_base_string py_repr self' = (Raise e, self') /\
    (forall SYSTEM_PROMPT recursion_limit generate_content answers,
       analyze py_repr SYSTEM_PROMPT recursion_limit generate_content answers self'
       = (Raise e, self')).
Proof.
  intros Ht ND Hin K D G Hs Hw E.
  destruct (assimilate_wf items self t _ _ Ht E) as (new & _ & T & _ & R & _).
  destruct (R _ eq_refl) as [N A].
  assert (In (k, PyDict fields) new) as Hnew.
  { rewrite N. apply in_accepted; auto. rewrite validate_dict, D.
    unfold dict_contains. rewrite G. reflexivity. }
  split; [rewrite A; apply in_keys; eauto|].
  destruct (summary_bad_weight py_repr self' (t ++ new) k fields weights s w T
              (in_or_app _ _ _ (or_intror Hnew)) G Hs Hw) as [e Ke].
  exists e. split; [exact Ke|].
  intros SP limit gen answers. rewrite analyze_eq, Ke. reflexivity.
Qed.

Lemma assimilate_can_break_every_analysis_witness :
  In (u "b") [u "b"] /\
  exists e,
    get_knowledge_base_string no_repr
      (saved (with_library fresh_store (library_with [(u "b", odd_proposal)])))
    = (Raise e, saved (with_library fresh_store (library_with [(u "b", odd_proposal)]))) /\
    (forall SYSTEM_PROMPT recursion_limit generate_content answers,
       analyze no_repr SYSTEM_PROMPT recursion_limit generate_content answers
         (saved (with_library fresh_store (library_with [(u "b", odd_proposal)])))
       = (Raise e,
          saved (with_library fresh_store (library_with [(u "b", odd_proposal)])))).
Proof.
  apply (assimilate_can_break_every_analysis no_repr [(u "b", odd_proposal)]
           fresh_store [] (u "b")
           [ (u "definition", PyStr (u "keeps score"));
             (u "sin_weights", PyDict [(u "spite", PyStr (u "high"))]);
             (u "source", PyStr (u "q7")) ]
           [(u "spite", PyStr (u "high"))] (u "spite") (PyStr (u "high")) [u "b"]);
    try reflexivity.
  - repeat constructor. intros [].
  - left; reflexivity.
  - left; reflexivity.
Defined.

(** X14.  When the call to the oracle raises, [analyze] raises the same
    exception; when the reply has no text, it raises [AttributeError].
    Either way nothing is changed. *)
Theorem analyze_oracle_failure py_repr SYSTEM_PROMPT recursion_limit
    generate_content answers self knowledge_base :
  get_knowledge_base_string py_repr self = (Ok knowledge_base, self) ->
  (forall e,
     generate_content (SYSTEM_PROMPT knowledge_base (dumps_answers answers)) = Raise e ->
     analyze py_repr SYSTEM_PROMPT recursion_limit generate_content answers self
         = (Raise e, self)) /\
  (generate_content (SYSTEM_PROMPT knowledge_base (dumps_answers answers)) = Ok None ->
   analyze py_repr SYSTEM_PROMPT recursion_limit generate_content answers self
   = (Raise AttributeError, self)).
Proof.
  intros K. split.
  - intros e G. rewrite analyze_eq, K, G. reflexivity.
  - intros G. rewrite analyze_eq, K, G. reflexivity.
Qed.

Lemma analyze_oracle_failure_witness :
  (forall e,
     (fun _ : str => @Raise (option str) OracleError)
       (bare_prompt no_traits_yet (dumps_answers [])) = Raise e ->
     analyze no_repr bare_prompt sample_limit (fun _ => Raise OracleError) []
         fresh_store
     = (Raise e, fresh_store)) /\
  ((fun _ : str => @Raise (option str) OracleError)
     (bare_prompt no_traits_yet (dumps_answers [])) = Ok None ->
   analyze no_repr bare_prompt sample_limit (fun _ => Raise OracleError) [] fresh_store
   = (Raise AttributeError, fresh_store)).
Proof.
  apply (analyze_oracle_failure no_repr bare_prompt sample_limit
           (fun _ => Raise OracleError) []
           fresh_store no_traits_yet).
  vm_compute. reflexivity.
Defined.

(** What [analyze] has done when it returns. *)
Lemma analyze_returns_reply_aux py_repr SYSTEM_PROMPT recursion_limit
    generate_content answers self out self' :
  analyze py_repr SYSTEM_PROMPT recursion_limit generate_content answers self
    = (Ok out, self') ->
  exists reply added,
    assimilate (proposals reply) self = (Ok added, self') /\
    out = with_accepted reply added.
Proof.
  rewrite analyze_eq.
  destruct (get_knowledge_base_string py_repr self) as [[kb|e] s] eqn:K;
    [|discriminate].
  rewrite (get_knowledge_base_string_pure _ _ _ _ K) in *.
  destruct (generate_content (SYSTEM_PROMPT kb (dumps_answers answers)))
    as [[text|]|e] eqn:G; try discriminate.
  destruct (loads recursion_limit (normalize text)) as [result|e] eqn:L;
      [|discriminate].
  destruct result as [| | | | | |reply]; try discriminate.
  simpl py_get.
  assert (match dict_get (u "new_trait_definitions") reply with
          | Some v => Ok v
          | None => Ok (PyDict [])
          end = Ok (proposals reply)) as ->.
  { unfold proposals, field_or.
    destruct (dict_get (u "new_trait_definitions") reply); reflexivity. }
  destruct (assimilate (proposals reply) self) as [[added|e] s'] eqn:A;
    [|discriminate].
  simpl. intros H. injection H as <- <-. eauto.
Qed.

(** X15.  When [analyze] returns, the reply of the oracle was a text that,
    normalized, parsed to an object; [assimilate] was run on its
    [new_trait_definitions] ([{}] when it has none) and returned; and what
    [analyze] returns is the parsed object with the list of the keys
    [assimilate] returned under [_newly_added_traits], and nothing else
    changed. *)
Theorem analyze_returns_reply_with_accepted_keys py_repr SYSTEM_PROMPT recursion_limit
    generate_content answers self out self' :
  analyze py_repr SYSTEM_PROMPT recursion_limit generate_content answers self
    = (Ok out, self') ->
  exists knowledge_base text reply added,
    get_knowledge_base_string py_repr self = (Ok knowledge_base, self) /\
    generate_content (SYSTEM_PROMPT knowledge_base (dumps_answers answers))
      = Ok (Some text) /\
    loads recursion_limit (normalize text) = Ok (PyDict reply) /\
    assimilate (proposals reply) self = (Ok added, self') /\
    out = with_accepted reply added.
Proof.
  rewrite analyze_eq.
  destruct (get_knowledge_base_string py_repr self) as [[kb|e] s] eqn:K;
    [|discriminate].
  rewrite (get_knowledge_base_string_pure _ _ _ _ K) in *.
  destruct (generate_content (SYSTEM_PROMPT kb (dumps_answers answers)))
    as [[text|]|e] eqn:G; try discriminate.
  destruct (loads recursion_limit (normalize text)) as [result|e] eqn:L;
      [|discriminate].
  destruct result as [| | | | | |reply]; try discriminate.
  simpl py_get.
  assert (match dict_get (u "new_trait_definitions") reply with
          | Some v => Ok v
          | None => Ok (PyDict [])
          end = Ok (proposals reply)) as ->.
  { unfold proposals, field_or.
    destruct (dict_get (u "new_trait_definitions") reply); reflexivity. }
  destruct (assimilate (proposals reply) self) as [[added|e] s'] eqn:A;
    [|discriminate].
  simpl. intros H. injection H as <- <-.
  exists kb, text, reply, added. auto.
Qed.

Lemma analyze_returns_reply_with_accepted_keys_witness :
  exists knowledge_base text reply added,
    get_knowledge_base_string no_repr fresh_store = (Ok knowledge_base, fresh_store) /\
    always_says (fence ++ u "json" ++ [10%N] ++ u "{}" ++ [10%N] ++ fence)
      (bare_prompt knowledge_base (dumps_answers [])) = Ok (Some text) /\
    loads sample_limit (normalize text) = Ok (PyDict reply) /\
    assimilate (proposals reply) fresh_store = (Ok added, fresh_store) /\
    PyDict [(u "_newly_added_traits", PyList [])] = with_accepted reply added.
Proof.
  apply (analyze_returns_reply_with_accepted_keys no_repr bare_prompt sample_limit
           (always_says (fence ++ u "json" ++ [10%N] ++ u "{}" ++ [10%N] ++ fence))
           [] fresh_store).
  vm_compute. reflexivity.
Defined.




(** X17.  A reply that parses to something that is not an object, or to
    an object whose [new_trait_definitions] is not an object, makes
    [analyze] raise [AttributeError] and changes nothing. *)
Theorem analyze_reply_of_wrong_shape py_repr SYSTEM_PROMPT recursion_limit
    generate_content answers self knowledge_base text reply :
  get_knowledge_base_string py_repr self = (Ok knowledge_base, self) ->
  generate_content (SYSTEM_PROMPT knowledge_base (dumps_answers answers))
    = Ok (Some text) ->
  loads recursion_limit (normalize text) = Ok reply ->
  is_dict reply = false \/
  (exists fields new_defs,
     reply = PyDict fields /\
     dict_get (u "new_trait_definitions") fields = Some new_defs /\
     is_dict new_defs = false) ->
  analyze py_repr SYSTEM_PROMPT recursion_limit generate_content answers self
  = (Raise AttributeError, self).
Proof.
  intros K G L H. rewrite analyze_eq, K, G, L.
  destruct H as [H | (fields & nd & -> & D & H)].
  - destruct reply; try reflexivity. discriminate.
  - simpl py_get. rewrite D. rewrite assimilate_eq.
    destruct nd; try reflexivity. discriminate.
Qed.

Lemma analyze_reply_of_wrong_shape_witness :
  analyze no_repr bare_prompt sample_limit (always_says (u "[]")) [] fresh_store
  = (Raise AttributeError, fresh_store).
Proof.
  apply (analyze_reply_of_wrong_shape no_repr bare_prompt sample_limit
      (always_says (u "[]")) []
           fresh_store no_traits_yet (u "[]") (PyList [])).
  - vm_compute. reflexivity.
  - reflexivity.
  - vm_compute. reflexivity.
  - left. reflexivity.
Defined.

(** * Properties of the routes *)

Lemma get_engine_outcome key app r app' :
  Main.get_engine key app = (r, app') ->
  trait_manager app' = trait_manager app /\
  (r = Ok tt -> forall key', Main.get_engine key' app' = (Ok tt, app')) /\
  (forall e, r = Raise e ->
     e = ValueError /\ app' = app /\ (key = None \/ key = Some [])).
Proof.
  unfold Main.get_engine, new_FelixEngine.
  destruct (_engine app) eqn:B.
  - intros H; injection H as <- <-. split; [reflexivity|]. split.
    + intros _ key'. rewrite B. reflexivity.
    + discriminate.
  - destruct key as [[|c k]|]; intros H; injection H as <- <-;
      (split; [reflexivity|]); split; try discriminate; auto.
    + intros e H; injection H as <-. auto.
    + intros e H; injection H as <-. auto.
Qed.

(** X18.  The engine is built once: after [get_engine] has succeeded it
    succeeds again, whatever has become of the key; when it fails, it is
    with [ValueError], for want of a key, and nothing is kept, so the next
    request tries again.  The trait manager is never touched. *)
Theorem get_engine_builds_once key app r app' :
  Main.get_engine key app = (r, app') ->
  trait_manager app' = trait_manager app /\
  (r = Ok tt -> forall key', Main.get_engine key' app' = (Ok tt, app')) /\
  (forall e, r = Raise e ->
     e = ValueError /\ app' = app /\ (key = None \/ key = Some [])).
Proof. apply get_engine_outcome. Qed.

Lemma get_engine_builds_once_witness :
  trait_manager {| trait_manager := fresh_store; _engine := true |}
  = trait_manager {| trait_manager := fresh_store; _engine := false |} /\
  (Ok tt = Ok tt ->
   forall key', Main.get_engine key' {| trait_manager := fresh_store; _engine := true |}
                = (Ok tt, {| trait_manager := fresh_store; _engine := true |})) /\
  (forall e, Ok tt = Raise e ->
     e = ValueError /\
     {| trait_manager := fresh_store; _engine := true |}
     = {| trait_manager := fresh_store; _engine := false |} /\
     (Some (u "k") = None \/ Some (u "k") = Some [])).
Proof.
  apply (get_engine_builds_once (Some (u "k"))
           {| trait_manager := fresh_store; _engine := false |}).
  reflexivity.
Defined.

(** X19.  Without a key and without an engine, the route answers with
    status 500 and the message of [FelixEngine.__init__], whatever the
    answers; the oracle is not asked and nothing is changed. *)
Theorem analyze_route_without_key py_repr SYSTEM_PROMPT recursion_limit key
    exception_text app :
  _engine app = false ->
  key = None \/ key = Some [] ->
  forall generate_content answers,
    Main.analyze py_repr SYSTEM_PROMPT recursion_limit key exception_text
        generate_content answers app
    = (HTTPException 500 (u "GEMINI_API_KEY environment variable is not set"), app).
Proof.
  intros B K gen answers. unfold Main.analyze, Main.get_engine, new_FelixEngine.
  rewrite B. destruct K as [-> | ->]; reflexivity.
Qed.

Lemma analyze_route_without_key_witness :
  Main.analyze no_repr bare_prompt sample_limit None class_name (always_says (u
      "{}")) []
    {| trait_manager := fresh_store; _engine := false |}
  = (HTTPException 500 (u "GEMINI_API_KEY environment variable is not set"),
     {| trait_manager := fresh_store; _engine := false |}).
Proof.
  apply (analyze_route_without_key no_repr bare_prompt sample_limit None class_name
           {| trait_manager := fresh_store; _engine := false |}).
  - reflexivity.
  - left. reflexivity.
Defined.



(** X21.  After the route has answered a request with a result, the
    brain route shows the library the request left: every key listed in
    the answer under [_newly_added_traits] is a trait of it, and was none
    before. *)
Theorem brain_shows_accepted_traits py_repr SYSTEM_PROMPT recursion_limit key
    exception_text generate_content answers app t out app' :
  traits_of (trait_manager app) = Some t ->
  Main.analyze py_repr SYSTEM_PROMPT recursion_limit key exception_text
      generate_content answers app
  = (Reply out, app') ->
  exists reply added t',
    out = with_accepted reply added /\
    get_brain app' = Ok (_library (trait_manager app')) /\
    traits_of (trait_manager app') = Some t' /\
    (forall k, In k added ->
       dict_contains k t' = true /\ dict_contains k t = false).
Proof.
  intros Ht. unfold Main.analyze.
  destruct (Main.get_engine key app) as [[[]|e] app1] eqn:G; [|discriminate].
  destruct (get_engine_outcome _ _ _ _ G) as [T _].
  destruct (analyze py_repr SYSTEM_PROMPT recursion_limit generate_content answers
              (trait_manager app1)) as [[o|e] tm] eqn:A; [|discriminate].
  intros H; injection H as <- <-.
  destruct (analyze_returns_reply_aux py_repr SYSTEM_PROMPT recursion_limit
              generate_content answers
              (trait_manager app1) o tm A) as (reply & added & As & ->).
  rewrite T in As.
  exists reply, added.
  destruct (py_items (proposals reply)) as [items|e] eqn:I.
  - apply py_items_inv in I. rewrite I in As.
    destruct (assimilate_wf items _ t _ _ Ht As) as (new & _ & T' & _ & R & _).
    destruct (R _ eq_refl) as [N ->].
    exists (t ++ new). split; [reflexivity|]. split; [reflexivity|].
    split; [exact T'|]. intros k Hk. split.
    + rewrite dict_contains_app. apply orb_true_iff. right.
      apply dict_contains_in_keys. exact Hk.
    + rewrite N in Hk. apply (accepted_fresh _ _ _ Hk).
  - rewrite assimilate_eq, I in As. discriminate.
Qed.

Lemma brain_shows_accepted_traits_witness :
  exists reply added t',
    with_accepted [(u "new_trait_definitions", PyDict [(u "a", envious)])] [u "a"]
    = with_accepted reply added /\
    get_brain {| trait_manager :=
                   saved (with_library fresh_store (library_with [(u "a", envious)]));
                 _engine := true |}
    = Ok (_library
            (trait_manager
               {| trait_manager :=
                    saved (with_library fresh_store (library_with [(u "a", envious)]));
                  _engine := true |})) /\
    traits_of
      (trait_manager
         {| trait_manager :=
              saved (with_library fresh_store (library_with [(u "a", envious)]));
            _engine := true |})
    = Some t' /\
    (forall k, In k added ->
       dict_contains k t' = true /\ dict_contains k [] = false).
Proof.
  apply (brain_shows_accepted_traits no_repr bare_prompt sample_limit None class_name
           (always_says proposing_reply) []
           {| trait_manager := fresh_store; _engine := true |} []).
  - reflexivity.
  - vm_compute. reflexivity.
Defined.

(** * Further properties of the normalization *)

Lemma forallb_isspace_rev ws :
  forallb isspace ws = true -> forallb isspace (rev ws) = true.
Proof.
  rewrite !forallb_forall. intros H x Hx. apply H. apply in_rev. exact Hx.
Qed.

Lemma rstrip_spaces s ws : forallb isspace ws = true -> rstrip (s ++ ws) = rstrip s.
Proof.
  intros W. unfold rstrip. rewrite rev_app_distr.
  rewrite (lstrip_spaces (rev ws) (rev s) (forallb_isspace_rev ws W)). reflexivity.
Qed.

(** Where the text ends with a character that is neither white space nor
    a backquote, the closing pattern matches nowhere. *)
Lemma close_fence_match_none t c :
  isspace c = false -> c <> 96%N -> close_fence_match (t ++ [c]) = None.
Proof.
  intros C C96. unfold close_fence_match.
  destruct (lstrip_decomp (t ++ [c])) as (ws & E & W & _).
  destruct (@exists_last _ (lstrip (t ++ [c]))) as (q & c' & Q).
  - intros Q. rewrite Q, app_nil_r in E. rewrite <- E in W.
    rewrite forallb_app in W. simpl in W. rewrite C in W.
    rewrite andb_false_r in W. discriminate.
  - rewrite Q in E. rewrite app_assoc in E. apply app_inj_tail in E as [_ <-].
    rewrite Q.
    assert (str_eqb (q ++ [c]) (u "```") = false) as ->.
    { apply str_eqb_neq. intros H.
      change (u "```") with ([96%N; 96%N] ++ [96%N]) in H.
      apply app_inj_tail in H as [_ H]. congruence. }
    assert (str_eqb (q ++ [c]) (u "```" ++ [10%N]) = false) as ->.
    { apply str_eqb_neq. intros H. apply app_inj_tail in H as [_ H].
      subst c. discriminate. }
    reflexivity.
Qed.

Lemma sub_close_fence_without_fence t c :
  isspace c = false -> c <> 96%N -> sub_close_fence (t ++ [c]) = t ++ [c].
Proof.
  intros C C96. induction t as [|x t IH].
  - rewrite sub_close_fence_unfold, (close_fence_match_none [] c C C96). reflexivity.
  - rewrite sub_close_fence_unfold, (close_fence_match_none (x :: t) c C C96).
    simpl. simpl in IH. rewrite IH. reflexivity.
Qed.

(** X22.  A reply that opens with a fence (with no tag or the tag [json])
    and has no closing fence, as when the reply was cut short after the
    content, is read as the content is: when the content, stripped,
    parses and does not end with a backquote, the reply is normalized to
    it and parses to the same value. *)
Theorem fence_left_open_parses_like_content recursion_limit tag ws1 D v :
  tag = [] \/ tag = u "json" ->
  forallb isspace ws1 = true ->
  loads recursion_limit (strip D) = Ok v ->
  (forall t c, strip D = t ++ [c] -> c <> 96%N) ->
  normalize (fence ++ tag ++ ws1 ++ D) = strip D /\
  loads recursion_limit (normalize (fence ++ tag ++ ws1 ++ D)) = Ok v.
Proof.
  intros Htag W1 L Hlast.
  destruct (loads_first_char _ _ _ L) as (c & t & E & C96 & C106).
  destruct (strip_decomp D) as (l & r & ED & Wl & Wr & H).
  destruct H as [H | [(c0 & t0 & H0 & C0) (t1 & c1 & H1 & C1)]]; [congruence|].
  assert (c0 = c) as -> by congruence.
  assert (c1 <> 96%N) as C1' by (apply (Hlast t1); exact H1).
  assert (normalize (fence ++ tag ++ ws1 ++ D) = strip D) as N;
    [|split; [exact N | rewrite N; exact L]].
  unfold normalize.
  assert (strip (fence ++ tag ++ ws1 ++ D)
          = fence ++ tag ++ ws1 ++ l ++ strip D) as ->.
  { unfold strip at 1.
    change (fence ++ tag ++ ws1 ++ D) with (96%N :: (u "``" ++ tag ++ ws1 ++ D)).
    rewrite (lstrip_head 96%N _ eq_refl).
    change (96%N :: (u "``" ++ tag ++ ws1 ++ D)) with (fence ++ tag ++ ws1 ++ D).
    rewrite ED at 1.
    replace (fence ++ tag ++ ws1 ++ l ++ strip D ++ r)
      with ((fence ++ tag ++ ws1 ++ l ++ strip D) ++ r)
      by (rewrite <- !app_assoc; reflexivity).
    rewrite (rstrip_spaces _ r Wr).
    rewrite H1 at 1.
    replace (fence ++ tag ++ ws1 ++ l ++ t1 ++ [c1])
      with ((fence ++ tag ++ ws1 ++ l ++ t1) ++ [c1])
      by (rewrite <- !app_assoc; reflexivity).
    rewrite (rstrip_last _ c1 C1). rewrite <- !app_assoc, <- H1. reflexivity. }
  rewrite (startswith_app fence). unfold sub_open_fence.
  rewrite (startswith_app fence). cbv zeta.
  change (skipn 3 (fence ++ tag ++ ws1 ++ l ++ strip D))
    with (tag ++ ws1 ++ l ++ strip D).
  match goal with
  | |- context [lstrip ?x] => assert (x = ws1 ++ l ++ strip D) as ->
  end.
  { destruct Htag as [-> | ->].
    - simpl app.
      assert (startswith (u "json") (ws1 ++ l ++ strip D) = false) as ->;
        [|reflexivity].
      rewrite H0. change (u "json") with (106%N :: u "son").
      destruct ws1 as [|w ws1]; [destruct l as [|x l]|]; simpl app;
        apply startswith_head_neq.
      + congruence.
      + simpl in Wl. apply andb_true_iff in Wl as [X _]. intros <-. discriminate.
      + simpl in W1. apply andb_true_iff in W1 as [X _]. intros <-. discriminate.
    - rewrite (startswith_app (u "json")). reflexivity. }
  rewrite (lstrip_spaces ws1 _ W1), (lstrip_spaces l _ Wl).
  rewrite H0 at 1. rewrite (lstrip_head c _ C0), <- H0, H1.
  apply sub_close_fence_without_fence; assumption.
Qed.

Lemma fence_left_open_parses_like_content_witness :
  normalize (fence ++ u "json" ++ [10%N] ++ u "{}") = strip (u "{}") /\
  loads sample_limit (normalize (fence ++ u "json" ++ [10%N] ++ u "{}"))
    = Ok (PyDict []).
Proof.
  apply (fence_left_open_parses_like_content sample_limit (u "json") [10%N]
           (u "{}")).
  - right. reflexivity.
  - reflexivity.
  - vm_compute. reflexivity.
  - intros t c H. change (strip (u "{}")) with ([123%N] ++ [125%N]) in H.
    apply app_inj_tail in H as [_ <-]. discriminate.
Defined.

(** * The questions route *)

Lemma loads_backquote recursion_limit t :
  (2 <= recursion_limit)%nat ->
  loads recursion_limit (96%N :: t) = Raise JSONDecodeError.
Proof.
  intros R. unfold loads. change (startswith [65279%N] (96%N :: t)) with false.
  replace (2 * List.length (96%N :: t) + 2)%nat
    with (S (2 * List.length t + 3)) by (cbn [List.length]; lia).
  destruct recursion_limit as [|[|n]]; [lia | lia | reflexivity].
Qed.

(** Brackets opened once more than the stack allows. *)
Lemma scan_once_too_deep depth : forall fuel rest,
  (2 * depth < fuel)%nat ->
  scan_once fuel depth (List.repeat (ch "[") (S depth) ++ rest)
  = Raise RecursionError.
Proof.
  induction depth as [|depth IH]; intros fuel rest F.
  - destruct fuel as [|fuel]; [inversion F|]. reflexivity.
  - destruct fuel as [|[|fuel]]; [lia | lia |].
    change (List.repeat (ch "[") (S (S depth)) ++ rest)
      with (ch "[" :: ch "[" :: (List.repeat (ch "[") depth ++ rest)).
    cbn [scan_once]. change (ch "[" =? quote)%N with false.
    change (ch "[" =? ch "{")%N with false.
    change (ch "[" =? ch "[")%N with true. cbv beta iota.
    cbn [skip_ws]. change (json_ws (ch "[")) with false. cbv beta iota.
    change (ch "[" =? ch "]")%N with false. cbv beta iota.
    cbn [parse_array].
    change (ch "[" :: (List.repeat (ch "[") depth ++ rest))
      with (List.repeat (ch "[") (S depth) ++ rest).
    rewrite (IH fuel rest) by lia. reflexivity.
Qed.

Lemma loads_too_deep recursion_limit rest :
  loads recursion_limit (List.repeat (ch "[") (S recursion_limit) ++ rest)
  = Raise RecursionError.
Proof.
  unfold loads.
  change (List.repeat (ch "[") (S recursion_limit) ++ rest)
    with (ch "[" :: (List.repeat (ch "[") recursion_limit ++ rest)).
  change (startswith [65279%N]
            (ch "[" :: (List.repeat (ch "[") recursion_limit ++ rest)))
    with false.
  cbv beta iota. cbn [skip_ws]. change (json_ws (ch "[")) with false.
  cbv beta iota.
  change (ch "[" :: (List.repeat (ch "[") recursion_limit ++ rest))
    with (List.repeat (ch "[") (S recursion_limit) ++ rest).
  rewrite scan_once_too_deep; [reflexivity|].
  rewrite length_app, repeat_length. lia.
Qed.

(** X23.  The questions route answers with status 404 when there is no
    questions file, and never otherwise.  With a file it answers with
    what the text of the file decodes to, read as it is: a fence around
    the document is not removed here, and makes the route raise
    [JSONDecodeError] (where the stack has the two calls left that
    raising it there takes).  Where the decoding fails, the route lets
    the exception of the decoder through, which is [JSONDecodeError],
    [ValueError] or [RecursionError]; the last one it raises on a file
    that opens more arrays than the stack allows. *)
Theorem get_questions_outcomes recursion_limit :
  get_questions recursion_limit None
  = Ok (HTTPException 404 (u "Questions file not found")) /\
  forall text,
    (forall questions, loads recursion_limit text = Ok questions ->
       get_questions recursion_limit (Some text) = Ok (Reply questions)) /\
    (forall status detail,
       get_questions recursion_limit (Some text)
       <> Ok (HTTPException status detail)) /\
    (forall e, get_questions recursion_limit (Some text) = Raise e ->
       loads recursion_limit text = Raise e /\ decoder_error e) /\
    (forall content,
       (2 <= recursion_limit)%nat -> text = fence ++ content ++ fence ->
       get_questions recursion_limit (Some text) = Raise JSONDecodeError) /\
    (forall rest, text = List.repeat (ch "[") (S recursion_limit) ++ rest ->
       get_questions recursion_limit (Some text) = Raise RecursionError).
Proof.
  split; [reflexivity|].
  intros text. cbn [get_questions].
  split; [intros q ->; reflexivity|].
  split; [destruct (loads recursion_limit text); discriminate|].
  split; [|split].
  - intros e H. destruct (loads recursion_limit text) as [q|e'] eqn:L;
      [discriminate|].
    cbn [rbind] in H. injection H as <-. split; [reflexivity|].
    apply (loads_raises _ _ _ L).
  - intros content R ->.
    change (fence ++ content ++ fence) with (96%N :: (u "``" ++ content ++ fence)).
    rewrite (loads_backquote _ _ R). reflexivity.
  - intros rest ->. rewrite loads_too_deep. reflexivity.
Qed.

(** * A reply nested too deep *)

(** X28.  A reply that, normalized, opens more arrays than the stack
    allows where [json.loads] is called makes [analyze] raise
    [RecursionError], whatever follows the brackets, and changes
    nothing. *)
Theorem analyze_reply_nested_too_deep py_repr SYSTEM_PROMPT recursion_limit
    generate_content answers self knowledge_base text rest :
  get_knowledge_base_string py_repr self = (Ok knowledge_base, self) ->
  generate_content (SYSTEM_PROMPT knowledge_base (dumps_answers answers))
    = Ok (Some text) ->
  normalize text = List.repeat (ch "[") (S recursion_limit) ++ rest ->
  analyze py_repr SYSTEM_PROMPT recursion_limit generate_content answers self
  = (Raise RecursionError, self).
Proof.
  intros K G N. rewrite analyze_eq, K, G, N, loads_too_deep. reflexivity.
Qed.

Lemma analyze_reply_nested_too_deep_witness :
  analyze no_repr bare_prompt 2 (always_says (u "[[[1]]]")) [] fresh_store
  = (Raise RecursionError, fresh_store).
Proof.
  apply (analyze_reply_nested_too_deep no_repr bare_prompt 2
           (always_says (u "[[[1]]]")) [] fresh_store no_traits_yet
           (u "[[[1]]]") (u "1]]]")).
  - vm_compute. reflexivity.
  - reflexivity.
  - vm_compute. reflexivity.
Defined.

(** * The serialization of the answers *)


Ltac plain_literal :=
  repeat (apply Forall_cons; [solve [left; reflexivity
                                    | right; split; vm_compute; discriminate]|]);
  apply Forall_nil.

Lemma hex_digit_plain n : (n < 16)%N -> plain (hex_digit n).
Proof.
  intros H. right. unfold hex_digit. destruct (N.ltb_spec n 10); lia.
Qed.

Lemma escape_uXXXX_plain n : Forall plain (escape_uXXXX n).
Proof.
  unfold escape_uXXXX.
  apply Forall_cons; [right; split; vm_compute; discriminate|].
  apply Forall_cons; [right; split; vm_compute; discriminate|].
  repeat (apply Forall_cons; [apply hex_digit_plain; apply N.mod_lt; discriminate|]).
  apply Forall_nil.
Qed.

Lemma escape_char_plain c : Forall plain (escape_char c).
Proof.
  unfold escape_char.
  repeat match goal with
         | |- context [if (c =? ?k)%N then _ else _] =>
             destruct (c =? k)%N; [plain_literal|]
         end.
  destruct ((32 <=? c) && (c <=? 126))%N eqn:E.
  - apply andb_true_iff in E as [A B].
    apply N.leb_le in A. apply N.leb_le in B.
    apply Forall_cons; [right; split; assumption | apply Forall_nil].
  - destruct (c <? 65536)%N; [apply escape_uXXXX_plain|].
    apply Forall_app; split; apply escape_uXXXX_plain.
Qed.

Lemma dumps_str_plain s : Forall plain (dumps_str s).
Proof.
  unfold dumps_str. apply Forall_app; split; [plain_literal|].
  apply Forall_app; split; [|plain_literal].
  apply Forall_flat_map. apply Forall_forall. intros c _. apply escape_char_plain.
Qed.

Lemma join_plain sep parts :
  Forall plain sep -> Forall (Forall plain) parts -> Forall plain (join sep parts).
Proof.
  intros Hsep. induction 1 as [|x rest Hx Hrest IH]; [apply Forall_nil|].
  destruct rest as [|y rest]; [exact Hx|].
  change (join sep (x :: y :: rest)) with (x ++ sep ++ join sep (y :: rest)).
  apply Forall_app; split; [exact Hx|]. apply Forall_app; split; assumption.
Qed.

Lemma dumps_answer_plain a : Forall plain (dumps_answer a).
Proof.
  unfold dumps_answer.
  repeat (apply Forall_app; split;
          [first [apply dumps_str_plain | plain_literal]|]).
  plain_literal.
Qed.

(** X24.  Whatever the answers hold, the text of them that goes into the
    prompt consists of printable ASCII characters and line feeds only:
    control characters and everything beyond ASCII are written as
    escapes. *)
Theorem dumps_answers_is_plain_ascii answers :
  Forall (fun c => c = 10%N \/ (32 <= c <= 126)%N) (dumps_answers answers).
Proof.
  change (Forall plain (dumps_answers answers)).
  destruct answers as [|a answers]; [plain_literal|].
  unfold dumps_answers.
  repeat (apply Forall_app; split; [plain_literal|]).
  apply Forall_app; split.
  - apply join_plain.
    + apply Forall_app; split; [plain_literal|].
      apply Forall_app; split; plain_literal.
    + apply Forall_forall. intros x Hx. apply in_map_iff in Hx as (b & <- & _).
      apply dumps_answer_plain.
  - apply Forall_app; split; plain_literal.
Qed.


Lemma hex_value_hex_digit n : (n < 16)%N -> hex_value (hex_digit n) = Some n.
Proof.
  intros H. unfold hex_value, hex_digit, is_digit.
  destruct (N.ltb_spec n 10).
  - replace (48 <=? 48 + n)%N with true by (symmetry; apply N.leb_le; lia).
    replace (48 + n <=? 57)%N with true by (symmetry; apply N.leb_le; lia).
    cbn [andb]. f_equal. lia.
  - replace (87 + n <=? 57)%N with false by (symmetry; apply N.leb_gt; lia).
    rewrite andb_false_r.
    replace (97 <=? 87 + n)%N with true by (symmetry; apply N.leb_le; lia).
    replace (87 + n <=? 102)%N with true by (symmetry; apply N.leb_le; lia).
    cbn [andb]. f_equal. lia.
Qed.

Lemma hex_digits_value n :
  (n < 65536)%N ->
  (((n / 4096 mod 16 * 16 + n / 256 mod 16) * 16 + n / 16 mod 16) * 16 + n mod 16
   = n)%N.
Proof.
  intros H.
  pose proof (N.div_mod n 16 ltac:(discriminate)).
  pose proof (N.div_mod (n / 16) 16 ltac:(discriminate)).
  pose proof (N.div_mod (n / 16 / 16) 16 ltac:(discriminate)).
  pose proof (N.mod_lt n 16 ltac:(discriminate)).
  pose proof (N.mod_lt (n / 16) 16 ltac:(discriminate)).
  pose proof (N.mod_lt (n / 16 / 16) 16 ltac:(discriminate)).
  replace (n / 256)%N with (n / 16 / 16)%N
    by (rewrite N.Div0.div_div; reflexivity).
  replace (n / 4096)%N with (n / 16 / 16 / 16)%N
    by (rewrite !N.Div0.div_div; reflexivity).
  assert (n / 16 / 16 / 16 < 16)%N.
  { rewrite !N.Div0.div_div. apply N.Div0.div_lt_upper_bound. exact H. }
  rewrite (N.mod_small (n / 16 / 16 / 16) 16) by assumption.
  lia.
Qed.

Lemma decode_uXXXX_escape n rest :
  (n < 65536)%N ->
  escape_uXXXX n ++ rest
  = backslash :: ch "u" :: skipn 2 (escape_uXXXX n ++ rest) /\
  decode_uXXXX (skipn 2 (escape_uXXXX n ++ rest)) = Some (n, rest).
Proof.
  intros H. split; [reflexivity|].
  unfold escape_uXXXX. cbn [skipn app decode_uXXXX].
  rewrite !hex_value_hex_digit by (apply N.mod_lt; discriminate).
  rewrite (hex_digits_value n H). reflexivity.
Qed.

Lemma scanstring_simple fuel depth e c' rest acc :
  (e =? ch "u")%N = false -> simple_escape e = Some c' ->
  scanstring (S fuel) depth (backslash :: e :: rest) acc
  = scanstring fuel depth rest (c' :: acc).
Proof.
  intros U E. cbn [scanstring].
  change (backslash =? quote)%N with false.
  change (backslash =? backslash)%N with true. cbv beta iota.
  rewrite U, E. reflexivity.
Qed.

Lemma scanstring_uXXXX fuel depth r1 acc :
  scanstring (S fuel) depth (backslash :: ch "u" :: r1) acc
  = match decode_uXXXX r1 with
    | None => raise_errmsg depth
    | Some (uni, r2) =>
        if ((55296 <=? uni) && (uni <=? 56319))%N then
          match r2 with
          | b :: u' :: r3 =>
              if ((b =? backslash) && (u' =? ch "u"))%N then
                match decode_uXXXX r3 with
                | None => raise_errmsg depth
                | Some (uni2, r4) =>
                    if ((56320 <=? uni2) && (uni2 <=? 57343))%N
                    then scanstring fuel depth r4
                           ((65536 + ((uni - 55296) * 1024 + (uni2 - 56320)))%N
                              :: acc)
                    else scanstring fuel depth r2 (uni :: acc)
                end
              else scanstring fuel depth r2 (uni :: acc)
          | _ => scanstring fuel depth r2 (uni :: acc)
          end
        else scanstring fuel depth r2 (uni :: acc)
    end.
Proof. reflexivity. Qed.

Lemma scanstring_escape_uXXXX fuel depth n rest acc :
  (n < 55296 \/ 56319 < n < 65536)%N ->
  scanstring (S fuel) depth (escape_uXXXX n ++ rest) acc
  = scanstring fuel depth rest (n :: acc).
Proof.
  intros H.
  destruct (decode_uXXXX_escape n rest ltac:(lia)) as [E D].
  rewrite E, scanstring_uXXXX, D.
  replace ((55296 <=? n) && (n <=? 56319))%N with false; [reflexivity|].
  symmetry. apply andb_false_iff.
  destruct H; [left; apply N.leb_gt | right; apply N.leb_gt]; lia.
Qed.

Lemma scanstring_escape_pair fuel depth c rest acc :
  (65536 <= c < 1114112)%N ->
  scanstring (S fuel) depth
    (escape_uXXXX (55296 + (c - 65536) / 1024 mod 1024)
       ++ escape_uXXXX (56320 + (c - 65536) mod 1024) ++ rest) acc
  = scanstring fuel depth rest (c :: acc).
Proof.
  intros H.
  assert ((c - 65536) / 1024 < 1024)%N as S1
    by (apply N.Div0.div_lt_upper_bound; lia).
  assert (c = 65536 + ((c - 65536) / 1024 mod 1024 * 1024 + (c - 65536) mod 1024))%N
    as C.
  { rewrite (N.mod_small ((c - 65536) / 1024) 1024) by assumption.
    pose proof (N.div_mod (c - 65536) 1024 ltac:(discriminate)). lia. }
  pose proof (N.mod_lt ((c - 65536) / 1024) 1024 ltac:(discriminate)) as M1.
  pose proof (N.mod_lt (c - 65536) 1024 ltac:(discriminate)) as M2.
  set (hi := ((c - 65536) / 1024 mod 1024)%N) in *.
  set (lo := ((c - 65536) mod 1024)%N) in *.
  clearbody hi lo. clear S1 H.
  assert (((55296 <=? 55296 + hi) && (55296 + hi <=? 56319))%N = true) as R1
    by (apply andb_true_iff; split; apply N.leb_le; lia).
  assert (((56320 <=? 56320 + lo) && (56320 + lo <=? 57343))%N = true) as R2
    by (apply andb_true_iff; split; apply N.leb_le; lia).
  assert (55296 + hi < 65536)%N as B1 by lia.
  assert (56320 + lo < 65536)%N as B2 by lia.
  assert (c = 65536 + ((55296 + hi - 55296) * 1024 + (56320 + lo - 56320)))%N
    as C' by lia.
  destruct (decode_uXXXX_escape (55296 + hi)
              (escape_uXXXX (56320 + lo) ++ rest) B1) as [E1 D1].
  destruct (decode_uXXXX_escape (56320 + lo) rest B2) as [E2 D2].
  rewrite E1, scanstring_uXXXX, D1, R1, E2.
  change ((backslash =? backslash) && (ch "u" =? ch "u"))%N with true.
  cbv beta iota. rewrite D2, R2, <- C'. reflexivity.
Qed.

(** Reading back one character as [escape_char] wrote it takes one step. *)
Lemma scanstring_escape_char fuel depth c rest acc :
  scalar_value c = true ->
  scanstring (S fuel) depth (escape_char c ++ rest) acc
  = scanstring fuel depth rest (c :: acc).
Proof.
  intros V. unfold escape_char.
  destruct (N.eqb_spec c quote) as [->|Q];
    [apply scanstring_simple; reflexivity|].
  destruct (N.eqb_spec c backslash) as [->|B];
    [apply scanstring_simple; reflexivity|].
  destruct (N.eqb_spec c 10) as [->|]; [apply scanstring_simple; reflexivity|].
  destruct (N.eqb_spec c 13) as [->|]; [apply scanstring_simple; reflexivity|].
  destruct (N.eqb_spec c 9) as [->|]; [apply scanstring_simple; reflexivity|].
  destruct (N.eqb_spec c 8) as [->|]; [apply scanstring_simple; reflexivity|].
  destruct (N.eqb_spec c 12) as [->|]; [apply scanstring_simple; reflexivity|].
  unfold scalar_value in V.
  destruct ((32 <=? c) && (c <=? 126))%N eqn:P.
  - apply andb_true_iff in P as [P1 P2]. apply N.leb_le in P1.
    cbn [app scanstring].
    replace (c =? quote)%N with false by (symmetry; apply N.eqb_neq; exact Q).
    replace (c =? backslash)%N with false by (symmetry; apply N.eqb_neq; exact B).
    replace (c <=? 31)%N with false by (symmetry; apply N.leb_gt; lia).
    reflexivity.
  - destruct (N.ltb_spec c 65536) as [L|L].
    + apply scanstring_escape_uXXXX.
      apply orb_true_iff in V as [V|V].
      * left. apply N.ltb_lt. exact V.
      * apply andb_true_iff in V as [V _]. apply N.ltb_lt in V. right. lia.
    + rewrite <- app_assoc. apply scanstring_escape_pair.
      apply orb_true_iff in V as [V|V].
      * apply N.ltb_lt in V. lia.
      * apply andb_true_iff in V as [_ V]. apply N.ltb_lt in V. lia.
Qed.

Lemma scanstring_flat_map depth s : forall fuel rest acc,
  forallb scalar_value s = true -> (List.length s < fuel)%nat ->
  scanstring fuel depth (flat_map escape_char s ++ quote :: rest) acc
  = Ok (rev acc ++ s, rest).
Proof.
  induction s as [|c s IH]; intros fuel rest acc V F.
  - destruct fuel as [|fuel]; [inversion F|]. rewrite app_nil_r. reflexivity.
  - destruct fuel as [|fuel]; [inversion F|].
    cbn [forallb] in V. apply andb_true_iff in V as [Vc Vs].
    cbn [flat_map]. rewrite <- app_assoc.
    rewrite (scanstring_escape_char fuel depth c _ acc Vc).
    rewrite (IH fuel rest (c :: acc) Vs) by (cbn [List.length] in F; lia).
    cbn [rev]. rewrite <- app_assoc. reflexivity.
Qed.

Lemma escape_char_length c : (1 <= List.length (escape_char c))%nat.
Proof.
  unfold escape_char, escape_uXXXX.
  repeat match goal with
         | |- context [if ?b then _ else _] => destruct b
         end; cbn [List.length app]; lia.
Qed.

Lemma flat_map_escape_length s :
  (List.length s <= List.length (flat_map escape_char s))%nat.
Proof.
  induction s as [|c s IH]; [apply le_n|].
  cbn [flat_map List.length]. rewrite length_app.
  pose proof (escape_char_length c). lia.
Qed.

(** A string written by [dumps_str] is read back as it was. *)
Lemma scan_once_dumps_str fuel depth s rest :
  forallb scalar_value s = true ->
  scan_once (S fuel) depth (dumps_str s ++ rest) = Ok (PyStr s, rest).
Proof.
  intros V. unfold dumps_str. rewrite <- !app_assoc.
  change ([quote] ++ flat_map escape_char s ++ [quote] ++ rest)
    with (quote :: (flat_map escape_char s ++ quote :: rest)).
  cbn [scan_once]. change (quote =? quote)%N with true. cbv beta iota.
  rewrite (scanstring_flat_map depth s _ rest [] V).
  - reflexivity.
  - rewrite length_app. pose proof (flat_map_escape_length s).
    cbn [List.length]. lia.
Qed.

Lemma parse_object_quote fuel depth r pairs :
  parse_object (S fuel) depth (quote :: r) pairs
  = rbind (scanstring (List.length r) depth r []) (fun '(key, r1) =>
      match skip_ws r1 with
      | c2 :: r2 =>
          if (c2 =? ch ":")%N then
            rbind (scan_once fuel depth (skip_ws r2)) (fun '(value, r3) =>
            let pairs' := dict_set key value pairs in
            match skip_ws r3 with
            | c4 :: r4 =>
                if (c4 =? ch "}")%N then Ok (PyDict pairs', r4)
                else if (c4 =? ch ",")%N
                     then parse_object fuel depth (skip_ws r4) pairs'
                else raise_errmsg depth
            | [] => raise_errmsg depth
            end)
          else raise_errmsg depth
      | [] => raise_errmsg depth
      end).
Proof. reflexivity. Qed.

(** One member as [dumps] writes it, a key, a colon, a space and a
    string, is read as the key and the string. *)
Lemma parse_object_member fuel depth k v rest pairs :
  forallb scalar_value k = true -> forallb scalar_value v = true ->
  parse_object (S (S fuel)) depth (dumps_str k ++ u ": " ++ dumps_str v ++ rest)
    pairs
  = match skip_ws rest with
    | c4 :: r4 =>
        if (c4 =? ch "}")%N then Ok (PyDict (dict_set k (PyStr v) pairs), r4)
        else if (c4 =? ch ",")%N
             then parse_object (S fuel) depth (skip_ws r4)
                    (dict_set k (PyStr v) pairs)
        else raise_errmsg depth
    | [] => raise_errmsg depth
    end.
Proof.
  intros Vk Vv. unfold dumps_str at 1. rewrite <- !app_assoc.
  change ([quote] ++ flat_map escape_char k ++ [quote] ++ u ": " ++ dumps_str v ++ rest)
    with (quote :: (flat_map escape_char k
                      ++ quote :: ch ":" :: 32%N :: (dumps_str v ++ rest))).
  rewrite parse_object_quote.
  rewrite (scanstring_flat_map depth k _ _ [] Vk)
    by (rewrite length_app; pose proof (flat_map_escape_length k);
        cbn [List.length]; lia).
  cbn [rbind rev app skip_ws].
  change (json_ws (ch ":")) with false. cbv beta iota.
  change (ch ":" =? ch ":")%N with true. cbv beta iota.
  cbn [skip_ws]. change (json_ws 32%N) with true. cbv beta iota.
  assert (skip_ws (dumps_str v ++ rest) = dumps_str v ++ rest) as -> by reflexivity.
  rewrite (scan_once_dumps_str fuel depth v rest Vv). reflexivity.
Qed.

(** An answer as [dumps] writes it is read back as what [model_dump]
    gave. *)
Lemma scan_once_dumps_answer fuel depth a rest :
  forallb scalar_value (question_id a) = true ->
  forallb scalar_value (answer_text a) = true ->
  scan_once (S (S (S (S fuel)))) (S depth) (dumps_answer a ++ rest)
  = Ok (model_dump a, rest).
Proof.
  intros Vq Va. unfold dumps_answer. rewrite <- !app_assoc.
  match goal with
  | |- scan_once _ _ (_ ++ _ ++ _ ++ ?members) = _ =>
      transitivity (parse_object (S (S (S fuel))) depth members []);
        [reflexivity|]
  end.
  rewrite (parse_object_member (S fuel) depth (u "question_id") (question_id a) _ []
             eq_refl Vq).
  match goal with
  | |- context [skip_ws (?c ++ ?w ++ ?sp ++ ?second)] =>
      change (skip_ws (c ++ w ++ sp ++ second)) with (ch "," :: (w ++ sp ++ second));
      cbv beta iota;
      change (ch "," =? ch "}")%N with false;
      change (ch "," =? ch ",")%N with true; cbv beta iota;
      change (skip_ws (w ++ sp ++ second)) with second
  end.
  rewrite (parse_object_member fuel depth (u "answer_text") (answer_text a) _ _
             eq_refl Va).
  reflexivity.
Qed.

Lemma skip_ws_answers b l R :
  skip_ws (join (u "," ++ [10%N] ++ u "  ") (List.map dumps_answer (b :: l)) ++ R)
  = join (u "," ++ [10%N] ++ u "  ") (List.map dumps_answer (b :: l)) ++ R.
Proof. destruct l; reflexivity. Qed.

Lemma parse_array_unfold fuel depth s values :
  parse_array (S fuel) depth s values
  = rbind (scan_once fuel depth s) (fun '(value, r1) =>
      let values' := values ++ [value] in
      match skip_ws r1 with
      | c :: r2 =>
          if (c =? ch "]")%N then Ok (PyList values', r2)
          else if (c =? ch ",")%N then parse_array fuel depth (skip_ws r2) values'
          else raise_errmsg depth
      | [] => raise_errmsg depth
      end).
Proof. reflexivity. Qed.

(** The members of the array, as [dumps] writes them, are read back one
    by one. *)
Lemma parse_array_answers depth l : forall a fuel values rest,
  forallb well_formed (a :: l) = true ->
  (5 + List.length l <= fuel)%nat ->
  parse_array fuel (S depth)
    (join (u "," ++ [10%N] ++ u "  ") (List.map dumps_answer (a :: l))
       ++ [10%N] ++ u "]" ++ rest) values
  = Ok (PyList (values ++ List.map model_dump (a :: l)), rest).
Proof.
  induction l as [|b l IH]; intros a fuel values rest V F;
    cbn [forallb] in V; apply andb_true_iff in V as [Va V];
    apply andb_true_iff in Va as [Vq Vt];
    do 5 (destruct fuel as [|fuel]; [cbn [List.length] in F; lia|]);
    rewrite parse_array_unfold.
  - cbn [List.map join].
    rewrite (scan_once_dumps_answer fuel depth a _ Vq Vt). reflexivity.
  - change (join (u "," ++ [10%N] ++ u "  ") (List.map dumps_answer (a :: b :: l)))
      with (dumps_answer a ++ (u "," ++ [10%N] ++ u "  ")
              ++ join (u "," ++ [10%N] ++ u "  ") (List.map dumps_answer (b :: l))).
    rewrite <- !app_assoc.
    rewrite (scan_once_dumps_answer fuel depth a _ Vq Vt).
    cbn [rbind].
    match goal with
    | |- context [skip_ws (?c ++ ?w ++ ?sp ++ ?J ++ ?tail)] =>
        change (skip_ws (c ++ w ++ sp ++ J ++ tail))
          with (ch "," :: (w ++ sp ++ J ++ tail));
        cbv beta iota zeta;
        change (ch "," =? ch "]")%N with false;
        change (ch "," =? ch ",")%N with true; cbv beta iota;
        change (skip_ws (w ++ sp ++ J ++ tail)) with (skip_ws (J ++ tail))
    end.
    rewrite skip_ws_answers.
    rewrite (IH b (S (S (S (S fuel)))) (values ++ [model_dump a]) rest V)
      by (cbn [List.length] in F; lia).
    rewrite <- app_assoc. reflexivity.
Qed.

Lemma dumps_answer_length a : (1 <= List.length (dumps_answer a))%nat.
Proof.
  unfold dumps_answer. rewrite length_app.
  change (List.length (u "{")) with 1%nat. lia.
Qed.

Lemma join_answers_length sep l :
  (List.length l <= List.length (join sep (List.map dumps_answer l)))%nat.
Proof.
  induction l as [|a l IH]; [apply le_n|].
  destruct l as [|b l].
  - apply (dumps_answer_length a).
  - change (join sep (List.map dumps_answer (a :: b :: l)))
      with (dumps_answer a ++ sep ++ join sep (List.map dumps_answer (b :: l))).
    rewrite !length_app. pose proof (dumps_answer_length a).
    cbn [List.length] in *. lia.
Qed.

(** X25.  The text of the answers that goes into the prompt decodes back
    to the answers as they were submitted: whatever characters an answer
    holds (quotes, backslashes, fences, line breaks, characters beyond
    ASCII), they stay inside its string and cannot change the structure
    of the document.  The strings hold Unicode scalar values, that is no
    surrogate code points, and the decoder has the two recursive calls
    the array and an object in it take. *)
Theorem answers_in_prompt_decode_back recursion_limit answers :
  (2 <= recursion_limit)%nat ->
  forallb well_formed answers = true ->
  loads recursion_limit (dumps_answers answers)
  = Ok (PyList (List.map model_dump answers)).
Proof.
  intros R V. destruct recursion_limit as [|[|depth]]; [lia | lia |].
  destruct answers as [|a l]; [reflexivity|].
  unfold loads, dumps_answers.
  match goal with
  | |- (if startswith _ ?T then _ else _) = _ =>
      change (startswith [65279%N] T) with false; cbv beta iota;
      assert (scan_once (2 * List.length T + 2) (S (S depth)) (skip_ws T)
              = Ok (PyList (List.map model_dump (a :: l)), [])) as ->;
      [|reflexivity]
  end.
  match goal with
  | |- scan_once ?n _ (skip_ws (?o ++ ?w ++ ?sp ++ ?J ++ ?tail)) = _ =>
      change (skip_ws (o ++ w ++ sp ++ J ++ tail))
        with (ch "[" :: (w ++ sp ++ J ++ tail));
      assert (exists fuel, (n = S fuel /\ 5 + List.length l <= fuel)%nat)
        as (fuel & -> & F);
      [|transitivity
          (parse_array fuel (S depth) (J ++ [10%N] ++ u "]" ++ []) [])]
  end.
  - pose proof (join_answers_length (u "," ++ [10%N] ++ u "  ") (a :: l)) as L.
    rewrite !length_app. cbn [List.length] in *.
    eexists. split; [rewrite Nat.add_comm; cbn [Nat.add]; reflexivity|]. lia.
  - cbn [scan_once]. change (ch "[" =? quote)%N with false.
    change (ch "[" =? ch "{")%N with false.
    change (ch "[" =? ch "[")%N with true. cbv beta iota.
    match goal with
    | |- context [skip_ws (?w ++ ?sp ++ ?J ++ ?tail)] =>
        change (skip_ws (w ++ sp ++ J ++ tail)) with (skip_ws (J ++ tail))
    end.
    rewrite skip_ws_answers.
    destruct l; reflexivity.
  - apply (parse_array_answers depth l a fuel [] [] V F).
Qed.

Lemma answers_in_prompt_decode_back_witness :
  loads sample_limit (dumps_answers [tricky_answer])
  = Ok (PyList [model_dump tricky_answer]).
Proof.
  apply (answers_in_prompt_decode_back sample_limit [tricky_answer]).
  - unfold sample_limit. lia.
  - reflexivity.
Defined.
